(** * RD Station deal export: a shallow embedding of the three scripts

    The repository holds three near-identical Python programs that pull
    "deal" pages from a CRM REST endpoint, one calendar day at a time and
    one page at a time, and store every page as a JSON file:

    - [exporta_oportunidades_rdstation.py]           (module [Oportunidades]),
    - the first script of the unnamed source file     (module [GerJsonA]),
    - the second script of the unnamed source file    (module [GerJsonB]).

    Python values are embedded as the inductive [json]; the program state
    (the client's configuration object, the exporter's directory, the
    network call counter, the log/sleep/request trace, the file store and
    the longest sleep the machine takes) is threaded explicitly through a
    small state-and-exception monad. *)

From Stdlib Require Import ZArith String Ascii List Bool Lia.
From stdpp Require Import base option list strings gmap pretty.
Import ListNotations.

Local Open Scope string_scope.
Local Open Scope list_scope.
Local Open Scope Z_scope.

Set Warnings "-register-all".

(** ** Python values *)

(** A decoded JSON document, that is, the Python value [json.loads]
    produces.  [JNull] is Python's [None].  A [float] is identified by its
    canonical [repr] text (the shortest string that round-trips), a [str]
    by its UTF-8 bytes, a [dict] by its items in insertion order (keys
    pairwise distinct). *)
Inductive json : Type :=
  | JNull
  | JBool (b : bool)
  | JInt (n : Z)
  | JFloat (repr : string)
  | JStr (s : string)
  | JArr (items : list json)
  | JObj (fields : list (string * json)).

(** Python exceptions the three scripts can meet.  [RequestException] is
    the base class of everything the [requests] package raises:
    connection errors and timeouts raised by [requests.get], the
    [HTTPError] of [Response.raise_for_status] and the [JSONDecodeError]
    of [Response.json] ([requests.exceptions.JSONDecodeError], a
    [RequestException] subclass since requests 2.27).  The other
    exceptions come from Python itself: among them the [RecursionError]
    and the plain [ValueError] with which the JSON decoder gives up on a
    document nested too deep or holding an integer literal longer than the
    interpreter converts, and the [OverflowError], [ValueError] and
    [OSError] of [time.sleep]. *)
Inductive transport_error : Type :=
  | ConnectionError
  | ConnectTimeout
  | ReadTimeout
  | TooManyRedirects.

Inductive request_exception : Type :=
  | Transport (e : transport_error)
  | HTTPError (status : Z)
  | JSONDecodeError.

Inductive exn : Type :=
  | RequestException (e : request_exception)
  | AttributeError
  | TypeError
  | ValueError
  | OverflowError
  | RecursionError
  | OSError.

(** Outcome of evaluating a Python expression or statement: a value, a
    raised exception, or [OutOfFuel] when a [while] loop of the model was
    not given enough iterations. *)
Inductive result (A : Type) : Type :=
  | Ret (a : A)
  | Raise (e : exn)
  | OutOfFuel.
Arguments Ret {A} a.
Arguments Raise {A} e.
Arguments OutOfFuel {A}.

(** [bool(v)]: Python truth value testing. *)
Definition truthy (v : json) : bool :=
  match v with
  | JNull => false
  | JBool b => b
  | JInt n => negb (n =? 0)
  | JFloat r => negb (String.eqb r "0.0" || String.eqb r "-0.0")
  | JStr s => negb (String.eqb s EmptyString)
  | JArr items => match items with [] => false | _ => true end
  | JObj fields => match fields with [] => false | _ => true end
  end.

(** [len(v)]: defined on [str], [list] and [dict]; a [TypeError] on the
    other values.  The length of a [str] is its number of code points: the
    bytes that are not UTF-8 continuation bytes. *)
Definition is_continuation_byte (c : ascii) : bool :=
  let n := Z.of_N (N_of_ascii c) in (128 <=? n) && (n <? 192).

Fixpoint code_points (s : string) : Z :=
  match s with
  | EmptyString => 0
  | String c s' => (if is_continuation_byte c then 0 else 1) + code_points s'
  end.

Definition py_len (v : json) : result Z :=
  match v with
  | JStr s => Ret (code_points s)
  | JArr items => Ret (Z.of_nat (length items))
  | JObj fields => Ret (Z.of_nat (length fields))
  | _ => Raise TypeError
  end.

(** [d.get(key, default)] on the items of a [dict]. *)
Fixpoint dict_get (fields : list (string * json)) (key : string) (default : json) : json :=
  match fields with
  | [] => default
  | (k, v) :: rest => if String.eqb k key then v else dict_get rest key default
  end.

(** [v.get(key, default)] on an arbitrary value: only a [dict] has the
    method, every other JSON value raises [AttributeError]. *)
Definition py_get (v : json) (key : string) (default : json) : result json :=
  match v with
  | JObj fields => Ret (dict_get fields key default)
  | _ => Raise AttributeError
  end.

(** [isinstance(v, list)]. *)
Definition isinstance_list (v : json) : bool :=
  match v with JArr _ => true | _ => false end.

(** ** Text produced by the scripts *)

(** [str(n)] for an [int]. *)
Definition str_of_int (n : Z) : string := pretty n.

(** Zero padding to a minimal width, as the [%Y], [%m], [%d], [%H], [%M]
    and [%S] directives of [strftime] do for the non-negative fields of a
    [datetime]. *)
Fixpoint zeros (n : nat) : string :=
  match n with O => EmptyString | S n' => "0" +:+ zeros n' end.

Definition zero_pad (width : nat) (n : Z) : string :=
  let digits := str_of_int n in
  zeros (width - String.length digits) +:+ digits.

(** ** json.dump(data, f, ensure_ascii=False, indent=4) *)

Definition hex_digit (n : Z) : string :=
  match n with
  | 10 => "a" | 11 => "b" | 12 => "c" | 13 => "d" | 14 => "e" | 15 => "f"
  | _ => str_of_int n
  end.

(** One character of [json.encoder.py_encode_basestring]: the quote, the
    backslash and the control characters below [0x20] are escaped, every
    other byte (in particular the bytes of a non-ASCII character) is
    written as it is. *)
Definition escape_char (c : ascii) : string :=
  let n := Z.of_N (N_of_ascii c) in
  if n =? 34 then "\" +:+ String c EmptyString
  else if n =? 92 then "\\"
  else if n =? 10 then "\n"
  else if n =? 13 then "\r"
  else if n =? 9 then "\t"
  else if n =? 12 then "\f"
  else if n =? 8 then "\b"
  else if n <? 32 then "\u00" +:+ hex_digit (n / 16) +:+ hex_digit (n mod 16)
  else String c EmptyString.

Fixpoint escape_string (s : string) : string :=
  match s with
  | EmptyString => EmptyString
  | String c s' => escape_char c +:+ escape_string s'
  end.

Definition dquote : string := String "034"%char EmptyString.

Definition encode_basestring (s : string) : string :=
  dquote +:+ escape_string s +:+ dquote.

(** [float.__repr__] as [json] writes it: the three non-finite values have
    JavaScript spellings. *)
Definition encode_float (r : string) : string :=
  if String.eqb r "nan" then "NaN"
  else if String.eqb r "inf" then "Infinity"
  else if String.eqb r "-inf" then "-Infinity"
  else r.

Definition newline : string := String "010"%char EmptyString.

Definition newline_indent (level : nat) : string :=
  newline +:+ String.concat EmptyString (repeat "    " level).

(** The recursive encoder of [json.encoder._make_iterencode] with
    [indent=4] (item separator [","], key separator [": "]). *)
Fixpoint iterencode (level : nat) (v : json) {struct v} : string :=
  match v with
  | JNull => "null"
  | JBool true => "true"
  | JBool false => "false"
  | JInt n => str_of_int n
  | JFloat r => encode_float r
  | JStr s => encode_basestring s
  | JArr [] => "[]"
  | JArr (first :: rest) =>
      "[" +:+ newline_indent (S level) +:+ iterencode (S level) first
      +:+ (fix items (l : list json) : string :=
            match l with
            | [] => EmptyString
            | x :: l' => "," +:+ newline_indent (S level) +:+ iterencode (S level) x +:+ items l'
            end) rest
      +:+ newline_indent level +:+ "]"
  | JObj [] => "{}"
  | JObj ((k, x) :: rest) =>
      "{" +:+ newline_indent (S level) +:+ encode_basestring k +:+ ": " +:+ iterencode (S level) x
      +:+ (fix items (l : list (string * json)) : string :=
            match l with
            | [] => EmptyString
            | (k', x') :: l' =>
                "," +:+ newline_indent (S level) +:+ encode_basestring k' +:+ ": "
                +:+ iterencode (S level) x' +:+ items l'
            end) rest
      +:+ newline_indent level +:+ "}"
  end.

Definition json_dump (data : json) : string := iterencode 0 data.

(** ** datetime *)

Record datetime : Type := mk_datetime {
  year : Z; month : Z; day : Z;
  hour : Z; minute : Z; second : Z; microsecond : Z
}.

(** [date.replace(hour=h, minute=m, second=s)]: the date and the
    microsecond are kept. *)
Definition replace_hms (d : datetime) (h m s : Z) : datetime :=
  {| year := year d; month := month d; day := day d;
     hour := h; minute := m; second := s; microsecond := microsecond d |}.

(** One [strftime] directive.  The scripts use [%Y] (four digits),
    [%m], [%d], [%H], [%M] and [%S] (two digits each). *)
Definition directive (c : ascii) (d : datetime) : string :=
  if Ascii.eqb c "Y" then zero_pad 4 (year d)
  else if Ascii.eqb c "m" then zero_pad 2 (month d)
  else if Ascii.eqb c "d" then zero_pad 2 (day d)
  else if Ascii.eqb c "H" then zero_pad 2 (hour d)
  else if Ascii.eqb c "M" then zero_pad 2 (minute d)
  else if Ascii.eqb c "S" then zero_pad 2 (second d)
  else String "%" (String c EmptyString).

(** [d.strftime(fmt)]. *)
Fixpoint strftime (d : datetime) (fmt : string) : string :=
  match fmt with
  | EmptyString => EmptyString
  | String c rest =>
      if Ascii.eqb c "%" then
        match rest with
        | String c' rest' => directive c' d +:+ strftime d rest'
        | EmptyString => String c EmptyString
        end
      else String c (strftime d rest)
  end.

(** Ordering of two (naive) datetimes: lexicographic on the fields. *)
Fixpoint lex_leb (l1 l2 : list Z) : bool :=
  match l1, l2 with
  | x :: l1', y :: l2' => (x <? y) || ((x =? y) && lex_leb l1' l2')
  | _, _ => true
  end.

Definition datetime_fields (d : datetime) : list Z :=
  [year d; month d; day d; hour d; minute d; second d; microsecond d].

Definition datetime_leb (d1 d2 : datetime) : bool :=
  lex_leb (datetime_fields d1) (datetime_fields d2).

Definition is_leap (y : Z) : bool :=
  ((y mod 4 =? 0) && negb (y mod 100 =? 0)) || (y mod 400 =? 0).

Definition days_in_month (y m : Z) : Z :=
  if m =? 2 then (if is_leap y then 29 else 28)
  else if (m =? 4) || (m =? 6) || (m =? 9) || (m =? 11) then 30
  else 31.

(** [d + timedelta(days=1)]; [OverflowError] past year 9999. *)
Definition add_one_day (d : datetime) : result datetime :=
  let with_date y m dd :=
    {| year := y; month := m; day := dd; hour := hour d; minute := minute d;
       second := second d; microsecond := microsecond d |} in
  if day d <? days_in_month (year d) (month d) then Ret (with_date (year d) (month d) (day d + 1))
  else if month d <? 12 then Ret (with_date (year d) (month d + 1) 1)
  else if year d <? 9999 then Ret (with_date (year d + 1) 1 1)
  else Raise OverflowError.

(** ** Configuration, network and file store *)

(** The [APIConfig] dataclass. *)
Record APIConfig : Type := mk_APIConfig {
  base_url : string;
  token : string;
  per_page : Z;
  retry_attempts : Z;
  retry_delay : Z
}.

(** The dataclass defaults: [per_page = 200], [retry_attempts = 3],
    [retry_delay = 5]. *)
Definition APIConfig_defaults (url tok : string) : APIConfig :=
  mk_APIConfig url tok 200 3 5.

(** A [pathlib.Path], as the sequence of its parts. *)
Definition Path : Type := list string.

(** What [requests.get(url, params=..., headers=..., timeout=...)] puts
    on the wire. *)
Record request : Type := mk_request {
  url : string;
  params : list (string * json);
  headers : list (string * string);
  timeout : option Z
}.

(** How the JSON decoder can give up on a body without reporting a
    [JSONDecodeError]: the recursion limit is hit on a deeply nested
    document ([RecursionError]), or an integer literal has more digits than
    [int] converts ([ValueError], 4300 digits by default). *)
Inductive decoder_crash : Type :=
  | NestingTooDeep
  | IntegerTooLong.

Definition crash_exn (c : decoder_crash) : exn :=
  match c with
  | NestingTooDeep => RecursionError
  | IntegerTooLong => ValueError
  end.

(** What comes back: no response at all, or a status with a body that
    [Response.json] decodes, rejects as not being JSON, or on which the
    decoder gives up. *)
Inductive http_body : Type :=
  | BodyJson (v : json)
  | BodyInvalid
  | BodyCrashes (c : decoder_crash).

Inductive http_outcome : Type :=
  | TransportFailure (e : transport_error)
  | Response (status : Z) (body : http_body).

(** The network: the outcome of the [n]-th HTTP call of the run, which may
    depend on the request made. *)
Definition network : Type := nat -> request -> http_outcome.

Inductive level : Type := INFO | WARNING | ERROR.

(** A line the scripts log or print: an f-string, that is a fixed text,
    named here by what it reports, and the values interpolated into it, in
    the order in which they appear. *)
Inductive report : Type :=
  | FetchOk
  | AttemptFailed
  | Waiting
  | GaveUp
  | Saved
  | EmptyPage
  | AllPagesDone
  | Unexpected.

Inductive fvalue : Type :=
  | VInt (n : Z)
  | VStr (s : string)
  | VPath (p : Path)
  | VExn (e : exn).

Record message : Type := Msg { what : report; values : list fvalue }.

Inductive event : Type :=
  | EvGet (r : request)
  | EvSleep (seconds : Z)
  | EvLog (lvl : level) (msg : message)
  | EvPrint (msg : message)
  | EvMkdir (dir : Path)
  | EvOpenW (file : Path).

(** The state a run threads along: the two objects the scripts build
    ([client.config], [exporter.output_dir]), the number of HTTP calls made
    so far, the trace of observable events (oldest first), the file store
    (contents by path) and the longest sleep, in seconds, the operating
    system takes on the machine of the run (Linux refuses a deadline past
    the range of its clock, so there it is that range less the uptime; the
    model keeps it fixed during a run). *)
Record world : Type := mk_world {
  client_config : APIConfig;
  exporter_output_dir : Path;
  http_calls : nat;
  trace : list event;
  files : gmap Path string;
  longest_sleep : Z
}.

(** ** The state-and-exception monad *)

Definition M (A : Type) : Type := world -> result A * world.

Definition ret {A} (a : A) : M A := fun w => (Ret a, w).

Definition bind {A B} (c : M A) (k : A -> M B) : M B :=
  fun w =>
    match c w with
    | (Ret a, w') => k a w'
    | (Raise e, w') => (Raise e, w')
    | (OutOfFuel, w') => (OutOfFuel, w')
    end.

Notation "'let*' x ':=' c 'in' k" := (bind c (fun x => k))
  (at level 10, x pattern, c at level 100, k at level 200).
Notation "'do' c 'then' k" := (bind c (fun _ => k))
  (at level 10, c at level 100, k at level 200).

(** A pure Python expression that may raise. *)
Definition lift {A} (r : result A) : M A := fun w => (r, w).

(** [try: c  except requests.exceptions.RequestException as e: h e]. *)
Definition try_except_RequestException {A} (c : M A) (h : request_exception -> M A) : M A :=
  fun w =>
    match c w with
    | (Raise (RequestException e), w') => h e w'
    | other => other
    end.

Definition emit (e : event) : M unit :=
  fun w => (Ret tt, mk_world (client_config w) (exporter_output_dir w) (http_calls w)
                             (trace w ++ [e]) (files w) (longest_sleep w)).

Definition log (lvl : level) (msg : message) : M unit := emit (EvLog lvl msg).
Definition print (msg : message) : M unit := emit (EvPrint msg).

(** [self.config] and [self.output_dir]. *)
Definition get_config : M APIConfig := fun w => (Ret (client_config w), w).
Definition get_output_dir : M Path := fun w => (Ret (exporter_output_dir w), w).

(** [requests.get]: the call is made (and counted) whatever its outcome. *)
Definition requests_get (net : network) (r : request) : M (Z * http_body) :=
  fun w =>
    let w' := mk_world (client_config w) (exporter_output_dir w) (S (http_calls w))
                       (trace w ++ [EvGet r]) (files w) (longest_sleep w) in
    match net (http_calls w) r with
    | TransportFailure e => (Raise (RequestException (Transport e)), w')
    | Response status body => (Ret (status, body), w')
    end.

(** [response.raise_for_status()]: an [HTTPError] for the statuses from 400
    to 599, nothing otherwise. *)
Definition raise_for_status (response : Z * http_body) : M unit :=
  let status := fst response in
  if (400 <=? status) && (status <? 600)
  then lift (Raise (RequestException (HTTPError status)))
  else ret tt.

(** [response.json()]: [requests] turns the decoder's [JSONDecodeError]
    into its own; whatever else the decoder raises comes out as it is. *)
Definition response_json (response : Z * http_body) : M json :=
  match snd response with
  | BodyJson v => ret v
  | BodyInvalid => lift (Raise (RequestException JSONDecodeError))
  | BodyCrashes c => lift (Raise (crash_exn c))
  end.

(** The longest sleep CPython itself takes: the length is converted to
    nanoseconds in a signed 64-bit integer. *)
Definition sleep_limit : Z := 9223372036.

(** [time.sleep(seconds)] for an [int]: an [OverflowError] when the
    conversion to nanoseconds overflows, then a [ValueError] for a negative
    length, then an [OSError] when the operating system refuses the
    length. *)
Definition sleep (seconds : Z) : M unit :=
  fun w =>
    if (seconds <? - sleep_limit) || (sleep_limit <? seconds) then (Raise OverflowError, w)
    else if seconds <? 0 then (Raise ValueError, w)
    else if longest_sleep w <? seconds then (Raise OSError, w)
    else emit (EvSleep seconds) w.

(** [with open(path, 'w', encoding='utf-8') as f: f.write(content)]: the
    file is created or truncated, then holds exactly [content]. *)
Definition write_file (path : Path) (content : string) : M unit :=
  fun w => (Ret tt, mk_world (client_config w) (exporter_output_dir w) (http_calls w)
                             (trace w ++ [EvOpenW path]) (<[path := content]> (files w))
                             (longest_sleep w)).

(** [RDStationClient(config)] and [DataExporter(output_directory)]. *)
Definition RDStationClient (config : APIConfig) : M unit :=
  fun w => (Ret tt, mk_world config (exporter_output_dir w) (http_calls w) (trace w) (files w)
                             (longest_sleep w)).

Definition DataExporter (output_directory : Path) : M unit :=
  fun w => (Ret tt, mk_world (client_config w) output_directory (http_calls w)
                             (trace w ++ [EvMkdir output_directory]) (files w) (longest_sleep w)).

(** Control leaving one pass through the body of [while True]. *)
Inductive ctl : Type := Break | Continue.

(** ** exporta_oportunidades_rdstation.py *)

Module Oportunidades.
Section Run.

Variable net : network.

(** The [params] dictionary of [fetch_deals]. *)
Definition fetch_params (config : APIConfig) (date : datetime) (page : Z) : list (string * json) :=
  let start_datetime := replace_hms date 0 0 1 in
  let end_datetime := replace_hms date 23 59 59 in
  [ ("token", JStr (token config));
    ("created_at_period", JBool true);
    ("start_date", JStr (strftime start_datetime "%Y-%m-%dT%H:%M:%S"));
    ("end_date", JStr (strftime end_datetime "%Y-%m-%dT%H:%M:%S"));
    ("page", JInt page);
    ("per_page", JInt (per_page config)) ].

Definition client_headers : list (string * string) := [("accept", "application/json")].

(** One pass through the body of [for attempt in range(retry_attempts)]:
    [Some v] when the body executes [return v], [None] when it falls
    through to the next attempt. *)
Definition attempt_body (date : datetime) (page : Z) (params : list (string * json))
    (attempt : Z) : M (option json) :=
  try_except_RequestException
    (let* config := get_config in
     let* response := requests_get net (mk_request (base_url config) params client_headers None) in
     do raise_for_status response then
     do log INFO (Msg FetchOk [VStr (strftime date "%d/%m/%Y"); VInt page]) then
     let* body := response_json response in
     ret (Some body))
    (fun e =>
       do log WARNING (Msg AttemptFailed [VInt (attempt + 1); VStr (strftime date "%d/%m/%Y");
                                          VInt page; VExn (RequestException e)]) then
       let* config := get_config in
       if attempt <? retry_attempts config - 1 then
         do log INFO (Msg Waiting [VInt (retry_delay config)]) then
         let* config' := get_config in
         do sleep (retry_delay config') then
         ret None
       else
         do log ERROR (Msg GaveUp []) then
         ret (Some JNull)).

(** The [for] loop over [range(n)], from [attempt] on; leaving the loop
    without a [return] makes the function return [None]. *)
Fixpoint attempts (n : nat) (date : datetime) (page : Z) (params : list (string * json))
    (attempt : Z) : M json :=
  match n with
  | O => ret JNull
  | S n' =>
      let* r := attempt_body date page params attempt in
      match r with
      | Some v => ret v
      | None => attempts n' date page params (attempt + 1)
      end
  end.

(** [RDStationClient.fetch_deals(date, page)]. *)
Definition fetch_deals (date : datetime) (page : Z) : M json :=
  let* config := get_config in
  let params := fetch_params config date page in
  let* config' := get_config in
  attempts (Z.to_nat (retry_attempts config')) date page params 0.

(** The file name [save_deals] builds under the output directory. *)
Definition deals_filename (date : datetime) (page : Z) : string :=
  "oportunidades_" +:+ strftime date "%Y-%m-%d" +:+ "_p" +:+ str_of_int page +:+ ".json".

(** [DataExporter.save_deals(data, date, page)]: [None] when nothing was
    saved, the path of the file otherwise. *)
Definition save_deals (data : json) (date : datetime) (page : Z) : M (option Path) :=
  let* deals := lift (py_get data "deals" (JArr [])) in
  if negb (truthy deals) then ret None
  else
    let* output_dir := get_output_dir in
    let filename := output_dir ++ [deals_filename date page] in
    do write_file filename (json_dump data) then
    ret (Some filename).

(** The body of the [while True] loop of [main] for one page. *)
Definition page_body (date : datetime) (page : Z) : M ctl :=
  let* data := fetch_deals date page in
  if negb (truthy data) then ret Break
  else
    let* file_path := save_deals data date page in
    match file_path with
    | None =>
        do log INFO (Msg EmptyPage [VInt page; VStr (strftime date "%d/%m/%Y")]) then
        ret Break
    | Some path =>
        do log INFO (Msg Saved [VInt page; VStr (strftime date "%d/%m/%Y"); VPath path]) then
        let* deals := lift (py_get data "deals" (JArr [])) in
        let* count := lift (py_len deals) in
        let* config := get_config in
        if count <? per_page config then
          do log INFO (Msg AllPagesDone [VStr (strftime date "%d/%m/%Y")]) then
          ret Break
        else ret Continue
    end.

(** [page = ...; while True: ...] for one day, from [page] on. *)
Fixpoint page_loop (fuel : nat) (date : datetime) (page : Z) : M unit :=
  match fuel with
  | O => lift OutOfFuel
  | S fuel' =>
      let* c := page_body date page in
      match c with
      | Break => ret tt
      | Continue => page_loop fuel' date (page + 1)
      end
  end.

(** [while current_date <= end_date: ...]. *)
Fixpoint day_loop (fuel : nat) (current_date end_date : datetime) : M unit :=
  match fuel with
  | O => lift OutOfFuel
  | S fuel' =>
      if datetime_leb current_date end_date then
        do page_loop fuel' current_date 1 then
        let* next := lift (add_one_day current_date) in
        day_loop fuel' next end_date
      else ret tt
  end.

Definition main_base_url : string := "https://crm.rdstation.com/api/v1/deals".

Definition main_output_dir : Path :=
  [ "G:\"; ".shortcut-targets-by-id"; "1kArAZwgCxrjbQwQOPEzeJLtMUll3VVJ7"; "13. Dados";
    "13.9. Atendimento"; "13.9.2. RD Station"; "13.9.2.1. Oportunidade_2026" ].

(** [main()].  The access token written in the script is a credential
    and stays out of this file: [main] takes it as [tok].  [now] is the
    value of [datetime.now()]. *)
Definition main (tok : string) (now : datetime) (fuel : nat) : M unit :=
  let config := APIConfig_defaults main_base_url tok in
  do RDStationClient config then
  do DataExporter main_output_dir then
  let start_date := mk_datetime 2024 7 30 0 0 0 0 in
  day_loop fuel start_date now.

(** The script itself: [main()] under [try], any exception logged. *)
Definition script (tok : string) (now : datetime) (fuel : nat) : M unit :=
  fun w =>
    match main tok now fuel w with
    | (Raise e, w') => log ERROR (Msg Unexpected [VExn e]) w'
    | other => other
    end.

End Run.
End Oportunidades.

(** ** The first script of the unnamed source file *)

Module GerJsonA.
Section Run.

Variable net : network.

Definition fetch_params (config : APIConfig) (date : datetime) (page : Z) : list (string * json) :=
  let start_datetime := replace_hms date 0 0 1 in
  let end_datetime := replace_hms date 23 59 59 in
  [ ("token", JStr (token config));
    ("created_at_period", JStr "custom");
    ("start_date", JStr (strftime start_datetime "%Y-%m-%dT%H:%M:%S"));
    ("end_date", JStr (strftime end_datetime "%Y-%m-%dT%H:%M:%S"));
    ("page", JInt page);
    ("per_page", JInt (per_page config)) ].

Definition client_headers : list (string * string) := [("accept", "application/json")].

(** [data if isinstance(data, list) else data.get('deals', [])]: the
    record list of a page of either shape. *)
Definition registros (data : json) : result json :=
  if isinstance_list data then Ret data else py_get data "deals" (JArr []).

(** [len(data) if isinstance(data, list) else len(data.get('deals', []))]. *)
Definition qtd (data : json) : result Z :=
  if isinstance_list data then py_len data
  else match py_get data "deals" (JArr []) with
       | Ret deals => py_len deals
       | Raise e => Raise e
       | OutOfFuel => OutOfFuel
       end.

Definition attempt_body (date : datetime) (page : Z) (params : list (string * json))
    (attempt : Z) : M (option json) :=
  try_except_RequestException
    (let* config := get_config in
     let* response :=
       requests_get net (mk_request (base_url config) params client_headers (Some 30)) in
     do raise_for_status response then
     let* data := response_json response in
     let* count := lift (qtd data) in
     do log INFO (Msg FetchOk [VStr (strftime date "%d/%m/%Y"); VInt page; VInt count]) then
     ret (Some data))
    (fun e =>
       do log ERROR (Msg AttemptFailed [VInt (attempt + 1); VStr (strftime date "%d/%m/%Y");
                                        VInt page; VExn (RequestException e)]) then
       let* config := get_config in
       if attempt <? retry_attempts config - 1 then
         do log INFO (Msg Waiting [VInt (retry_delay config)]) then
         let* config' := get_config in
         do sleep (retry_delay config') then
         ret None
       else
         let* config' := get_config in
         do log ERROR (Msg GaveUp [VInt (retry_attempts config')]) then
         ret (Some JNull)).

Fixpoint attempts (n : nat) (date : datetime) (page : Z) (params : list (string * json))
    (attempt : Z) : M json :=
  match n with
  | O => ret JNull
  | S n' =>
      let* r := attempt_body date page params attempt in
      match r with
      | Some v => ret v
      | None => attempts n' date page params (attempt + 1)
      end
  end.

Definition fetch_deals (date : datetime) (page : Z) : M json :=
  let* config := get_config in
  let params := fetch_params config date page in
  let* config' := get_config in
  attempts (Z.to_nat (retry_attempts config')) date page params 0.

Definition deals_filename (date : datetime) (page : Z) : string :=
  "oportunidades_" +:+ strftime date "%Y-%m-%d" +:+ "_p" +:+ str_of_int page +:+ ".json".

(** This exporter writes every page it is given. *)
Definition save_deals (data : json) (date : datetime) (page : Z) : M Path :=
  let* output_dir := get_output_dir in
  let filename := output_dir ++ [deals_filename date page] in
  do write_file filename (json_dump data) then
  ret filename.

Definition page_body (date : datetime) (page : Z) : M ctl :=
  let* data := fetch_deals date page in
  if negb (truthy data) then ret Break
  else
    let* file_path := save_deals data date page in
    do log INFO (Msg Saved [VPath file_path]) then
    let* records := lift (registros data) in
    let* short :=
      (if negb (truthy records) then ret true
       else let* count := lift (py_len records) in
            let* config := get_config in
            ret (count <? per_page config)) in
    if (short : bool) then
      do log INFO (Msg AllPagesDone [VStr (strftime date "%d/%m/%Y")]) then
      ret Break
    else ret Continue.

Fixpoint page_loop (fuel : nat) (date : datetime) (page : Z) : M unit :=
  match fuel with
  | O => lift OutOfFuel
  | S fuel' =>
      let* c := page_body date page in
      match c with
      | Break => ret tt
      | Continue => page_loop fuel' date (page + 1)
      end
  end.

(** [while current_date <= end_date: ...]. *)
Fixpoint day_loop (fuel : nat) (current_date end_date : datetime) : M unit :=
  match fuel with
  | O => lift OutOfFuel
  | S fuel' =>
      if datetime_leb current_date end_date then
        do page_loop fuel' current_date 1 then
        let* next := lift (add_one_day current_date) in
        day_loop fuel' next end_date
      else ret tt
  end.

Definition main_base_url : string := "https://crm.rdstation.com/api/v1/deals".

(** The placeholders the script is published with. *)
Definition main_token : string := "Token_fixo".
Definition main_output_dir : Path := [ "pasta_de_destino"; "Nome_da_pasta" ].

(** [main()]; [now] is the value of [datetime.now()]. *)
Definition main (now : datetime) (fuel : nat) : M unit :=
  let config := APIConfig_defaults main_base_url main_token in
  do RDStationClient config then
  do DataExporter main_output_dir then
  let start_date := mk_datetime 2024 7 31 0 0 0 0 in
  day_loop fuel start_date now.

(** The script itself: [main()] under [try], any exception handed to
    [logging.exception]. *)
Definition script (now : datetime) (fuel : nat) : M unit :=
  fun w =>
    match main now fuel w with
    | (Raise e, w') => log ERROR (Msg Unexpected [VExn e]) w'
    | other => other
    end.

End Run.
End GerJsonA.

(** ** The second script of the unnamed source file *)

Module GerJsonB.
Section Run.

Variable net : network.

(** The period selector key is written with two trailing blanks. *)
Definition fetch_params (config : APIConfig) (date : datetime) (page : Z) : list (string * json) :=
  let start_datetime := replace_hms date 0 0 1 in
  let end_datetime := replace_hms date 23 59 59 in
  [ ("token", JStr (token config));
    ("created_at_period  ", JBool true);
    ("start_date", JStr (strftime start_datetime "%Y-%m-%dT%H:%M:%S"));
    ("end_date", JStr (strftime end_datetime "%Y-%m-%dT%H:%M:%S"));
    ("page", JInt page);
    ("per_page", JInt (per_page config)) ].

Definition client_headers : list (string * string) := [("accept", "application/json")].

Definition attempt_body (date : datetime) (page : Z) (params : list (string * json))
    (attempt : Z) : M (option json) :=
  try_except_RequestException
    (let* config := get_config in
     let* response := requests_get net (mk_request (base_url config) params client_headers None) in
     do raise_for_status response then
     let* config' := get_config in
     do print (Msg FetchOk [VStr (strftime date "%d/%m/%Y"); VInt page;
                            VStr (base_url config')]) then
     let* body := response_json response in
     ret (Some body))
    (fun e =>
       let* config := get_config in
       do print (Msg AttemptFailed [VInt (attempt + 1); VStr (strftime date "%d/%m/%Y");
                                    VInt page; VExn (RequestException e);
                                    VStr (base_url config)]) then
       let* config := get_config in
       if attempt <? retry_attempts config - 1 then
         do print (Msg Waiting [VInt (retry_delay config)]) then
         let* config' := get_config in
         do sleep (retry_delay config') then
         ret None
       else
         let* config' := get_config in
         do print (Msg GaveUp [VInt (retry_attempts config')]) then
         ret (Some JNull)).

Fixpoint attempts (n : nat) (date : datetime) (page : Z) (params : list (string * json))
    (attempt : Z) : M json :=
  match n with
  | O => ret JNull
  | S n' =>
      let* r := attempt_body date page params attempt in
      match r with
      | Some v => ret v
      | None => attempts n' date page params (attempt + 1)
      end
  end.

Definition fetch_deals (date : datetime) (page : Z) : M json :=
  let* config := get_config in
  let params := fetch_params config date page in
  let* config' := get_config in
  attempts (Z.to_nat (retry_attempts config')) date page params 0.

Definition deals_filename (date : datetime) (page : Z) : string :=
  "oportunidades_" +:+ strftime date "%Y-%m-%d" +:+ "_p" +:+ str_of_int page +:+ ".json".

Definition save_deals (data : json) (date : datetime) (page : Z) : M Path :=
  let* output_dir := get_output_dir in
  let filename := output_dir ++ [deals_filename date page] in
  do write_file filename (json_dump data) then
  ret filename.

(** Here the page loop goes on exactly when the page carries a truthy
    [has_more] field. *)
Definition page_body (date : datetime) (page : Z) : M ctl :=
  let* data := fetch_deals date page in
  if negb (truthy data) then ret Break
  else
    let* file_path := save_deals data date page in
    do print (Msg Saved [VStr (strftime date "%d/%m/%Y"); VInt page; VPath file_path]) then
    let* has_more := lift (py_get data "has_more" (JBool false)) in
    if negb (truthy has_more) then
      do print (Msg AllPagesDone [VStr (strftime date "%d/%m/%Y")]) then
      ret Break
    else ret Continue.

Fixpoint page_loop (fuel : nat) (date : datetime) (page : Z) : M unit :=
  match fuel with
  | O => lift OutOfFuel
  | S fuel' =>
      let* c := page_body date page in
      match c with
      | Break => ret tt
      | Continue => page_loop fuel' date (page + 1)
      end
  end.

(** [while current_date <= end_date: ...]. *)
Fixpoint day_loop (fuel : nat) (current_date end_date : datetime) : M unit :=
  match fuel with
  | O => lift OutOfFuel
  | S fuel' =>
      if datetime_leb current_date end_date then
        do page_loop fuel' current_date 1 then
        let* next := lift (add_one_day current_date) in
        day_loop fuel' next end_date
      else ret tt
  end.

Definition main_base_url : string := "https://crm.rdstation.com/api/v1/deals".

Definition main_output_dir : Path :=
  [ "G:\"; ".shortcut-targets-by-id"; "1kArAZwgCxrjbQwQOPEzeJLtMUll3VVJ7"; "13. Dados";
    "13.9. Atendimento"; "13.9.2. RD Station"; "13.9.2.1. Oportunidade" ].

(** [main()], with the access token as [tok] and [datetime.now()] as
    [now]. *)
Definition main (tok : string) (now : datetime) (fuel : nat) : M unit :=
  let config := APIConfig_defaults main_base_url tok in
  do RDStationClient config then
  do DataExporter main_output_dir then
  let start_date := mk_datetime 2024 7 1 0 0 0 0 in
  day_loop fuel start_date now.

(** The script itself: [main()] under [try], any exception printed. *)
Definition script (tok : string) (now : datetime) (fuel : nat) : M unit :=
  fun w =>
    match main tok now fuel w with
    | (Raise e, w') => print (Msg Unexpected [VExn e]) w'
    | other => other
    end.

End Run.
End GerJsonB.

(** ** Vocabulary of the statements *)

(** A computation respects a relation between the world before and the
    world after when every run of it does, whatever its outcome. *)
Definition respects (R : world -> world -> Prop) {A} (c : M A) : Prop :=
  forall w, R w (snd (c w)).

(** The two objects built at startup are the same afterwards. *)
Definition same_objects (w w' : world) : Prop :=
  client_config w' = client_config w /\ exporter_output_dir w' = exporter_output_dir w.

(** The trace grew by events that all satisfy [P]. *)
Definition trace_grows (P : event -> Prop) (w w' : world) : Prop :=
  exists new, trace w' = trace w ++ new /\ Forall P new.

(** The file store is the same afterwards. *)
Definition same_files (w w' : world) : Prop := files w' = files w.

(** The run is still on the same machine: the operating system takes the
    same sleeps. *)
Definition same_machine (w w' : world) : Prop := longest_sleep w' = longest_sleep w.

Definition not_a_write (e : event) : Prop :=
  match e with EvOpenW _ => False | _ => True end.

Definition is_log (e : event) : Prop :=
  match e with EvLog _ _ => True | _ => False end.

(** Every request among the events carries the parameters [ps]. *)
Definition gets_with_params (ps : list (string * json)) (e : event) : Prop :=
  match e with EvGet r => params r = ps | _ => True end.

(** The HTTP calls and the sleeps of a trace, in order. *)
Fixpoint wire (t : list event) : list event :=
  match t with
  | [] => []
  | EvGet r :: t' => EvGet r :: wire t'
  | EvSleep s :: t' => EvSleep s :: wire t'
  | _ :: t' => wire t'
  end.

Fixpoint count_gets (t : list event) : nat :=
  match t with
  | [] => O
  | EvGet _ :: t' => S (count_gets t')
  | _ :: t' => count_gets t'
  end.

Fixpoint count_sleeps (t : list event) : nat :=
  match t with
  | [] => O
  | EvSleep _ :: t' => S (count_sleeps t')
  | _ :: t' => count_sleeps t'
  end.

(** [n] calls of the same request with a sleep of [delay] seconds between
    two consecutive calls and none after the last. *)
Fixpoint retry_pattern (r : request) (delay : Z) (n : nat) : list event :=
  match n with
  | O => []
  | S n' =>
      EvGet r :: match n' with
                 | O => []
                 | S _ => EvSleep delay :: retry_pattern r delay n'
                 end
  end.

(** The status codes [raise_for_status] turns into an [HTTPError]. *)
Definition is_error_status (status : Z) : bool := (400 <=? status) && (status <? 600).

(** An HTTP outcome that makes an attempt of [fetch_deals] fail: no
    response, an error status, or a body that is not JSON. *)
Definition attempt_fails (o : http_outcome) : bool :=
  match o with
  | TransportFailure _ => true
  | Response status body =>
      is_error_status status || match body with BodyInvalid => true | _ => false end
  end.

(** A transport error or a status outside 200..299, as the specification
    words a failed attempt. *)
Definition transport_error_or_non_2xx (o : http_outcome) : bool :=
  match o with
  | TransportFailure _ => true
  | Response status _ => negb ((200 <=? status) && (status <? 300))
  end.

(** A transport error or an error status (400..599). *)
Definition transport_error_or_error_status (o : http_outcome) : bool :=
  match o with
  | TransportFailure _ => true
  | Response status _ => is_error_status status
  end.

(** An HTTP outcome on which [Response.json] is reached and the decoder
    gives up: a status [raise_for_status] lets through, with a body nested
    too deep or holding too long an integer. *)
Definition decoder_crashes (o : http_outcome) : bool :=
  match o with
  | Response status (BodyCrashes _) => negb (is_error_status status)
  | _ => false
  end.

(** A length [time.sleep] takes on the machine of [w]: not negative, within
    the range of CPython's conversion, and not longer than the operating
    system accepts. *)
Definition sleep_takes (w : world) (seconds : Z) : Prop :=
  0 <= seconds <= sleep_limit /\ seconds <= longest_sleep w.

(** The text [YYYY-MM-DD] of a date. *)
Definition iso_day (date : datetime) : string :=
  zero_pad 4 (year date) +:+ "-" +:+ zero_pad 2 (month date) +:+ "-" +:+ zero_pad 2 (day date).

(** Query parameters that bound the day [date]: from 00:00:01 to
    23:59:59. *)
Definition day_window (date : datetime) (ps : list (string * json)) : Prop :=
  dict_get ps "start_date" JNull = JStr (iso_day date +:+ "T00:00:01")
  /\ dict_get ps "end_date" JNull = JStr (iso_day date +:+ "T23:59:59").

Definition gets_in_day_window (date : datetime) (e : event) : Prop :=
  match e with EvGet r => day_window date (params r) | _ => True end.

(** The event is an HTTP request for page [page] of the day [date]. *)
Definition asks_for (date : datetime) (page : Z) (e : event) : Prop :=
  match e with
  | EvGet r => dict_get (params r) "page" JNull = JInt page /\ day_window date (params r)
  | _ => False
  end.

(** What a run added to the trace. *)
Definition new_events {A} (c : M A) (w : world) : list event :=
  drop (length (trace w)) (trace (snd (c w))).

(** The retry bound with a failed attempt worded as in the specification
    (a transport error or any status outside 200..299), for every
    configuration. *)
Definition retry_bound_as_stated (net : network) (date : datetime) (page : Z) (w : world) : Prop :=
  let config := client_config w in
  let r := mk_request (base_url config) (Oportunidades.fetch_params config date page)
                      Oportunidades.client_headers None in
  let n := Z.to_nat (retry_attempts config) in
  (forall k, (k < n)%nat -> transport_error_or_non_2xx (net (http_calls w + k)%nat r) = true) ->
  fst (Oportunidades.fetch_deals net date page w) = Ret JNull
  /\ count_gets (new_events (Oportunidades.fetch_deals net date page) w) = n
  /\ count_sleeps (new_events (Oportunidades.fetch_deals net date page) w) = Nat.pred n.

(** The decision of a page loop that looks only at the number [count] of
    records of the page: go on exactly when the page is not empty and
    holds at least [size] records. *)
Definition count_rule (size count : Z) : ctl :=
  if (0 <? count) && (size <=? count) then Continue else Break.

(** *** Calendar *)

(** The fields of a [datetime] are in the ranges the class enforces. *)
Definition valid_date (d : datetime) : Prop :=
  1 <= year d <= 9999 /\ 1 <= month d <= 12 /\ 1 <= day d <= days_in_month (year d) (month d).

Definition valid_time (d : datetime) : Prop :=
  0 <= hour d < 24 /\ 0 <= minute d < 60 /\ 0 <= second d < 60 /\ 0 <= microsecond d < 1000000.

Definition at_midnight (d : datetime) : Prop :=
  hour d = 0 /\ minute d = 0 /\ second d = 0 /\ microsecond d = 0.

(** [date.toordinal()]: the number of the day, 0001-01-01 being day 1. *)
Definition days_before_year (y : Z) : Z :=
  365 * (y - 1) + (y - 1) / 4 - (y - 1) / 100 + (y - 1) / 400.

Definition days_before_month (y m : Z) : Z :=
  match m with
  | 1 => 0 | 2 => 31 | 3 => 59 | 4 => 90 | 5 => 120 | 6 => 151
  | 7 => 181 | 8 => 212 | 9 => 243 | 10 => 273 | 11 => 304 | _ => 334
  end + (if (2 <? m) && is_leap y then 1 else 0).

Definition ordinal (d : datetime) : Z :=
  days_before_year (year d) + days_before_month (year d) (month d) + day d.

(** The number of days from [first] to [last], both included. *)
Definition days_in_range (first last : datetime) : nat :=
  Z.to_nat (ordinal last - ordinal first + 1).

(** *** Pages and files *)

(** The value read from a run of decimal digits. *)
Fixpoint digits_value (acc : Z) (s : string) : Z :=
  match s with
  | EmptyString => acc
  | String c s' => digits_value (10 * acc + (Z.of_N (N_of_ascii c) - 48)) s'
  end.

(** A byte that [json.dump] with [ensure_ascii=False] writes as it is. *)
Definition written_as_is (c : ascii) : bool :=
  let n := Z.of_N (N_of_ascii c) in (32 <=? n) && negb (n =? 34) && negb (n =? 92).

Fixpoint all_written_as_is (s : string) : bool :=
  match s with
  | EmptyString => true
  | String c s' => written_as_is c && all_written_as_is s'
  end.

(** The page number a request asks for. *)
Definition page_of (r : request) : json := dict_get (params r) "page" JNull.

(** The file store after the exporter of exporta_oportunidades_rdstation.py
    saved the [count] pages [first], [first + 1], ... of [book] for the day
    [date] under [dir]. *)
Fixpoint saved_pages (dir : Path) (date : datetime) (book : Z -> json) (first : Z) (count : nat)
    (store : gmap Path string) : gmap Path string :=
  match count with
  | O => store
  | S count' =>
      saved_pages dir date book (first + 1) count'
        (<[dir ++ [Oportunidades.deals_filename date first] := json_dump (book first)]> store)
  end.

(** A network that answers every request for page [p], at any time, with
    status 200 and the body [book p]. *)
Definition serves_book (net : network) (book : Z -> json) : Prop :=
  forall k r p, page_of r = JInt p -> net k r = Response 200 (BodyJson (book p)).

(** A decoded value that is not an object. *)
Definition is_object (v : json) : bool :=
  match v with JObj _ => true | _ => false end.

(** ** Sample runs *)

Definition sample_config : APIConfig :=
  APIConfig_defaults "https://crm.rdstation.com/api/v1/deals" "t".

Definition sample_world : world :=
  mk_world sample_config ["out"] O [] ∅ 9223000000.

Definition sample_date : datetime := mk_datetime 2024 7 1 0 0 0 0.

Definition deal (n : Z) : json := JObj [("id", JInt n)].

Definition always (o : http_outcome) : network := fun _ _ => o.

Definition failing_network : network := always (TransportFailure ConnectionError).

Definition undecodable_network : network := always (Response 200 BodyInvalid).

Definition one_deal_page : json := JObj [("has_more", JBool false); ("deals", JArr [deal 1])].

Definition empty_object_network : network := always (Response 200 (BodyJson (JObj []))).
Definition empty_list_network : network := always (Response 200 (BodyJson (JArr []))).

Definition empty_deals_network : network :=
  always (Response 200 (BodyJson (JObj [("has_more", JBool false); ("deals", JArr [])]))).

(** A world configured for pages of two records, a short page that
    announces more and a full page that announces no more. *)
Definition small_page_world : world :=
  mk_world (mk_APIConfig "https://crm.rdstation.com/api/v1/deals" "t" 2 3 5)
           ["out"] O [] ∅ 9223000000.

Definition short_page_with_more : json :=
  JObj [("has_more", JBool true); ("deals", JArr [deal 1])].

Definition full_page_without_more : json :=
  JObj [("has_more", JBool false); ("deals", JArr [deal 1; deal 2])].

(** A full page under the default configuration: 200 records. *)
Definition full_default_page : json :=
  JObj [("has_more", JBool false); ("deals", JArr (repeat (deal 1) 200))].

Definition serving (page : json) : network := always (Response 200 (BodyJson page)).

(** A network whose first two calls time out and which serves [page]
    from the third call on. *)
Definition flaky_network (page : json) : network :=
  fun k _ => if (k <? 2)%nat then TransportFailure ReadTimeout
             else Response 200 (BodyJson page).

(** A network that answers by page number from a book. *)
Definition book_network (book : Z -> json) : network :=
  fun _ r =>
    match page_of r with
    | JInt p => Response 200 (BodyJson (book p))
    | _ => TransportFailure ConnectionError
    end.

(** A day with one full page and a shorter second page, for pages of two
    records. *)
Definition two_page_book (p : Z) : json :=
  if p =? 1 then full_page_without_more else short_page_with_more.

(** The UTF-8 bytes of a word with a non-ASCII letter (S, a with tilde,
    o). *)
Definition sample_text : string :=
  String "S" (String "195"%char (String "163"%char (String "o" EmptyString))).

Definition sample_now : datetime := mk_datetime 2024 8 1 10 30 0 0.

(** A configuration whose delay is negative. *)
Definition negative_delay_world : world :=
  mk_world (mk_APIConfig "https://crm.rdstation.com/api/v1/deals" "t" 200 3 (-1))
           ["out"] O [] ∅ 9223000000.

(** A configuration whose delay, ten thousand million seconds, is past
    what CPython converts, and one whose delay is within that range but
    longer than the machine's operating system takes. *)
Definition overlong_delay_world : world :=
  mk_world (mk_APIConfig "https://crm.rdstation.com/api/v1/deals" "t" 200 3 10000000000)
           ["out"] O [] ∅ 9223000000.

Definition refused_delay_world : world :=
  mk_world (mk_APIConfig "https://crm.rdstation.com/api/v1/deals" "t" 200 3 9223372036)
           ["out"] O [] ∅ 9223000000.

(** Networks whose answers, with status 200, make the JSON decoder give
    up. *)
Definition too_deep_network : network := always (Response 200 (BodyCrashes NestingTooDeep)).
Definition long_integer_network : network := always (Response 200 (BodyCrashes IntegerTooLong)).

(** ** Sample evaluations *)

Example json_dump_page :
  json_dump (JObj [("has_more", JBool false); ("deals", JArr [JObj [("id", JInt 7)]; JStr "a"])])
  = "{" +:+ newline
    +:+ "    " +:+ dquote +:+ "has_more" +:+ dquote +:+ ": false," +:+ newline
    +:+ "    " +:+ dquote +:+ "deals" +:+ dquote +:+ ": [" +:+ newline
    +:+ "        {" +:+ newline
    +:+ "            " +:+ dquote +:+ "id" +:+ dquote +:+ ": 7" +:+ newline
    +:+ "        }," +:+ newline
    +:+ "        " +:+ dquote +:+ "a" +:+ dquote +:+ newline
    +:+ "    ]" +:+ newline +:+ "}".
Proof. vm_compute. reflexivity. Qed.

Example strftime_iso :
  strftime (mk_datetime 2024 7 1 0 0 1 0) "%Y-%m-%dT%H:%M:%S" = "2024-07-01T00:00:01".
Proof. vm_compute. reflexivity. Qed.

Example add_one_day_leap :
  add_one_day (mk_datetime 2024 2 28 0 0 0 0) = Ret (mk_datetime 2024 2 29 0 0 0 0)
  /\ add_one_day (mk_datetime 2025 2 28 0 0 0 0) = Ret (mk_datetime 2025 3 1 0 0 0 0)
  /\ add_one_day (mk_datetime 2024 12 31 0 0 0 0) = Ret (mk_datetime 2025 1 1 0 0 0 0).
Proof. repeat split. Qed.

(** ** Relations every operation respects *)

Section Frame.

Variable R : world -> world -> Prop.
Variable ok : event -> Prop.

Hypothesis R_refl : forall w, R w w.
Hypothesis R_trans : forall w1 w2 w3, R w1 w2 -> R w2 w3 -> R w1 w3.
Hypothesis R_emit : forall e w, ok e -> R w (snd (emit e w)).
Hypothesis R_get : forall net r w, ok (EvGet r) -> R w (snd (requests_get net r w)).
Hypothesis R_write :
  forall path content w, ok (EvOpenW path) -> R w (snd (write_file path content w)).
Hypothesis ok_log : forall lvl m, ok (EvLog lvl m).
Hypothesis ok_sleep : forall s, ok (EvSleep s).

Lemma respects_ret {A} (a : A) : respects R (ret a).
Proof. intros w. apply R_refl. Qed.

Lemma respects_lift {A} (r : result A) : respects R (lift r).
Proof. intros w. apply R_refl. Qed.

Lemma respects_bind {A B} (c : M A) (k : A -> M B) :
  respects R c -> (forall a, respects R (k a)) -> respects R (bind c k).
Proof.
  intros Hc Hk w. unfold bind. specialize (Hc w).
  destruct (c w) as [[a | e |] w1]; simpl in *; trivial.
  eapply R_trans; [exact Hc | apply Hk].
Qed.

Lemma bind_after {A B} (c : M A) (k : A -> M B) w :
  (forall a, respects R (k a)) -> R (snd (c w)) (snd (bind c k w)).
Proof.
  intros Hk. unfold bind. destruct (c w) as [[a | e |] w1]; simpl; try apply R_refl.
  apply Hk.
Qed.

Lemma respects_try {A} (c : M A) (h : request_exception -> M A) :
  respects R c -> (forall e, respects R (h e)) ->
  respects R (try_except_RequestException c h).
Proof.
  intros Hc Hh w. unfold try_except_RequestException. specialize (Hc w).
  destruct (c w) as [[a | [e | | | | | |] |] w1]; simpl in *; trivial.
  eapply R_trans; [exact Hc | apply Hh].
Qed.

Lemma respects_get_config : respects R get_config.
Proof. intros w. apply R_refl. Qed.

Lemma respects_get_output_dir : respects R get_output_dir.
Proof. intros w. apply R_refl. Qed.

Lemma respects_log lvl m : respects R (log lvl m).
Proof. intros w. apply R_emit, ok_log. Qed.

Lemma respects_sleep s : respects R (sleep s).
Proof.
  intros w. unfold sleep.
  destruct (_ || _); [apply R_refl |].
  destruct (s <? 0); [apply R_refl |].
  destruct (_ <? s); [apply R_refl |].
  apply R_emit, ok_sleep.
Qed.

Lemma respects_raise_for_status r : respects R (raise_for_status r).
Proof. intros w. unfold raise_for_status. destruct (_ && _); apply R_refl. Qed.

Lemma respects_response_json r : respects R (response_json r).
Proof. intros w. unfold response_json. destruct (snd r); apply R_refl. Qed.

Lemma respects_requests_get net r : ok (EvGet r) -> respects R (requests_get net r).
Proof. intros H w. apply R_get, H. Qed.

Lemma respects_write_file path content :
  ok (EvOpenW path) -> respects R (write_file path content).
Proof. intros H w. apply R_write, H. Qed.

Ltac respects_step :=
  first
    [ apply respects_ret
    | apply respects_lift
    | apply respects_get_config
    | apply respects_get_output_dir
    | apply respects_log
    | apply respects_sleep
    | apply respects_raise_for_status
    | apply respects_response_json
    | apply respects_bind; [ | intros ? ]
    | apply respects_try; [ | intros ? ]
    | match goal with
      | |- respects _ (if ?b then _ else _) => destruct b
      | |- respects _ (match ?x with _ => _ end) => destruct x
      end ].

(** *** exporta_oportunidades_rdstation.py *)

Lemma respects_attempt_body net date page ps attempt :
  (forall u, ok (EvGet (mk_request u ps Oportunidades.client_headers None))) ->
  respects R (Oportunidades.attempt_body net date page ps attempt).
Proof.
  intros Hget. unfold Oportunidades.attempt_body.
  apply respects_try.
  - apply respects_bind; [apply respects_get_config | intros config].
    apply respects_bind; [apply respects_requests_get, Hget | intros response].
    repeat respects_step.
  - intros e. repeat respects_step.
Qed.

Lemma respects_attempts net n date page ps attempt :
  (forall u, ok (EvGet (mk_request u ps Oportunidades.client_headers None))) ->
  respects R (Oportunidades.attempts net n date page ps attempt).
Proof.
  intros Hget. revert attempt. induction n as [| n IH]; intros attempt; simpl.
  - apply respects_ret.
  - apply respects_bind; [apply respects_attempt_body, Hget | intros [v |]].
    + apply respects_ret.
    + apply IH.
Qed.

Lemma fetch_deals_respects net date page w :
  (forall u, ok (EvGet (mk_request u (Oportunidades.fetch_params (client_config w) date page)
                                   Oportunidades.client_headers None))) ->
  R w (snd (Oportunidades.fetch_deals net date page w)).
Proof.
  intros Hget. unfold Oportunidades.fetch_deals, bind, get_config. simpl.
  apply respects_attempts, Hget.
Qed.

Lemma respects_save_deals data date page :
  (forall path, ok (EvOpenW path)) ->
  respects R (Oportunidades.save_deals data date page).
Proof.
  intros Hw. unfold Oportunidades.save_deals.
  apply respects_bind; [apply respects_lift | intros deals].
  destruct (negb (truthy deals)); [apply respects_ret |].
  apply respects_bind; [apply respects_get_output_dir | intros dir].
  apply respects_bind; [apply respects_write_file, Hw | intros _].
  apply respects_ret.
Qed.

Lemma respects_page_body net date page :
  (forall r, ok (EvGet r)) -> (forall path, ok (EvOpenW path)) ->
  respects R (Oportunidades.page_body net date page).
Proof.
  intros Hget Hw. unfold Oportunidades.page_body.
  apply respects_bind; [intros w; apply fetch_deals_respects; intros; apply Hget | intros data].
  destruct (negb (truthy data)); [apply respects_ret |].
  apply respects_bind; [apply respects_save_deals, Hw | intros [path |]];
    repeat respects_step.
Qed.

Lemma page_body_after_fetch net date page w :
  (forall path, ok (EvOpenW path)) ->
  R (snd (Oportunidades.fetch_deals net date page w))
    (snd (Oportunidades.page_body net date page w)).
Proof.
  intros Hw. unfold Oportunidades.page_body. apply bind_after. intros data.
  destruct (negb (truthy data)); [apply respects_ret |].
  apply respects_bind; [apply respects_save_deals, Hw | intros [path |]];
    repeat respects_step.
Qed.

Lemma respects_page_loop net fuel date page :
  (forall r, ok (EvGet r)) -> (forall path, ok (EvOpenW path)) ->
  respects R (Oportunidades.page_loop net fuel date page).
Proof.
  intros Hget Hw. revert page. induction fuel as [| fuel IH]; intros page; simpl.
  - apply respects_lift.
  - apply respects_bind; [apply respects_page_body; assumption | intros [|]].
    + apply respects_ret.
    + apply IH.
Qed.

Lemma page_loop_after_fetch net fuel date page w :
  (forall r, ok (EvGet r)) -> (forall path, ok (EvOpenW path)) ->
  R (snd (Oportunidades.fetch_deals net date page w))
    (snd (Oportunidades.page_loop net (S fuel) date page w)).
Proof.
  intros Hget Hw. eapply R_trans; [apply page_body_after_fetch, Hw |].
  simpl. apply bind_after. intros [|].
  - apply respects_ret.
  - apply respects_page_loop; assumption.
Qed.

Lemma respects_day_loop net fuel current_date end_date :
  (forall r, ok (EvGet r)) -> (forall path, ok (EvOpenW path)) ->
  respects R (Oportunidades.day_loop net fuel current_date end_date).
Proof.
  intros Hget Hw. revert current_date.
  induction fuel as [| fuel IH]; intros current_date; simpl.
  - apply respects_lift.
  - destruct (datetime_leb current_date end_date); [| apply respects_ret].
    apply respects_bind; [apply respects_page_loop; assumption | intros _].
    apply respects_bind; [apply respects_lift | intros next].
    apply IH.
Qed.

(** *** The first script of the unnamed source file *)

Lemma respects_attempt_body_A net date page ps attempt :
  (forall u, ok (EvGet (mk_request u ps GerJsonA.client_headers (Some 30)))) ->
  respects R (GerJsonA.attempt_body net date page ps attempt).
Proof.
  intros Hget. unfold GerJsonA.attempt_body.
  apply respects_try.
  - apply respects_bind; [apply respects_get_config | intros config].
    apply respects_bind; [apply respects_requests_get, Hget | intros response].
    repeat respects_step.
  - intros e. repeat respects_step.
Qed.

Lemma respects_attempts_A net n date page ps attempt :
  (forall u, ok (EvGet (mk_request u ps GerJsonA.client_headers (Some 30)))) ->
  respects R (GerJsonA.attempts net n date page ps attempt).
Proof.
  intros Hget. revert attempt. induction n as [| n IH]; intros attempt; simpl.
  - apply respects_ret.
  - apply respects_bind; [apply respects_attempt_body_A, Hget | intros [v |]].
    + apply respects_ret.
    + apply IH.
Qed.

Lemma fetch_deals_respects_A net date page w :
  (forall r, ok (EvGet r)) ->
  R w (snd (GerJsonA.fetch_deals net date page w)).
Proof.
  intros Hget. unfold GerJsonA.fetch_deals, bind, get_config. simpl.
  apply respects_attempts_A. intros u. apply Hget.
Qed.

End Frame.

(** *** The relations at hand *)

Lemma same_objects_refl w : same_objects w w.
Proof. split; reflexivity. Qed.

Lemma same_objects_trans w1 w2 w3 :
  same_objects w1 w2 -> same_objects w2 w3 -> same_objects w1 w3.
Proof. intros [H1 H2] [H3 H4]. split; congruence. Qed.

Lemma trace_grows_refl P w : trace_grows P w w.
Proof. exists []. split; [symmetry; apply app_nil_r | constructor]. Qed.

Lemma trace_grows_trans P w1 w2 w3 :
  trace_grows P w1 w2 -> trace_grows P w2 w3 -> trace_grows P w1 w3.
Proof.
  intros (n1 & E1 & F1) (n2 & E2 & F2). exists (n1 ++ n2). split.
  - rewrite E2, E1. symmetry. apply app_assoc.
  - apply Forall_app. split; assumption.
Qed.

Lemma trace_grows_one P e w w' :
  P e -> trace w' = trace w ++ [e] -> trace_grows P w w'.
Proof. intros He Ht. exists [e]. split; [exact Ht | repeat constructor; exact He]. Qed.

Lemma trace_grows_weaken (P Q : event -> Prop) w w' :
  (forall e, P e -> Q e) -> trace_grows P w w' -> trace_grows Q w w'.
Proof.
  intros HPQ (new & E & F). exists new. split; [exact E |].
  eapply Forall_impl; [exact F | exact HPQ].
Qed.

Lemma requests_get_trace net r w :
  trace (snd (requests_get net r w)) = trace w ++ [EvGet r].
Proof. unfold requests_get. destruct (net (http_calls w) r); reflexivity. Qed.

Lemma requests_get_same_objects net r w : same_objects w (snd (requests_get net r w)).
Proof. unfold requests_get. destruct (net (http_calls w) r); split; reflexivity. Qed.

Lemma requests_get_same_files net r w : same_files w (snd (requests_get net r w)).
Proof. unfold requests_get. destruct (net (http_calls w) r); reflexivity. Qed.

(** [fetch_deals] leaves the configuration, the directory and the files
    alone, and every request it sends carries the parameters it built. *)
Lemma fetch_deals_same_objects net date page w :
  same_objects w (snd (Oportunidades.fetch_deals net date page w)).
Proof.
  apply (fetch_deals_respects same_objects (fun _ => True)); auto.
  - apply same_objects_refl.
  - apply same_objects_trans.
  - intros; split; reflexivity.
  - intros; apply requests_get_same_objects.
Qed.

Lemma fetch_deals_same_files net date page w :
  same_files w (snd (Oportunidades.fetch_deals net date page w)).
Proof.
  apply (fetch_deals_respects same_files not_a_write); simpl; auto.
  - intros w1. reflexivity.
  - unfold same_files. intros; congruence.
  - intros; reflexivity.
  - intros; apply requests_get_same_files.
Qed.

Lemma requests_get_same_machine net r w : same_machine w (snd (requests_get net r w)).
Proof. unfold requests_get. destruct (net (http_calls w) r); reflexivity. Qed.

Lemma fetch_deals_same_machine net date page w :
  same_machine w (snd (Oportunidades.fetch_deals net date page w)).
Proof.
  apply (fetch_deals_respects same_machine (fun _ => True)); simpl; auto.
  - intros w1. reflexivity.
  - unfold same_machine. intros; congruence.
  - intros; reflexivity.
  - intros; apply requests_get_same_machine.
Qed.

Lemma fetch_deals_trace net date page w :
  trace_grows
    (fun e => not_a_write e
              /\ gets_with_params (Oportunidades.fetch_params (client_config w) date page) e)
    w (snd (Oportunidades.fetch_deals net date page w)).
Proof.
  apply (fetch_deals_respects _ (fun e => not_a_write e
              /\ gets_with_params (Oportunidades.fetch_params (client_config w) date page) e)).
  - apply trace_grows_refl.
  - apply trace_grows_trans.
  - intros e w1 He. eapply trace_grows_one; [exact He | reflexivity].
  - intros net' r w1 He. eapply trace_grows_one; [exact He | apply requests_get_trace].
  - simpl. auto.
  - simpl. auto.
  - intros u. simpl. auto.
Qed.

Lemma save_deals_same_objects data date page w :
  same_objects w (snd (Oportunidades.save_deals data date page w)).
Proof.
  apply (respects_save_deals same_objects (fun _ => True)); auto.
  - apply same_objects_refl.
  - apply same_objects_trans.
  - intros; split; reflexivity.
Qed.

Lemma page_body_same_objects net date page w :
  same_objects w (snd (Oportunidades.page_body net date page w)).
Proof.
  apply (respects_page_body same_objects (fun _ => True)); auto.
  - apply same_objects_refl.
  - apply same_objects_trans.
  - intros; split; reflexivity.
  - intros; apply requests_get_same_objects.
  - intros; split; reflexivity.
Qed.

Lemma page_loop_same_objects net fuel date page w :
  same_objects w (snd (Oportunidades.page_loop net fuel date page w)).
Proof.
  apply (respects_page_loop same_objects (fun _ => True)); auto.
  - apply same_objects_refl.
  - apply same_objects_trans.
  - intros; split; reflexivity.
  - intros; apply requests_get_same_objects.
  - intros; split; reflexivity.
Qed.

Lemma day_loop_same_objects net fuel current_date end_date w :
  same_objects w (snd (Oportunidades.day_loop net fuel current_date end_date w)).
Proof.
  apply (respects_day_loop same_objects (fun _ => True)); auto.
  - apply same_objects_refl.
  - apply same_objects_trans.
  - intros; split; reflexivity.
  - intros; apply requests_get_same_objects.
  - intros; split; reflexivity.
Qed.

(** ** The retry loop of fetch_deals *)

Arguments strftime : simpl never.
Arguments json_dump : simpl never.
Arguments str_of_int : simpl never.

Lemma wire_app t1 t2 : wire (t1 ++ t2) = wire t1 ++ wire t2.
Proof.
  induction t1 as [| e t1 IH]; simpl; [reflexivity |].
  destruct e; simpl; rewrite IH; reflexivity.
Qed.

Lemma count_gets_wire t : count_gets (wire t) = count_gets t.
Proof. induction t as [| e t IH]; simpl; [reflexivity |]. destruct e; simpl; congruence. Qed.

Lemma count_sleeps_wire t : count_sleeps (wire t) = count_sleeps t.
Proof. induction t as [| e t IH]; simpl; [reflexivity |]. destruct e; simpl; congruence. Qed.

Lemma retry_pattern_gets r delay n : count_gets (retry_pattern r delay n) = n.
Proof.
  induction n as [| n IH]; [reflexivity |].
  destruct n as [| n]; [reflexivity |].
  change (S (count_gets (retry_pattern r delay (S n))) = S (S n)). rewrite IH. reflexivity.
Qed.

Lemma retry_pattern_sleeps r delay n : count_sleeps (retry_pattern r delay n) = Nat.pred n.
Proof.
  induction n as [| n IH]; [reflexivity |].
  destruct n as [| n]; [reflexivity |].
  change (S (count_sleeps (retry_pattern r delay (S n))) = S n). rewrite IH. reflexivity.
Qed.

(** A length that [time.sleep] takes: the sleep is made and nothing else
    happens. *)
Lemma sleep_taken s w0 w :
  sleep_takes w0 s -> longest_sleep w = longest_sleep w0 ->
  sleep s w = emit (EvSleep s) w.
Proof.
  intros [[H0 Hlimit] Hos] Hw. unfold sleep. rewrite Hw.
  assert (H1 : ((s <? - sleep_limit) || (sleep_limit <? s)) = false).
  { apply orb_false_iff. unfold sleep_limit in *. split; [apply Z.ltb_ge | apply Z.ltb_ge]; lia. }
  assert (H2 : (s <? 0) = false) by (apply Z.ltb_ge; exact H0).
  assert (H3 : (longest_sleep w0 <? s) = false) by (apply Z.ltb_ge; exact Hos).
  rewrite H1, H2, H3. reflexivity.
Qed.

(** A length that [time.sleep] does not take: nothing happens but the
    exception, which tells why. *)
Lemma sleep_refused s w0 w :
  ~ sleep_takes w0 s -> longest_sleep w = longest_sleep w0 ->
  exists e,
    sleep s w = (Raise e, w)
    /\ (s < - sleep_limit \/ sleep_limit < s -> e = OverflowError)
    /\ (- sleep_limit <= s < 0 -> e = ValueError)
    /\ (0 <= s <= sleep_limit -> e = OSError).
Proof.
  intros H Hw. unfold sleep. rewrite Hw.
  destruct ((s <? - sleep_limit) || (sleep_limit <? s)) eqn:H1.
  - exists OverflowError. apply orb_true_iff in H1. rewrite !Z.ltb_lt in H1.
    unfold sleep_limit in *.
    split; [reflexivity |]. split; [reflexivity |]. split; intros; lia.
  - apply orb_false_iff in H1. destruct H1 as [Ha Hb]. apply Z.ltb_ge in Ha, Hb.
    destruct (s <? 0) eqn:H2.
    + exists ValueError. apply Z.ltb_lt in H2.
      split; [reflexivity |]. split; [intros; lia |]. split; [reflexivity | intros; lia].
    + apply Z.ltb_ge in H2. destruct (longest_sleep w0 <? s) eqn:H3.
      * exists OSError.
        split; [reflexivity |]. split; [intros; lia |]. split; [intros; lia | reflexivity].
      * exfalso. apply H. apply Z.ltb_ge in H3. unfold sleep_takes. lia.
Qed.

(** The three tests [sleep] makes before it sleeps. *)
Ltac sleep_cases :=
  repeat match goal with
         | |- context [if ?b then (Raise _, _) else _] => destruct b; simpl
         end.

Lemma retry_pattern_last r delay n :
  last (retry_pattern r delay (S n)) = Some (EvGet r).
Proof.
  induction n as [| n IH]; [reflexivity |].
  change (last (EvGet r :: EvSleep delay :: retry_pattern r delay (S n)) = Some (EvGet r)).
  rewrite <- IH. destruct n; reflexivity.
Qed.

(** One failed attempt: the call is made, and either the loop sleeps and
    goes on (an attempt before the last) or the function returns [None]
    (the last attempt). *)
Lemma attempt_body_fails net date page ps attempt w :
  let config := client_config w in
  let r := mk_request (base_url config) ps Oportunidades.client_headers None in
  attempt_fails (net (http_calls w) r) = true ->
  (attempt < retry_attempts config - 1 -> sleep_takes w (retry_delay config)) ->
  exists new,
    Oportunidades.attempt_body net date page ps attempt w
    = (Ret (if attempt <? retry_attempts config - 1 then None else Some JNull),
       mk_world config (exporter_output_dir w) (S (http_calls w)) (trace w ++ new) (files w)
                (longest_sleep w))
    /\ wire new = EvGet r :: (if attempt <? retry_attempts config - 1
                              then [EvSleep (retry_delay config)] else []).
Proof.
  intros config r Hfail Hdelay.
  unfold Oportunidades.attempt_body, try_except_RequestException, bind, get_config,
    requests_get, raise_for_status, response_json, log, emit, lift, ret.
  simpl. fold config. fold r.
  assert (Hsleep : (attempt <? retry_attempts config - 1) = true ->
                   sleep_takes w (retry_delay config))
    by (intros H; apply Hdelay, Z.ltb_lt, H).
  clear Hdelay.
  destruct (net (http_calls w) r) as [e | status body] eqn:Hnet; simpl in *.
  - destruct (attempt <? retry_attempts config - 1); simpl;
      rewrite ?(sleep_taken _ w _ (Hsleep eq_refl)) by reflexivity; unfold emit; simpl;
      eexists; (split; [rewrite <- !app_assoc; simpl; reflexivity | reflexivity]).
  - unfold is_error_status in Hfail.
    destruct ((400 <=? status) && (status <? 600)); simpl in *.
    + destruct (attempt <? retry_attempts config - 1); simpl;
        rewrite ?(sleep_taken _ w _ (Hsleep eq_refl)) by reflexivity; unfold emit; simpl;
        eexists; (split; [rewrite <- !app_assoc; simpl; reflexivity | reflexivity]).
    + destruct body as [v | | c]; [discriminate | | discriminate]. simpl.
      destruct (attempt <? retry_attempts config - 1); simpl;
        rewrite ?(sleep_taken _ w _ (Hsleep eq_refl)) by reflexivity; unfold emit; simpl;
        eexists; (split; [rewrite <- !app_assoc; simpl; reflexivity | reflexivity]).
Qed.

(** When every remaining attempt fails, the loop makes all of them, sleeps
    between two consecutive ones and returns [None]. *)
Lemma attempts_all_fail net n : forall date page ps attempt w,
  let config := client_config w in
  let r := mk_request (base_url config) ps Oportunidades.client_headers None in
  (n <> O -> Z.of_nat n + attempt = retry_attempts config) ->
  ((2 <= n)%nat -> sleep_takes w (retry_delay config)) ->
  (forall k, (k < n)%nat -> attempt_fails (net (http_calls w + k)%nat r) = true) ->
  exists new,
    Oportunidades.attempts net n date page ps attempt w
    = (Ret JNull,
       mk_world config (exporter_output_dir w) (http_calls w + n)%nat (trace w ++ new) (files w)
                (longest_sleep w))
    /\ wire new = retry_pattern r (retry_delay config) n.
Proof.
  induction n as [| n IH]; intros date page ps attempt w config r Hn Hdelay Hfail.
  - exists []. simpl. unfold ret. rewrite app_nil_r, Nat.add_0_r. destruct w; split; reflexivity.
  - assert (Hn' : Z.of_nat (S n) + attempt = retry_attempts config) by (apply Hn; discriminate).
    clear Hn. rename Hn' into Hn.
    destruct (attempt_body_fails net date page ps attempt w) as (new1 & E1 & W1).
    + specialize (Hfail O). rewrite Nat.add_0_r in Hfail. apply Hfail. lia.
    + fold config. intros Hmore. apply Hdelay. lia.
    + fold config in E1, W1. fold r in W1.
      simpl. unfold bind at 1. rewrite E1.
      destruct (attempt <? retry_attempts config - 1) eqn:Hmore.
      * apply Z.ltb_lt in Hmore.
        edestruct (IH date page ps (attempt + 1)) as (new2 & E2 & W2);
          [ | | | rewrite E2 ]; simpl.
        -- fold config. intros _. lia.
        -- intros Hn2. apply Hdelay. lia.
        -- intros k Hk. fold config. fold r.
           replace (S (http_calls w + k)) with (http_calls w + S k)%nat by lia.
           apply Hfail. lia.
        -- exists (new1 ++ new2). split.
           ++ f_equal. f_equal; [lia | symmetry; apply app_assoc].
           ++ simpl in W2. rewrite wire_app, W1, W2. simpl.
              destruct n as [| n]; [lia | reflexivity].
      * apply Z.ltb_ge in Hmore. assert (n = O) by lia. subst n.
        exists new1. split.
        -- unfold ret. f_equal. f_equal. lia.
        -- rewrite W1. reflexivity.
Qed.

(** Unless the decoder gives up on the body, and with a delay that
    [time.sleep] takes, one attempt ends without an exception: it falls
    through, returns [None], or returns the body it decoded. *)
Lemma attempt_body_returns net date page ps attempt w :
  let config := client_config w in
  let r := mk_request (base_url config) ps Oportunidades.client_headers None in
  (attempt < retry_attempts config - 1 -> sleep_takes w (retry_delay config)) ->
  decoder_crashes (net (http_calls w) r) = false ->
  exists o w',
    Oportunidades.attempt_body net date page ps attempt w = (Ret o, w')
    /\ client_config w' = config
    /\ longest_sleep w' = longest_sleep w
    /\ http_calls w' = S (http_calls w)
    /\ (o = None /\ attempt < retry_attempts config - 1
        \/ o = Some JNull
        \/ exists v status, o = Some v /\ net (http_calls w) r = Response status (BodyJson v)).
Proof.
  intros config r Hdelay Hcrash.
  unfold Oportunidades.attempt_body, try_except_RequestException, bind, get_config,
    requests_get, raise_for_status, response_json, log, emit, lift, ret.
  simpl. fold config. fold r.
  assert (Hsleep : (attempt <? retry_attempts config - 1) = true ->
                   sleep_takes w (retry_delay config))
    by (intros H; apply Hdelay, Z.ltb_lt, H).
  clear Hdelay.
  destruct (net (http_calls w) r) as [e | status body] eqn:Hnet; simpl in *.
  - destruct (attempt <? retry_attempts config - 1) eqn:Hmore; simpl;
      rewrite ?(sleep_taken _ w _ (Hsleep eq_refl)) by reflexivity; unfold emit; simpl;
      do 2 eexists; repeat split; auto.
    left. split; [reflexivity | apply Z.ltb_lt, Hmore].
  - unfold is_error_status in Hcrash.
    destruct ((400 <=? status) && (status <? 600)); simpl in *.
    + destruct (attempt <? retry_attempts config - 1) eqn:Hmore; simpl;
        rewrite ?(sleep_taken _ w _ (Hsleep eq_refl)) by reflexivity; unfold emit; simpl;
        do 2 eexists; repeat split; auto.
      left. split; [reflexivity | apply Z.ltb_lt, Hmore].
    + destruct body as [v | | c]; simpl; [ | | discriminate].
      * do 2 eexists; repeat split. right; right. exists v, status. split; reflexivity.
      * destruct (attempt <? retry_attempts config - 1) eqn:Hmore; simpl;
          rewrite ?(sleep_taken _ w _ (Hsleep eq_refl)) by reflexivity; unfold emit; simpl;
          do 2 eexists; repeat split; auto.
        left. split; [reflexivity | apply Z.ltb_lt, Hmore].
Qed.

Lemma attempts_return net n : forall date page ps attempt w,
  let config := client_config w in
  let r := mk_request (base_url config) ps Oportunidades.client_headers None in
  (n <> O -> Z.of_nat n + attempt = retry_attempts config) ->
  ((2 <= n)%nat -> sleep_takes w (retry_delay config)) ->
  (forall k, (k < n)%nat -> decoder_crashes (net (http_calls w + k)%nat r) = false) ->
  exists v w',
    Oportunidades.attempts net n date page ps attempt w = (Ret v, w')
    /\ (http_calls w' <= http_calls w + n)%nat
    /\ (v = JNull
        \/ exists k status,
             (http_calls w <= k < http_calls w')%nat /\ net k r = Response status (BodyJson v)).
Proof.
  induction n as [| n IH]; intros date page ps attempt w config r Hn Hdelay Hcrash.
  - exists JNull, w. simpl. repeat split; auto. lia.
  - assert (Hn' : Z.of_nat (S n) + attempt = retry_attempts config) by (apply Hn; discriminate).
    clear Hn. rename Hn' into Hn.
    destruct (attempt_body_returns net date page ps attempt w)
      as (o & w1 & E1 & C1 & L1 & N1 & Ho).
    { fold config. intros Hmore. apply Hdelay. lia. }
    { specialize (Hcrash O). rewrite Nat.add_0_r in Hcrash. apply Hcrash. lia. }
    fold config in C1. fold config r in Ho.
    simpl. unfold bind at 1. rewrite E1.
    destruct Ho as [[-> Hmore] | [-> | (v & status & -> & Hnet)]].
    + destruct (IH date page ps (attempt + 1) w1) as (v & w2 & E2 & N2 & Hv).
      { rewrite C1. intros _. lia. }
      { rewrite C1. unfold sleep_takes. rewrite L1. intros Hn2. apply Hdelay. lia. }
      { intros k Hk. rewrite C1, N1. fold r.
        replace (S (http_calls w) + k)%nat with (http_calls w + S k)%nat by lia.
        apply Hcrash. lia. }
      rewrite C1 in Hv. fold r in Hv.
      exists v, w2. rewrite E2. repeat split; [lia |].
      destruct Hv as [-> | (k & status & Hk & Hnet)]; [left; reflexivity | right].
      exists k, status. split; [lia | exact Hnet].
    + exists JNull, w1. repeat split; [lia | left; reflexivity].
    + exists v, w1. repeat split; [lia | right]. exists (http_calls w), status.
      split; [lia | exact Hnet].
Qed.

(** ** The fetch contract *)

Lemma new_events_spec {A} (c : M A) w new :
  trace (snd (c w)) = trace w ++ new -> new_events c w = new.
Proof. intros E. unfold new_events. rewrite E. apply drop_app_length. Qed.

Lemma sleeps_of_pattern r delay n s :
  In (EvSleep s) (retry_pattern r delay n) -> s = delay.
Proof.
  induction n as [| n IH]; simpl; [tauto |].
  intros [H | H]; [discriminate |].
  destruct n as [| n]; [destruct H |].
  destruct H as [H | H]; [congruence | apply IH, H].
Qed.

Lemma In_wire e t : In e (wire t) <-> In e t /\ (match e with EvGet _ | EvSleep _ => True | _ => False end).
Proof.
  induction t as [| x t IH]; simpl; [tauto |].
  destruct x; simpl; rewrite IH; split;
    try (intros [[<- | H] He]; tauto); try tauto;
    try (intros [<- | [H He]]; simpl; tauto).
Qed.

(** C3 (amended). When every attempt of a fetch fails with a transport
    error or an error status (400..599), and the configured delay, if more
    than one attempt is configured, is a length [time.sleep] takes (not
    negative, at most [sleep_limit] seconds and no longer than the
    operating system accepts), [fetch_deals] makes exactly
    [retry_attempts] HTTP calls of the same request, sleeps [retry_delay]
    seconds between two consecutive calls and not after the last one
    ([retry_attempts - 1] sleeps), and returns [None]. *)
Theorem fetch_deals_retry_bound net date page w :
  let config := client_config w in
  let r := mk_request (base_url config) (Oportunidades.fetch_params config date page)
                      Oportunidades.client_headers None in
  let n := Z.to_nat (retry_attempts config) in
  (2 <= retry_attempts config -> sleep_takes w (retry_delay config)) ->
  (forall k, (k < n)%nat ->
     transport_error_or_error_status (net (http_calls w + k)%nat r) = true) ->
  exists w',
    Oportunidades.fetch_deals net date page w = (Ret JNull, w')
    /\ http_calls w' = (http_calls w + n)%nat
    /\ files w' = files w
    /\ wire (new_events (Oportunidades.fetch_deals net date page) w)
       = retry_pattern r (retry_delay config) n
    /\ count_gets (new_events (Oportunidades.fetch_deals net date page) w) = n
    /\ count_sleeps (new_events (Oportunidades.fetch_deals net date page) w) = Nat.pred n
    /\ (forall s, In (EvSleep s) (new_events (Oportunidades.fetch_deals net date page) w) ->
        s = retry_delay config)
    /\ (n <> O ->
        last (wire (new_events (Oportunidades.fetch_deals net date page) w)) = Some (EvGet r)).
Proof.
  intros config r n Hdelay Hfail.
  destruct (attempts_all_fail net n date page (Oportunidades.fetch_params config date page) 0 w)
    as (new & E & W).
  - fold config. fold n. intros Hn. lia.
  - fold config. intros Hn. apply Hdelay. lia.
  - intros k Hk. fold config. fold r. specialize (Hfail k Hk).
    destruct (net (http_calls w + k)%nat r) as [e | status body]; simpl in *; [reflexivity |].
    rewrite Hfail. reflexivity.
  - fold config in E, W. fold r in W.
    assert (F : Oportunidades.fetch_deals net date page w
                = (Ret JNull, mk_world config (exporter_output_dir w) (http_calls w + n)%nat
                                       (trace w ++ new) (files w) (longest_sleep w))).
    { unfold Oportunidades.fetch_deals, bind, get_config. simpl. exact E. }
    assert (N : new_events (Oportunidades.fetch_deals net date page) w = new).
    { apply new_events_spec. rewrite F. reflexivity. }
    eexists. split; [exact F |]. rewrite N. simpl.
    repeat split.
    + exact W.
    + rewrite <- count_gets_wire, W. apply retry_pattern_gets.
    + rewrite <- count_sleeps_wire, W. apply retry_pattern_sleeps.
    + intros s Hs. apply (sleeps_of_pattern r (retry_delay config) n).
      rewrite <- W. apply In_wire. split; [exact Hs | exact I].
    + intros Hn. rewrite W. destruct n as [| m]; [congruence | apply retry_pattern_last].
Qed.

Lemma fetch_deals_retry_bound_witness :
  sleep_takes sample_world (retry_delay (client_config sample_world))
  /\ exists w',
       Oportunidades.fetch_deals failing_network sample_date 1 sample_world = (Ret JNull, w')
       /\ http_calls w' = 3%nat
       /\ count_sleeps (new_events (Oportunidades.fetch_deals failing_network sample_date 1)
                                   sample_world) = 2%nat.
Proof.
  split; [unfold sleep_takes, sleep_limit; simpl; lia |].
  destruct (fetch_deals_retry_bound failing_network sample_date 1 sample_world)
    as (w' & E & Hc & _ & _ & _ & Hs & _).
  - intros _. unfold sleep_takes, sleep_limit. simpl. lia.
  - intros k Hk. reflexivity.
  - exists w'. split; [exact E |]. split; [exact Hc | exact Hs].
Defined.

(** C3 as stated fails on four inputs.  A response with status 300 and a
    JSON body is returned as the page after a single call, although 300 is
    not a 2xx status.  And the first sleep ends the fetch with an
    exception when the configured delay is not a length [time.sleep]
    takes: [ValueError] for a negative one, [OverflowError] for ten
    thousand million seconds, [OSError] for a length CPython converts but
    the operating system refuses. *)
Lemma retry_bound_counterexample :
  ~ retry_bound_as_stated (always (Response 300 (BodyJson one_deal_page)))
      sample_date 1 sample_world
  /\ ~ retry_bound_as_stated failing_network sample_date 1 negative_delay_world
  /\ ~ retry_bound_as_stated failing_network sample_date 1 overlong_delay_world
  /\ ~ retry_bound_as_stated failing_network sample_date 1 refused_delay_world.
Proof.
  repeat split; intros H; unfold retry_bound_as_stated in H; destruct H as [H _];
    try (intros k Hk; reflexivity); vm_compute in H; discriminate.
Qed.

(** C7 (amended). Provided that the JSON decoder gives up on none of the
    bodies [Response.json] is asked to decode, and that the configured
    delay, if more than one attempt is configured, is a length
    [time.sleep] takes, [fetch_deals] does not raise: it returns [None] or
    the body decoded from one of the responses of this call; and when
    every attempt gets a 2xx response whose body is not JSON, each one is
    retried like a failed attempt and the result is [None]. *)
Theorem fetch_deals_never_raises net date page w :
  let config := client_config w in
  let r := mk_request (base_url config) (Oportunidades.fetch_params config date page)
                      Oportunidades.client_headers None in
  let n := Z.to_nat (retry_attempts config) in
  (2 <= retry_attempts config -> sleep_takes w (retry_delay config)) ->
  (forall k, (k < n)%nat -> decoder_crashes (net (http_calls w + k)%nat r) = false) ->
  (exists v w',
     Oportunidades.fetch_deals net date page w = (Ret v, w')
     /\ (v = JNull
         \/ exists k status,
              (http_calls w <= k < http_calls w')%nat /\ net k r = Response status (BodyJson v)))
  /\ ((forall k, (k < n)%nat ->
         exists status, 200 <= status < 300
                        /\ net (http_calls w + k)%nat r = Response status BodyInvalid) ->
      exists w',
        Oportunidades.fetch_deals net date page w = (Ret JNull, w')
        /\ http_calls w' = (http_calls w + n)%nat
        /\ wire (new_events (Oportunidades.fetch_deals net date page) w)
           = retry_pattern r (retry_delay config) n).
Proof.
  intros config r n Hdelay Hcrash.
  assert (Hdelay' : (2 <= n)%nat -> sleep_takes w (retry_delay config))
    by (intros Hn; apply Hdelay; lia).
  split.
  - destruct (attempts_return net n date page (Oportunidades.fetch_params config date page) 0 w)
      as (v & w' & E & _ & Hv).
    + fold config. fold n. intros Hn. lia.
    + exact Hdelay'.
    + exact Hcrash.
    + exists v, w'. split; [| exact Hv].
      unfold Oportunidades.fetch_deals, bind, get_config. simpl. exact E.
  - intros Hbad.
    destruct (attempts_all_fail net n date page (Oportunidades.fetch_params config date page) 0 w)
      as (new & E & W).
    + fold config. fold n. intros Hn. lia.
    + exact Hdelay'.
    + intros k Hk. fold config. fold r. destruct (Hbad k Hk) as (status & _ & ->).
      simpl. apply orb_true_r.
    + fold config in E, W. fold r in W.
      assert (F : Oportunidades.fetch_deals net date page w
                  = (Ret JNull, mk_world config (exporter_output_dir w) (http_calls w + n)%nat
                                         (trace w ++ new) (files w) (longest_sleep w))).
      { unfold Oportunidades.fetch_deals, bind, get_config. simpl. exact E. }
      eexists. split; [exact F |]. split; [reflexivity |].
      rewrite (new_events_spec _ w new); [exact W | rewrite F; reflexivity].
Qed.

Lemma fetch_deals_never_raises_witness :
  sleep_takes sample_world (retry_delay (client_config sample_world))
  /\ exists w',
       Oportunidades.fetch_deals undecodable_network sample_date 1 sample_world = (Ret JNull, w')
       /\ http_calls w' = 3%nat.
Proof.
  split; [unfold sleep_takes, sleep_limit; simpl; lia |].
  destruct (fetch_deals_never_raises undecodable_network sample_date 1 sample_world)
    as [_ H].
  - intros _. unfold sleep_takes, sleep_limit. simpl. lia.
  - intros k Hk. reflexivity.
  - destruct H as (w' & E & Hc & _).
    + intros k Hk. exists 200. split; [lia | reflexivity].
    + exists w'. split; [exact E | exact Hc].
Defined.

(** C7 as stated fails: exceptions that are not a [RequestException] pass
    the [except] clause.  A response with status 200 whose body is nested
    too deep, or holds too long an integer, ends the fetch after one call
    with the [RecursionError], or the [ValueError], of the decoder; and
    with the network down, a delay that [time.sleep] does not take ends it
    after one call with the exception of [time.sleep], raised inside the
    [except] block. *)
Lemma never_raises_counterexample :
  (let out := Oportunidades.fetch_deals too_deep_network sample_date 1 sample_world in
   fst out = Raise RecursionError /\ http_calls (snd out) = 1%nat)
  /\ (let out := Oportunidades.fetch_deals long_integer_network sample_date 1 sample_world in
      fst out = Raise ValueError /\ http_calls (snd out) = 1%nat)
  /\ (let out := Oportunidades.fetch_deals failing_network sample_date 1 negative_delay_world in
      fst out = Raise ValueError /\ http_calls (snd out) = 1%nat)
  /\ (let out := Oportunidades.fetch_deals failing_network sample_date 1 overlong_delay_world in
      fst out = Raise OverflowError /\ http_calls (snd out) = 1%nat)
  /\ (let out := Oportunidades.fetch_deals failing_network sample_date 1 refused_delay_world in
      fst out = Raise OSError /\ http_calls (snd out) = 1%nat).
Proof. repeat split; vm_compute; reflexivity. Qed.

(** ** The query window *)

Lemma string_app_assoc (a b c : string) : (a +:+ b) +:+ c = a +:+ (b +:+ c).
Proof.
  induction a as [| x a IH]; [reflexivity |].
  change (String x ((a +:+ b) +:+ c) = String x (a +:+ (b +:+ c))). rewrite IH. reflexivity.
Qed.

Lemma fetch_params_day_window config date page :
  day_window date (Oportunidades.fetch_params config date page).
Proof. split; unfold iso_day; rewrite !string_app_assoc; reflexivity. Qed.

Lemma fetch_params_page config date page :
  dict_get (Oportunidades.fetch_params config date page) "page" JNull = JInt page.
Proof. reflexivity. Qed.

(** The first thing an attempt does is to send the request. *)
Lemma attempt_body_first_event net date page ps attempt w :
  exists rest,
    trace (snd (Oportunidades.attempt_body net date page ps attempt w))
    = trace w ++ EvGet (mk_request (base_url (client_config w)) ps
                                   Oportunidades.client_headers None) :: rest.
Proof.
  unfold Oportunidades.attempt_body, try_except_RequestException, bind, get_config,
    requests_get, raise_for_status, response_json, log, emit, sleep, lift, ret.
  simpl.
  destruct (net (http_calls w) _) as [e | status body]; simpl;
    [ | destruct ((400 <=? status) && (status <? 600)); simpl;
        [ | destruct body as [v | | [ | ]]; simpl ] ];
    try (destruct (attempt <? retry_attempts (client_config w) - 1); simpl; sleep_cases);
    rewrite <- ?app_assoc; simpl; eexists; reflexivity.
Qed.

Lemma fetch_deals_first_event net date page w :
  1 <= retry_attempts (client_config w) ->
  exists rest,
    trace (snd (Oportunidades.fetch_deals net date page w))
    = trace w ++ EvGet (mk_request (base_url (client_config w))
                                   (Oportunidades.fetch_params (client_config w) date page)
                                   Oportunidades.client_headers None) :: rest.
Proof.
  intros Hn. unfold Oportunidades.fetch_deals, bind at 1 2, get_config. simpl.
  destruct (Z.to_nat (retry_attempts (client_config w))) as [| n] eqn:En; [lia |].
  simpl.
  destruct (attempt_body_first_event net date page
              (Oportunidades.fetch_params (client_config w) date page) 0 w) as (rest1 & E1).
  assert (G : trace_grows (fun _ => True)
                (snd (Oportunidades.attempt_body net date page
                        (Oportunidades.fetch_params (client_config w) date page) 0 w))
                (snd (bind (Oportunidades.attempt_body net date page
                        (Oportunidades.fetch_params (client_config w) date page) 0)
                        (fun r => match r with
                                  | Some v => ret v
                                  | None => Oportunidades.attempts net n date page
                                              (Oportunidades.fetch_params (client_config w) date page)
                                              (0 + 1)
                                  end) w))).
  { apply (bind_after (trace_grows (fun _ => True))).
    - apply trace_grows_refl.
    - intros [v |].
      + apply respects_ret. apply trace_grows_refl.
      + apply (respects_attempts _ (fun _ => True)); auto.
        * apply trace_grows_refl.
        * apply trace_grows_trans.
        * intros e w1 He. eapply trace_grows_one; [exact He | reflexivity].
        * intros net' r w1 He. eapply trace_grows_one; [exact He | apply requests_get_trace]. }
  destruct G as (new & E2 & _). rewrite E2, E1, <- app_assoc. simpl. eexists. reflexivity.
Qed.

(** C8. The parameters [fetch_deals] builds bound the day from 00:00:01
    to 23:59:59, written [YYYY-MM-DDTHH:MM:SS]; every request it sends
    carries them, and with at least one attempt configured the first
    thing it does is to send such a request. *)
Theorem fetch_deals_day_window net date page w :
  dict_get (Oportunidades.fetch_params (client_config w) date page) "start_date" JNull
  = JStr (zero_pad 4 (year date) +:+ "-" +:+ zero_pad 2 (month date) +:+ "-"
          +:+ zero_pad 2 (day date) +:+ "T00:00:01")
  /\ dict_get (Oportunidades.fetch_params (client_config w) date page) "end_date" JNull
     = JStr (zero_pad 4 (year date) +:+ "-" +:+ zero_pad 2 (month date) +:+ "-"
             +:+ zero_pad 2 (day date) +:+ "T23:59:59")
  /\ trace_grows (gets_in_day_window date) w (snd (Oportunidades.fetch_deals net date page w))
  /\ (1 <= retry_attempts (client_config w) ->
      exists r rest,
        new_events (Oportunidades.fetch_deals net date page) w = EvGet r :: rest
        /\ day_window date (params r)).
Proof.
  split; [reflexivity |]. split; [reflexivity |]. split.
  - eapply trace_grows_weaken; [| apply fetch_deals_trace].
    intros [r | | | | |] [_ H]; simpl in *; trivial.
    rewrite H. apply fetch_params_day_window.
  - intros Hn. destruct (fetch_deals_first_event net date page w Hn) as (rest & E).
    eexists _, rest. split.
    + apply new_events_spec. exact E.
    + apply fetch_params_day_window.
Qed.

Lemma fetch_deals_day_window_witness :
  1 <= retry_attempts (client_config sample_world)
  /\ exists r rest,
       new_events (Oportunidades.fetch_deals failing_network sample_date 1) sample_world
       = EvGet r :: rest
       /\ dict_get (params r) "start_date" JNull = JStr "2024-07-01T00:00:01"
       /\ dict_get (params r) "end_date" JNull = JStr "2024-07-01T23:59:59".
Proof.
  split; [simpl; lia |].
  destruct (fetch_deals_day_window failing_network sample_date 1 sample_world)
    as (_ & _ & _ & H).
  destruct H as (r & rest & E & Hs & He); [simpl; lia |].
  exists r, rest. split; [exact E |]. split; [exact Hs | exact He].
Defined.

(** ** The configuration is read-only *)

(** C9. No operation of a run changes the configuration object: it is
    the same after a fetch, an export, a page, a day's pages and the whole
    loop over the days, and after [main] it is the configuration [main]
    built at startup. *)
Theorem config_never_mutated net tok now date end_date page data fuel w :
  client_config (snd (Oportunidades.fetch_deals net date page w)) = client_config w
  /\ client_config (snd (Oportunidades.save_deals data date page w)) = client_config w
  /\ client_config (snd (Oportunidades.page_body net date page w)) = client_config w
  /\ client_config (snd (Oportunidades.page_loop net fuel date page w)) = client_config w
  /\ client_config (snd (Oportunidades.day_loop net fuel date end_date w)) = client_config w
  /\ client_config (snd (Oportunidades.main net tok now fuel w))
     = APIConfig_defaults Oportunidades.main_base_url tok.
Proof.
  repeat split.
  - apply fetch_deals_same_objects.
  - apply save_deals_same_objects.
  - apply page_body_same_objects.
  - apply page_loop_same_objects.
  - apply day_loop_same_objects.
  - unfold Oportunidades.main, bind at 1 2, RDStationClient, DataExporter. simpl.
    match goal with
    | |- client_config (snd (Oportunidades.day_loop _ _ _ _ ?w0)) = _ =>
        destruct (day_loop_same_objects net fuel (mk_datetime 2024 7 30 0 0 0 0) now w0) as [H _]
    end.
    exact H.
Qed.

(** ** The exporter *)

Lemma string_app_nil_r (a : string) : a +:+ EmptyString = a.
Proof.
  induction a as [| x a IH]; [reflexivity |].
  change (String x (a +:+ EmptyString) = String x a). rewrite IH. reflexivity.
Qed.

Lemma strftime_ymd date : strftime date "%Y-%m-%d" = iso_day date.
Proof.
  unfold iso_day.
  change (strftime date "%Y-%m-%d")
    with (zero_pad 4 (year date) +:+ "-" +:+ zero_pad 2 (month date) +:+ "-"
          +:+ zero_pad 2 (day date) +:+ EmptyString).
  rewrite string_app_nil_r. reflexivity.
Qed.

Lemma save_deals_writes data date page w deals :
  py_get data "deals" (JArr []) = Ret deals ->
  truthy deals = true ->
  Oportunidades.save_deals data date page w
  = (Ret (Some (exporter_output_dir w ++ [Oportunidades.deals_filename date page])),
     mk_world (client_config w) (exporter_output_dir w) (http_calls w)
       (trace w ++ [EvOpenW (exporter_output_dir w ++ [Oportunidades.deals_filename date page])])
       (<[exporter_output_dir w ++ [Oportunidades.deals_filename date page] := json_dump data]>
          (files w)) (longest_sleep w)).
Proof.
  intros Hget Ht. unfold Oportunidades.save_deals, bind, lift. rewrite Hget, Ht. reflexivity.
Qed.

Lemma save_deals_skips data date page w deals :
  py_get data "deals" (JArr []) = Ret deals ->
  truthy deals = false ->
  Oportunidades.save_deals data date page w = (Ret None, w).
Proof.
  intros Hget Ht. unfold Oportunidades.save_deals, bind, lift. rewrite Hget, Ht. reflexivity.
Qed.

(** C6. Exporting a page with a non-empty record list writes the dump of
    the whole page at [output_dir/oportunidades_YYYY-MM-DD_pN.json],
    whatever was there before; exporting it again returns the same path and
    leaves the same bytes, and no other file is touched. *)
Theorem save_deals_idempotent data date page w first rest :
  py_get data "deals" (JArr []) = Ret (JArr (first :: rest)) ->
  let path := exporter_output_dir w
              ++ ["oportunidades_" +:+ iso_day date +:+ "_p" +:+ str_of_int page +:+ ".json"] in
  let w1 := snd (Oportunidades.save_deals data date page w) in
  let w2 := snd (Oportunidades.save_deals data date page w1) in
  fst (Oportunidades.save_deals data date page w) = Ret (Some path)
  /\ fst (Oportunidades.save_deals data date page w1) = Ret (Some path)
  /\ files w1 = <[path := json_dump data]> (files w)
  /\ files w1 !! path = Some (json_dump data)
  /\ files w2 !! path = Some (json_dump data)
  /\ files w2 = files w1
  /\ (forall other, other <> path -> files w2 !! other = files w !! other).
Proof.
  intros Hget path w1 w2.
  assert (Hp : exporter_output_dir w ++ [Oportunidades.deals_filename date page] = path).
  { unfold path, Oportunidades.deals_filename. rewrite strftime_ymd. reflexivity. }
  assert (E1 := save_deals_writes data date page w _ Hget eq_refl).
  rewrite Hp in E1.
  assert (D1 : exporter_output_dir w1 = exporter_output_dir w)
    by (unfold w1; rewrite E1; reflexivity).
  assert (E2 := save_deals_writes data date page w1 _ Hget eq_refl).
  rewrite D1, Hp in E2.
  assert (F1 : files w1 = <[path := json_dump data]> (files w))
    by (unfold w1; rewrite E1; reflexivity).
  assert (F2 : files w2 = <[path := json_dump data]> (files w1))
    by (unfold w2; rewrite E2; reflexivity).
  repeat split.
  - rewrite E1. reflexivity.
  - rewrite E2. reflexivity.
  - exact F1.
  - rewrite F1. apply lookup_insert_eq.
  - rewrite F2. apply lookup_insert_eq.
  - rewrite F2, F1. apply insert_insert_eq.
  - intros other Hne. rewrite F2, F1, !lookup_insert_ne; auto.
Qed.

Lemma save_deals_idempotent_witness :
  py_get one_deal_page "deals" (JArr []) = Ret (JArr [deal 1])
  /\ files (snd (Oportunidades.save_deals one_deal_page sample_date 1
                   (snd (Oportunidades.save_deals one_deal_page sample_date 1 sample_world))))
     !! ["out"; "oportunidades_2024-07-01_p1.json"]
     = Some (json_dump one_deal_page).
Proof.
  split; [reflexivity |].
  destruct (save_deals_idempotent one_deal_page sample_date 1 sample_world (deal 1) [])
    as (_ & _ & _ & _ & H & _); [reflexivity |].
  exact H.
Defined.

(** ** The page loop of exporta_oportunidades_rdstation.py *)

(** C10. When the fetch returns a falsy value, be it [None] after a
    failure or an empty object or list decoded from a successful response,
    the page loop of the day ends there: the world is left exactly as the
    fetch left it, so the exporter did nothing and no file changed. *)
Theorem falsy_page_ends_day net date page w data fuel :
  fst (Oportunidades.fetch_deals net date page w) = Ret data ->
  truthy data = false ->
  Oportunidades.page_body net date page w
  = (Ret Break, snd (Oportunidades.fetch_deals net date page w))
  /\ Oportunidades.page_loop net (S fuel) date page w
     = (Ret tt, snd (Oportunidades.fetch_deals net date page w))
  /\ files (snd (Oportunidades.fetch_deals net date page w)) = files w.
Proof.
  intros Hfetch Hfalsy.
  assert (B : Oportunidades.page_body net date page w
              = (Ret Break, snd (Oportunidades.fetch_deals net date page w))).
  { unfold Oportunidades.page_body, bind at 1.
    destruct (Oportunidades.fetch_deals net date page w) as [r w1]. simpl in *. subst r.
    rewrite Hfalsy. reflexivity. }
  split; [exact B |]. split.
  - simpl. unfold bind at 1. rewrite B. reflexivity.
  - apply fetch_deals_same_files.
Qed.

Lemma falsy_page_ends_day_witness :
  (fst (Oportunidades.fetch_deals empty_object_network sample_date 1 sample_world) = Ret (JObj [])
   /\ fst (Oportunidades.fetch_deals empty_list_network sample_date 1 sample_world) = Ret (JArr [])
   /\ fst (Oportunidades.fetch_deals failing_network sample_date 1 sample_world) = Ret JNull)
  /\ Oportunidades.page_loop empty_object_network 1 sample_date 1 sample_world
     = (Ret tt, snd (Oportunidades.fetch_deals empty_object_network sample_date 1 sample_world))
  /\ Oportunidades.page_loop empty_list_network 1 sample_date 1 sample_world
     = (Ret tt, snd (Oportunidades.fetch_deals empty_list_network sample_date 1 sample_world))
  /\ Oportunidades.page_loop failing_network 1 sample_date 1 sample_world
     = (Ret tt, snd (Oportunidades.fetch_deals failing_network sample_date 1 sample_world)).
Proof.
  split; [repeat split |].
  split; [| split].
  - apply (falsy_page_ends_day empty_object_network sample_date 1 sample_world (JObj []) O);
      reflexivity.
  - apply (falsy_page_ends_day empty_list_network sample_date 1 sample_world (JArr []) O);
      reflexivity.
  - apply (falsy_page_ends_day failing_network sample_date 1 sample_world JNull O);
      reflexivity.
Defined.

(** A fetch that returns a truthy value had at least one attempt to
    make. *)
Lemma fetch_deals_truthy_attempts net date page w data :
  fst (Oportunidades.fetch_deals net date page w) = Ret data ->
  truthy data = true ->
  1 <= retry_attempts (client_config w).
Proof.
  unfold Oportunidades.fetch_deals, bind at 1 2, get_config. simpl.
  destruct (Z.to_nat (retry_attempts (client_config w))) as [| n] eqn:En.
  - simpl. intros [= <-]. discriminate.
  - intros _ _. lia.
Qed.

Lemma py_get_list data records :
  py_get data "deals" (JArr []) = Ret (JArr records) ->
  exists fields, data = JObj fields /\ dict_get fields "deals" (JArr []) = JArr records.
Proof.
  destruct data; simpl; try discriminate. intros [= H]. eexists. split; [reflexivity | exact H].
Qed.

(** One pass through the loop body once the fetch returned a page whose
    [deals] field is the list [records]. *)
Lemma page_body_on_records net date page w data records :
  fst (Oportunidades.fetch_deals net date page w) = Ret data ->
  py_get data "deals" (JArr []) = Ret (JArr records) ->
  let w1 := snd (Oportunidades.fetch_deals net date page w) in
  let path := exporter_output_dir w ++ [Oportunidades.deals_filename date page] in
  let date_text := strftime date "%d/%m/%Y" in
  let with_events evs fs :=
    mk_world (client_config w) (exporter_output_dir w) (http_calls w1) (trace w1 ++ evs) fs
             (longest_sleep w) in
  Oportunidades.page_body net date page w
  = if negb (truthy data) then (Ret Break, w1)
    else match records with
         | [] => (Ret Break,
                  with_events [EvLog INFO (Msg EmptyPage [VInt page; VStr date_text])] (files w))
         | _ :: _ =>
             if Z.of_nat (length records) <? per_page (client_config w)
             then (Ret Break,
                   with_events [EvOpenW path;
                                EvLog INFO (Msg Saved [VInt page; VStr date_text; VPath path]);
                                EvLog INFO (Msg AllPagesDone [VStr date_text])]
                               (<[path := json_dump data]> (files w)))
             else (Ret Continue,
                   with_events [EvOpenW path;
                                EvLog INFO (Msg Saved [VInt page; VStr date_text; VPath path])]
                               (<[path := json_dump data]> (files w)))
         end.
Proof.
  intros Hfetch Hget w1 path date_text with_events.
  destruct (fetch_deals_same_objects net date page w) as [Hc Hd].
  assert (Hf := fetch_deals_same_files net date page w). unfold same_files in Hf.
  assert (Hm := fetch_deals_same_machine net date page w). unfold same_machine in Hm.
  fold w1 in Hc, Hd, Hf, Hm.
  unfold Oportunidades.page_body, bind at 1.
  destruct (Oportunidades.fetch_deals net date page w) as [r w1'] eqn:E.
  simpl in Hfetch. subst r. change w1' with w1. clear E.
  destruct (negb (truthy data)); [reflexivity |].
  unfold bind at 1.
  destruct records as [| first rest].
  - rewrite (save_deals_skips data date page w1 _ Hget eq_refl).
    unfold bind, log, emit, ret, with_events. simpl. rewrite Hc, Hd, Hf, Hm. reflexivity.
  - rewrite (save_deals_writes data date page w1 _ Hget eq_refl).
    unfold bind, log, emit, ret, lift, get_config, with_events, path. rewrite Hget.
    cbn [py_len client_config exporter_output_dir http_calls trace files longest_sleep fst snd].
    rewrite Hc, Hd, Hf, Hm.
    destruct (Z.of_nat (length (first :: rest)) <? per_page (client_config w));
      cbn [client_config exporter_output_dir http_calls trace files longest_sleep];
      rewrite <- ?app_assoc; reflexivity.
Qed.

(** C4. A page whose record list is empty is not exported: [save_deals]
    returns [None] and leaves the world (files and trace) untouched; the
    page loop of the day then ends normally, with the files unchanged, no
    further HTTP call and at most log lines added. *)
Theorem empty_page_is_skipped net date page w data fuel :
  py_get data "deals" (JArr []) = Ret (JArr []) ->
  Oportunidades.save_deals data date page w = (Ret None, w)
  /\ (fst (Oportunidades.fetch_deals net date page w) = Ret data ->
      exists w2,
        Oportunidades.page_loop net (S fuel) date page w = (Ret tt, w2)
        /\ files w2 = files w
        /\ http_calls w2 = http_calls (snd (Oportunidades.fetch_deals net date page w))
        /\ trace_grows is_log (snd (Oportunidades.fetch_deals net date page w)) w2).
Proof.
  intros Hget. split.
  - apply (save_deals_skips data date page w _ Hget). reflexivity.
  - intros Hfetch.
    assert (B := page_body_on_records net date page w data [] Hfetch Hget).
    cbv zeta in B.
    assert (Hf := fetch_deals_same_files net date page w). unfold same_files in Hf.
    simpl. unfold bind at 1.
    destruct (negb (truthy data)); rewrite B; eexists; (split; [reflexivity |]).
    + split; [exact Hf |]. split; [reflexivity | apply trace_grows_refl].
    + split; [reflexivity |]. split; [reflexivity |].
      eapply trace_grows_one; [| reflexivity]. exact I.
Qed.

Lemma empty_page_is_skipped_witness :
  py_get (JObj [("has_more", JBool false); ("deals", JArr [])]) "deals" (JArr [])
  = Ret (JArr [])
  /\ Oportunidades.save_deals (JObj [("has_more", JBool false); ("deals", JArr [])])
       sample_date 1 sample_world
     = (Ret None, sample_world)
  /\ exists w2,
       Oportunidades.page_loop empty_deals_network 1 sample_date 1 sample_world = (Ret tt, w2)
       /\ files w2 = files sample_world.
Proof.
  split; [reflexivity |].
  destruct (empty_page_is_skipped empty_deals_network sample_date 1 sample_world
              (JObj [("has_more", JBool false); ("deals", JArr [])]) O) as [H1 H2];
    [reflexivity |].
  split; [exact H1 |].
  destruct H2 as (w2 & E & F & _); [reflexivity |].
  exists w2. split; [exact E | exact F].
Defined.

Lemma not_asks_for_next config date page e :
  gets_with_params (Oportunidades.fetch_params config date page) e ->
  ~ asks_for date (page + 1) e.
Proof.
  destruct e as [r | | | | |]; simpl; try tauto.
  intros -> [H _]. rewrite fetch_params_page in H. injection H. lia.
Qed.

(** C1. After a successful fetch of a page whose record list has [N]
    entries: if [N] is below the configured page size the loop of the day
    ends with this page and no request for [page + 1] is ever sent; if [N]
    reaches the page size (it equals it, or exceeds it), the page size
    being a positive number as in every run of [main], the body asks to
    continue and the very next thing the loop does is to request
    [page + 1] for the same day. *)
Theorem page_size_stop_rule net date page w data records fuel :
  fst (Oportunidades.fetch_deals net date page w) = Ret data ->
  py_get data "deals" (JArr []) = Ret (JArr records) ->
  (Z.of_nat (length records) < per_page (client_config w) ->
   exists w2,
     Oportunidades.page_body net date page w = (Ret Break, w2)
     /\ Oportunidades.page_loop net (S fuel) date page w = (Ret tt, w2)
     /\ Forall (fun e => ~ asks_for date (page + 1) e)
               (new_events (Oportunidades.page_loop net (S fuel) date page) w))
  /\ (0 < per_page (client_config w) ->
      per_page (client_config w) <= Z.of_nat (length records) ->
      exists w2,
        Oportunidades.page_body net date page w = (Ret Continue, w2)
        /\ Oportunidades.page_loop net (S (S fuel)) date page w
           = Oportunidades.page_loop net (S fuel) date (page + 1) w2
        /\ exists e rest,
             trace (snd (Oportunidades.page_loop net (S (S fuel)) date page w))
             = trace w2 ++ e :: rest
             /\ asks_for date (page + 1) e).
Proof.
  intros Hfetch Hget.
  assert (B := page_body_on_records net date page w data records Hfetch Hget).
  cbv zeta in B.
  destruct (fetch_deals_trace net date page w) as (new1 & T1 & F1).
  assert (F1' : Forall (fun e => ~ asks_for date (page + 1) e) new1).
  { eapply Forall_impl; [exact F1 |]. intros e [_ He]. eapply not_asks_for_next, He. }
  split.
  - intros Hlt.
    assert (exists w2 tail,
               Oportunidades.page_body net date page w = (Ret Break, w2)
               /\ trace w2 = trace (snd (Oportunidades.fetch_deals net date page w)) ++ tail
               /\ Forall (fun e => ~ asks_for date (page + 1) e) tail)
      as (w2 & tail & E & T2 & F2).
    { rewrite B. destruct (negb (truthy data)).
      - exists (snd (Oportunidades.fetch_deals net date page w)), [].
        split; [reflexivity |]. split; [symmetry; apply app_nil_r | constructor].
      - destruct records as [| first rest].
        + eexists _, _. split; [reflexivity |]. split; [reflexivity |].
          repeat constructor; simpl; tauto.
        + apply Z.ltb_lt in Hlt. rewrite Hlt.
          eexists _, _. split; [reflexivity |]. split; [reflexivity |].
          repeat constructor; simpl; tauto. }
    assert (L : Oportunidades.page_loop net (S fuel) date page w = (Ret tt, w2)).
    { simpl. unfold bind at 1. rewrite E. reflexivity. }
    exists w2. split; [exact E |]. split; [exact L |].
    rewrite (new_events_spec _ w (new1 ++ tail)).
    + apply Forall_app. split; assumption.
    + rewrite L. simpl. rewrite T2, T1. symmetry. apply app_assoc.
  - intros Hpos Hge.
    assert (Hnonempty : records <> []) by (intros ->; simpl in Hge; lia).
    assert (Htruthy : truthy data = true).
    { destruct (py_get_list data records Hget) as (fields & -> & Hdict).
      destruct fields as [| f fs]; [| reflexivity].
      simpl in Hdict. injection Hdict as <-. congruence. }
    rewrite Htruthy in B. simpl in B.
    destruct records as [| first rest]; [congruence |].
    assert (Hltb : (Z.of_nat (length (first :: rest)) <? per_page (client_config w)) = false)
      by (apply Z.ltb_ge; exact Hge).
    rewrite Hltb in B.
    eexists. split; [exact B |].
    assert (L : forall fuel',
               Oportunidades.page_loop net (S fuel') date page w
               = Oportunidades.page_loop net fuel' date (page + 1)
                   (mk_world (client_config w) (exporter_output_dir w)
                      (http_calls (snd (Oportunidades.fetch_deals net date page w)))
                      (trace (snd (Oportunidades.fetch_deals net date page w))
                       ++ [EvOpenW (exporter_output_dir w
                                    ++ [Oportunidades.deals_filename date page]);
                           EvLog INFO
                             (Msg Saved [VInt page; VStr (strftime date "%d/%m/%Y");
                                         VPath (exporter_output_dir w
                                                ++ [Oportunidades.deals_filename date page])])])
                      (<[exporter_output_dir w ++ [Oportunidades.deals_filename date page]
                         := json_dump data]> (files w)) (longest_sleep w))).
    { intros fuel'. simpl. unfold bind at 1. rewrite B. reflexivity. }
    split; [apply L |].
    rewrite L.
    match goal with
    | |- context [Oportunidades.page_loop net (S fuel) date (page + 1) ?w0] => set (w2 := w0)
    end.
    assert (Hn : 1 <= retry_attempts (client_config w2)).
    { simpl. eapply fetch_deals_truthy_attempts; eassumption. }
    destruct (fetch_deals_first_event net date (page + 1) w2 Hn) as (rest1 & E1).
    assert (G : trace_grows (fun _ => True)
                  (snd (Oportunidades.fetch_deals net date (page + 1) w2))
                  (snd (Oportunidades.page_loop net (S fuel) date (page + 1) w2))).
    { apply (page_loop_after_fetch _ (fun _ => True)); auto.
      - apply trace_grows_refl.
      - apply trace_grows_trans.
      - intros e w1 He. eapply trace_grows_one; [exact He | reflexivity].
      - intros net' r w1 He. eapply trace_grows_one; [exact He | apply requests_get_trace].
      - intros path content w1 He. eapply trace_grows_one; [exact He | reflexivity]. }
    destruct G as (new2 & E2 & _).
    eexists _, (rest1 ++ new2). split.
    + rewrite E2, E1, <- app_assoc. reflexivity.
    + split; [apply fetch_params_page | apply fetch_params_day_window].
Qed.


Lemma page_size_stop_rule_witness :
  (fst (Oportunidades.fetch_deals (serving full_default_page) sample_date 1 sample_world)
   = Ret full_default_page
   /\ py_get full_default_page "deals" (JArr []) = Ret (JArr (repeat (deal 1) 200))
   /\ per_page (client_config sample_world) = Z.of_nat (length (repeat (deal 1) 200)))
  /\ exists w2,
       Oportunidades.page_body (serving full_default_page) sample_date 1 sample_world
       = (Ret Continue, w2)
       /\ exists e rest,
            trace (snd (Oportunidades.page_loop (serving full_default_page) 2
                          sample_date 1 sample_world))
            = trace w2 ++ e :: rest
            /\ asks_for sample_date 2 e.
Proof.
  split; [repeat split |].
  destruct (page_size_stop_rule (serving full_default_page) sample_date 1 sample_world
              full_default_page (repeat (deal 1) 200) O) as [_ H];
    [reflexivity | reflexivity |].
  destruct H as (w2 & B & _ & e & rest & T & A);
    [simpl; lia | rewrite repeat_length; simpl; lia |].
  exists w2. split; [exact B |]. exists e, rest. split; [exact T | exact A].
Defined.

(** ** Which pages carry on *)

Lemma fetch_deals_same_objects_A net date page w :
  same_objects w (snd (GerJsonA.fetch_deals net date page w)).
Proof.
  apply (fetch_deals_respects_A same_objects (fun _ => True)); auto.
  - apply same_objects_refl.
  - apply same_objects_trans.
  - intros; split; reflexivity.
  - intros; apply requests_get_same_objects.
Qed.

Lemma count_rule_ltb size count :
  0 < count ->
  (if count <? size then Break else Continue) = count_rule size count.
Proof.
  intros Hpos. unfold count_rule.
  assert (H0 : (0 <? count) = true) by (apply Z.ltb_lt; exact Hpos).
  rewrite H0. simpl. rewrite Z.ltb_antisym. destruct (size <=? count); reflexivity.
Qed.

(** C5 (amended). In exporta_oportunidades_rdstation.py and in the
    first script of the unnamed source file the decision to go on to
    [page + 1] is the record count rule alone: the loop continues exactly
    when the page holds at least one and at least [per_page] records, and
    the [has_more] field of the page is never read.  In the second script
    of the unnamed source file the decision is the truth value of
    [has_more] alone. *)
Theorem continue_rule_by_script net date page w data records :
  (fst (Oportunidades.fetch_deals net date page w) = Ret data ->
   py_get data "deals" (JArr []) = Ret (JArr records) ->
   fst (Oportunidades.page_body net date page w)
   = Ret (count_rule (per_page (client_config w)) (Z.of_nat (length records))))
  /\ (fst (GerJsonA.fetch_deals net date page w) = Ret data ->
      GerJsonA.registros data = Ret (JArr records) ->
      fst (GerJsonA.page_body net date page w)
      = Ret (count_rule (per_page (client_config w)) (Z.of_nat (length records))))
  /\ (fst (GerJsonB.fetch_deals net date page w) = Ret data ->
      truthy data = true ->
      fst (GerJsonB.page_body net date page w)
      = match py_get data "has_more" (JBool false) with
        | Ret has_more => Ret (if truthy has_more then Continue else Break)
        | Raise e => Raise e
        | OutOfFuel => OutOfFuel
        end).
Proof.
  split; [| split].
  - intros Hfetch Hget.
    rewrite (page_body_on_records net date page w data records Hfetch Hget).
    destruct (py_get_list data records Hget) as (fields & -> & Hdict).
    destruct fields as [| f fs].
    + simpl in Hdict. injection Hdict as <-. reflexivity.
    + simpl negb. cbv iota.
      destruct records as [| first rest]; [reflexivity |].
      rewrite <- count_rule_ltb by (simpl length; lia).
      destruct (Z.of_nat (length (first :: rest)) <? per_page (client_config w)); reflexivity.
  - intros Hfetch Hreg.
    destruct (fetch_deals_same_objects_A net date page w) as [Hc _].
    unfold GerJsonA.page_body, bind at 1.
    destruct (GerJsonA.fetch_deals net date page w) as [r w1]. simpl in Hfetch, Hc. subst r.
    destruct (truthy data) eqn:Ht; simpl negb; cbv iota.
    + unfold GerJsonA.save_deals, bind, get_output_dir, write_file, log, emit, lift, ret,
        get_config.
      rewrite Hreg. cbn [py_len truthy negb fst snd client_config].
      destruct records as [| first rest]; [reflexivity |].
      cbn [negb fst snd client_config]. rewrite Hc.
      rewrite <- count_rule_ltb by (simpl length; lia).
      destruct (Z.of_nat (length (first :: rest)) <? per_page (client_config w)); reflexivity.
    + assert (records = []) as ->.
      { unfold GerJsonA.registros in Hreg. destruct data; simpl in *; try discriminate.
        - injection Hreg as <-. destruct items; [reflexivity | discriminate].
        - destruct fields; [simpl in Hreg; congruence | discriminate]. }
      reflexivity.
  - intros Hfetch Ht.
    unfold GerJsonB.page_body, bind at 1.
    destruct (GerJsonB.fetch_deals net date page w) as [r w1]. simpl in Hfetch. subst r.
    rewrite Ht. simpl negb. cbv iota.
    unfold GerJsonB.save_deals, bind, get_output_dir, write_file, print, emit, lift, ret.
    destruct (py_get data "has_more" (JBool false)) as [has_more | e |]; try reflexivity.
    destruct (truthy has_more); reflexivity.
Qed.

Lemma continue_rule_by_script_witness :
  fst (Oportunidades.page_body (serving short_page_with_more) sample_date 1 small_page_world)
  = Ret Break
  /\ fst (GerJsonA.page_body (serving short_page_with_more) sample_date 1 small_page_world)
     = Ret Break
  /\ fst (GerJsonB.page_body (serving short_page_with_more) sample_date 1 small_page_world)
     = Ret Continue.
Proof.
  destruct (continue_rule_by_script (serving short_page_with_more) sample_date 1
              small_page_world short_page_with_more [deal 1]) as (H1 & H2 & H3).
  split; [apply H1; reflexivity |]. split; [apply H2; reflexivity |].
  apply H3; reflexivity.
Defined.

(** C5 as stated fails in the second script of the unnamed source file:
    with two records per page configured, a page of one record that says
    [has_more] makes the loop go on, and a full page of two records that
    says no more ends it, against the record count rule both times. *)
Lemma has_more_counterexample :
  fst (GerJsonB.page_body (serving short_page_with_more) sample_date 1 small_page_world)
  = Ret Continue
  /\ count_rule (per_page (client_config small_page_world)) 1 = Break
  /\ fst (GerJsonB.page_body (serving full_page_without_more) sample_date 1 small_page_world)
     = Ret Break
  /\ count_rule (per_page (client_config small_page_world)) 2 = Continue.
Proof. repeat split; vm_compute; reflexivity. Qed.

(** ** Shapes of a page *)

(** C2 (amended). The exporter of exporta_oportunidades_rdstation.py
    takes the record list from the [deals] field of an object page, and
    skips or writes the page accordingly; given a bare list it raises
    [AttributeError] and touches nothing.  The page loop and the fetch log
    of the first script of the unnamed source file do read both shapes: a
    bare list and an object whose [deals] field holds that list give the
    same record list and the same count. *)
Theorem record_list_by_shape date page w fields records :
  dict_get fields "deals" (JArr []) = JArr records ->
  py_get (JObj fields) "deals" (JArr []) = Ret (JArr records)
  /\ fst (Oportunidades.save_deals (JObj fields) date page w)
     = Ret (match records with
            | [] => None
            | _ :: _ => Some (exporter_output_dir w ++ [Oportunidades.deals_filename date page])
            end)
  /\ Oportunidades.save_deals (JArr records) date page w = (Raise AttributeError, w)
  /\ GerJsonA.registros (JObj fields) = Ret (JArr records)
  /\ GerJsonA.registros (JArr records) = Ret (JArr records)
  /\ GerJsonA.qtd (JObj fields) = Ret (Z.of_nat (length records))
  /\ GerJsonA.qtd (JArr records) = Ret (Z.of_nat (length records)).
Proof.
  intros Hdict.
  assert (Hget : py_get (JObj fields) "deals" (JArr []) = Ret (JArr records))
    by (simpl; rewrite Hdict; reflexivity).
  split; [exact Hget |]. split; [| split; [reflexivity |]].
  - destruct records as [| first rest].
    + rewrite (save_deals_skips _ date page w _ Hget eq_refl). reflexivity.
    + rewrite (save_deals_writes _ date page w _ Hget eq_refl). reflexivity.
  - unfold GerJsonA.registros, GerJsonA.qtd. simpl. rewrite Hdict. repeat split.
Qed.

Lemma record_list_by_shape_witness :
  dict_get [("has_more", JBool false); ("deals", JArr [deal 1])] "deals" (JArr [])
  = JArr [deal 1]
  /\ GerJsonA.registros one_deal_page = GerJsonA.registros (JArr [deal 1])
  /\ Oportunidades.save_deals (JArr [deal 1]) sample_date 1 sample_world
     = (Raise AttributeError, sample_world).
Proof.
  split; [reflexivity |].
  destruct (record_list_by_shape sample_date 1 sample_world
              [("has_more", JBool false); ("deals", JArr [deal 1])] [deal 1])
    as (_ & _ & H3 & H4 & H5 & _); [reflexivity |].
  split; [| exact H3]. unfold one_deal_page. rewrite H4, H5. reflexivity.
Defined.

(** C2 as stated fails for the exporter: the same record list is
    extracted and saved from the object page, while the bare list makes
    [save_deals], and with it the page loop, raise [AttributeError]. *)
Lemma bare_list_counterexample :
  py_get (JObj [("deals", JArr [deal 1])]) "deals" (JArr []) = Ret (JArr [deal 1])
  /\ py_get (JArr [deal 1]) "deals" (JArr []) = Raise AttributeError
  /\ fst (Oportunidades.save_deals (JObj [("deals", JArr [deal 1])]) sample_date 1 sample_world)
     = Ret (Some ["out"; "oportunidades_2024-07-01_p1.json"])
  /\ fst (Oportunidades.save_deals (JArr [deal 1]) sample_date 1 sample_world)
     = Raise AttributeError
  /\ fst (Oportunidades.page_body (serving (JArr [deal 1])) sample_date 1 sample_world)
     = Raise AttributeError.
Proof. repeat split; vm_compute; reflexivity. Qed.

(** * Further properties of the three scripts *)

(** ** More on the retry loop *)

Lemma count_gets_app t1 t2 : count_gets (t1 ++ t2) = (count_gets t1 + count_gets t2)%nat.
Proof.
  induction t1 as [| e t1 IH]; simpl; [reflexivity |].
  destruct e; simpl; rewrite IH; reflexivity.
Qed.

Lemma count_sleeps_app t1 t2 :
  count_sleeps (t1 ++ t2) = (count_sleeps t1 + count_sleeps t2)%nat.
Proof.
  induction t1 as [| e t1 IH]; simpl; [reflexivity |].
  destruct e; simpl; rewrite IH; reflexivity.
Qed.

(** What one attempt leaves behind, whatever its outcome: one more HTTP
    call, at most one sleep, and a sleep only before another attempt. *)
Lemma attempt_body_footprint net date page ps attempt w :
  exists new,
    trace (snd (Oportunidades.attempt_body net date page ps attempt w)) = trace w ++ new
    /\ client_config (snd (Oportunidades.attempt_body net date page ps attempt w))
       = client_config w
    /\ http_calls (snd (Oportunidades.attempt_body net date page ps attempt w))
       = S (http_calls w)
    /\ count_gets new = 1%nat
    /\ (count_sleeps new <= 1)%nat
    /\ (fst (Oportunidades.attempt_body net date page ps attempt w) <> Ret None ->
        count_sleeps new = O)
    /\ (fst (Oportunidades.attempt_body net date page ps attempt w) = Ret None ->
        attempt < retry_attempts (client_config w) - 1).
Proof.
  unfold Oportunidades.attempt_body, try_except_RequestException, bind, get_config,
    requests_get, raise_for_status, response_json, log, emit, sleep, lift, ret.
  simpl.
  destruct (net (http_calls w) _) as [e | status body]; simpl;
    [ | destruct ((400 <=? status) && (status <? 600)); simpl;
        [ | destruct body as [v | | [ | ]]; simpl ] ];
    try (destruct (attempt <? retry_attempts (client_config w) - 1) eqn:Hlt; simpl;
         sleep_cases);
    rewrite <- ?app_assoc; simpl; eexists; (split; [reflexivity |]);
    repeat split; simpl; try lia; try discriminate; try congruence;
    try (intros _; apply Z.ltb_lt; exact Hlt).
Qed.

Lemma attempts_footprint net n : forall date page ps attempt w,
  exists new,
    trace (snd (Oportunidades.attempts net n date page ps attempt w)) = trace w ++ new
    /\ http_calls (snd (Oportunidades.attempts net n date page ps attempt w))
       = (http_calls w + count_gets new)%nat
    /\ (count_gets new <= n)%nat
    /\ (n <> O -> (1 <= count_gets new)%nat)
    /\ ((n <> O -> Z.of_nat n + attempt = retry_attempts (client_config w)) ->
        (count_sleeps new <= Nat.pred n)%nat).
Proof.
  induction n as [| n IH]; intros date page ps attempt w.
  - exists []. simpl. rewrite app_nil_r. repeat split; auto; lia.
  - destruct (attempt_body_footprint net date page ps attempt w)
      as (new1 & T1 & C1 & N1 & G1 & S1 & L1 & R1).
    simpl. unfold bind.
    destruct (Oportunidades.attempt_body net date page ps attempt w) as [[[v |] | e |] w1];
      unfold ret; simpl in *.
    + exists new1. rewrite T1, N1, G1, L1 by discriminate. repeat split; auto; lia.
    + destruct (IH date page ps (attempt + 1) w1) as (new2 & T2 & N2 & G2 & P2 & S2).
      exists (new1 ++ new2). rewrite T2, T1, N2, N1, count_gets_app, count_sleeps_app, G1.
      rewrite C1 in S2. specialize (R1 eq_refl).
      split; [symmetry; apply app_assoc |].
      split; [lia |]. split; [lia |]. split; [lia |].
      intros Hn. specialize (Hn ltac:(discriminate)). assert (n <> O) by lia.
      assert (count_sleeps new2 <= Nat.pred n)%nat by (apply S2; intros _; lia). lia.
    + exists new1. rewrite T1, N1, G1, L1 by discriminate. repeat split; auto; lia.
    + exists new1. rewrite T1, N1, G1, L1 by discriminate. repeat split; auto; lia.
Qed.

Lemma fetch_deals_unfold net date page w :
  Oportunidades.fetch_deals net date page w
  = Oportunidades.attempts net (Z.to_nat (retry_attempts (client_config w))) date page
      (Oportunidades.fetch_params (client_config w) date page) 0 w.
Proof. reflexivity. Qed.

(** X1. Whatever the network does and however the client is configured,
    one [fetch_deals] makes at most [retry_attempts] HTTP calls and at
    most [retry_attempts - 1] sleeps, and at least one call when
    [retry_attempts] is positive; when it is not, the call returns [None]
    at once and leaves no trace at all. *)
Theorem fetch_deals_call_bounds net date page w :
  let n := Z.to_nat (retry_attempts (client_config w)) in
  let new := new_events (Oportunidades.fetch_deals net date page) w in
  http_calls (snd (Oportunidades.fetch_deals net date page w))
  = (http_calls w + count_gets new)%nat
  /\ (count_gets new <= n)%nat
  /\ (count_sleeps new <= Nat.pred n)%nat
  /\ (n <> O -> (1 <= count_gets new)%nat)
  /\ (n = O -> Oportunidades.fetch_deals net date page w = (Ret JNull, w)).
Proof.
  intros n new.
  destruct (attempts_footprint net (Z.to_nat (retry_attempts (client_config w))) date page
              (Oportunidades.fetch_params (client_config w) date page) 0 w)
    as (new' & T & N & G & P & S).
  rewrite <- fetch_deals_unfold in T, N. fold n in G, P, S.
  assert (E : new = new') by (apply new_events_spec; exact T). rewrite E.
  split; [exact N |]. split; [exact G |]. split; [| split; [exact P |]].
  - apply S. intros Hn. unfold n in *. lia.
  - intros Hn. rewrite fetch_deals_unfold. fold n. rewrite Hn. reflexivity.
Qed.

(** One successful attempt: the call is made, the success is logged and
    the decoded body is returned. *)
Lemma attempt_body_succeeds net date page ps attempt w status v :
  net (http_calls w) (mk_request (base_url (client_config w)) ps
                                 Oportunidades.client_headers None)
  = Response status (BodyJson v) ->
  is_error_status status = false ->
  Oportunidades.attempt_body net date page ps attempt w
  = (Ret (Some v),
     mk_world (client_config w) (exporter_output_dir w) (S (http_calls w))
       (trace w ++ [EvGet (mk_request (base_url (client_config w)) ps
                                      Oportunidades.client_headers None);
                    EvLog INFO (Msg FetchOk [VStr (strftime date "%d/%m/%Y"); VInt page])])
       (files w) (longest_sleep w)).
Proof.
  intros Hnet Hok.
  unfold Oportunidades.attempt_body, try_except_RequestException, bind, get_config,
    requests_get, raise_for_status, response_json, log, emit, lift, ret.
  simpl. rewrite Hnet. simpl. unfold is_error_status in Hok. rewrite Hok. simpl.
  rewrite <- app_assoc. reflexivity.
Qed.

(** [k] failed attempts followed by a successful one. *)
Lemma attempts_first_success net k : forall n date page ps attempt w status v,
  let config := client_config w in
  let r := mk_request (base_url config) ps Oportunidades.client_headers None in
  (k < n)%nat ->
  Z.of_nat n + attempt = retry_attempts config ->
  (k <> O -> sleep_takes w (retry_delay config)) ->
  (forall j, (j < k)%nat -> attempt_fails (net (http_calls w + j)%nat r) = true) ->
  net (http_calls w + k)%nat r = Response status (BodyJson v) ->
  is_error_status status = false ->
  exists new,
    Oportunidades.attempts net n date page ps attempt w
    = (Ret v,
       mk_world config (exporter_output_dir w) (http_calls w + S k)%nat (trace w ++ new)
                (files w) (longest_sleep w))
    /\ wire new = retry_pattern r (retry_delay config) (S k).
Proof.
  induction k as [| k IH]; intros n date page ps attempt w status v config r Hk Hn Hd Hfail
    Hnet Hok; (destruct n as [| n]; [lia |]).
  - rewrite Nat.add_0_r in Hnet. simpl. unfold bind.
    rewrite (attempt_body_succeeds net date page ps attempt w status v Hnet Hok).
    eexists. split; [unfold ret; f_equal; f_equal; lia | reflexivity].
  - destruct (attempt_body_fails net date page ps attempt w) as (new1 & E1 & W1).
    + specialize (Hfail O). rewrite Nat.add_0_r in Hfail. apply Hfail. lia.
    + intros _. apply Hd. discriminate.
    + fold config in E1, W1. fold r in W1.
      assert (Hmore : (attempt <? retry_attempts config - 1) = true) by (apply Z.ltb_lt; lia).
      rewrite Hmore in E1, W1.
      simpl. unfold bind at 1. rewrite E1.
      edestruct (IH n date page ps (attempt + 1)) as (new2 & E2 & W2);
        [ | | | | | | rewrite E2 ]; simpl.
      * lia.
      * fold config. lia.
      * intros _. apply (Hd (Nat.neq_succ_0 k)).
      * intros j Hj. fold config. fold r.
        replace (S (http_calls w + j)) with (http_calls w + S j)%nat by lia.
        apply Hfail. lia.
      * fold config. fold r.
        replace (S (http_calls w + k)) with (http_calls w + S k)%nat by lia. exact Hnet.
      * exact Hok.
      * exists (new1 ++ new2). split.
        -- f_equal. f_equal; [lia | symmetry; apply app_assoc].
        -- simpl in W2. rewrite wire_app, W1, W2. reflexivity.
Qed.

(** X2. The first success wins: when the first [k] attempts of a fetch
    fail (transport error, error status or undecodable body) and attempt
    [k + 1], still within [retry_attempts], gets a response with a
    non-error status and a JSON body, and provided, when [k] is not zero,
    that [retry_delay] is a length [time.sleep] takes (not negative, at
    most [sleep_limit] seconds and no longer than the operating system
    accepts), [fetch_deals] returns that body after exactly [k + 1] calls
    and [k] sleeps of [retry_delay] seconds, without touching a file. *)
Theorem fetch_deals_first_success net date page w k status v :
  let config := client_config w in
  let r := mk_request (base_url config) (Oportunidades.fetch_params config date page)
                      Oportunidades.client_headers None in
  Z.of_nat k < retry_attempts config ->
  (k <> O -> sleep_takes w (retry_delay config)) ->
  (forall j, (j < k)%nat -> attempt_fails (net (http_calls w + j)%nat r) = true) ->
  net (http_calls w + k)%nat r = Response status (BodyJson v) ->
  is_error_status status = false ->
  exists w',
    Oportunidades.fetch_deals net date page w = (Ret v, w')
    /\ http_calls w' = (http_calls w + S k)%nat
    /\ files w' = files w
    /\ wire (new_events (Oportunidades.fetch_deals net date page) w)
       = retry_pattern r (retry_delay config) (S k)
    /\ count_sleeps (new_events (Oportunidades.fetch_deals net date page) w) = k.
Proof.
  intros config r Hk Hd Hfail Hnet Hok.
  destruct (attempts_first_success net k (Z.to_nat (retry_attempts config)) date page
              (Oportunidades.fetch_params config date page) 0 w status v)
    as (new & E & W); try assumption; try (fold config; lia).
  fold r in W.
  assert (F : Oportunidades.fetch_deals net date page w
              = (Ret v, mk_world config (exporter_output_dir w) (http_calls w + S k)%nat
                                 (trace w ++ new) (files w) (longest_sleep w)))
    by (rewrite fetch_deals_unfold; exact E).
  clear E. rename F into E.
  eexists. split; [exact E |].
  rewrite (new_events_spec _ w new) by (rewrite E; reflexivity).
  repeat split; [exact W |].
  rewrite <- count_sleeps_wire, W. apply (retry_pattern_sleeps r (retry_delay config) (S k)).
Qed.

(** X3. A [retry_delay] that [time.sleep] does not take turns a failed
    attempt that is not the last one into an exception: with at least two
    attempts configured and a first attempt that fails, [fetch_deals]
    raises after a single HTTP call, without having slept, and the
    remaining attempts are never made.  The exception is [OverflowError]
    for a delay beyond [sleep_limit] seconds either way, [ValueError] for
    a negative delay within that range, [OSError] for a delay that is not
    negative and within that range but longer than the operating system
    accepts. *)
Theorem fetch_deals_refused_delay net date page w :
  let config := client_config w in
  let r := mk_request (base_url config) (Oportunidades.fetch_params config date page)
                      Oportunidades.client_headers None in
  let delay := retry_delay config in
  ~ sleep_takes w delay ->
  2 <= retry_attempts config ->
  attempt_fails (net (http_calls w) r) = true ->
  exists e,
    fst (Oportunidades.fetch_deals net date page w) = Raise e
    /\ (delay < - sleep_limit \/ sleep_limit < delay -> e = OverflowError)
    /\ (- sleep_limit <= delay < 0 -> e = ValueError)
    /\ (0 <= delay <= sleep_limit -> e = OSError)
    /\ http_calls (snd (Oportunidades.fetch_deals net date page w)) = S (http_calls w)
    /\ count_sleeps (new_events (Oportunidades.fetch_deals net date page) w) = O
    /\ files (snd (Oportunidades.fetch_deals net date page w)) = files w.
Proof.
  intros config r delay Hbad Hn Hfail.
  assert (Hmore : (0 <? retry_attempts config - 1) = true) by (apply Z.ltb_lt; lia).
  assert (Hsleep : forall w1, longest_sleep w1 = longest_sleep w ->
            exists e, sleep delay w1 = (Raise e, w1)
                      /\ (delay < - sleep_limit \/ sleep_limit < delay -> e = OverflowError)
                      /\ (- sleep_limit <= delay < 0 -> e = ValueError)
                      /\ (0 <= delay <= sleep_limit -> e = OSError))
    by (intros w1 Hw1; apply (sleep_refused delay w w1 Hbad Hw1)).
  assert (exists e new,
             Oportunidades.fetch_deals net date page w
             = (Raise e,
                mk_world config (exporter_output_dir w) (S (http_calls w)) (trace w ++ new)
                         (files w) (longest_sleep w))
             /\ count_sleeps new = O
             /\ (delay < - sleep_limit \/ sleep_limit < delay -> e = OverflowError)
             /\ (- sleep_limit <= delay < 0 -> e = ValueError)
             /\ (0 <= delay <= sleep_limit -> e = OSError)) as (e & new & E & S & He).
  { rewrite fetch_deals_unfold. fold config.
    destruct (Z.to_nat (retry_attempts config)) as [| n] eqn:En; [lia |].
    simpl.
    unfold Oportunidades.attempt_body, try_except_RequestException, bind, get_config,
      requests_get, raise_for_status, response_json, log, emit, lift, ret.
    simpl. fold config. fold r. fold delay.
    destruct (net (http_calls w) r) as [x | status body]; simpl in *.
    - rewrite Hmore. simpl.
      edestruct Hsleep as (e & -> & He);
        [ | simpl; rewrite <- !app_assoc; exists e; eexists; split; [reflexivity |] ].
      + reflexivity.
      + split; [reflexivity | exact He].
    - unfold is_error_status in Hfail.
      destruct ((400 <=? status) && (status <? 600)); simpl in *.
      + rewrite Hmore. simpl.
        edestruct Hsleep as (e & -> & He);
        [ | simpl; rewrite <- !app_assoc; exists e; eexists; split; [reflexivity |] ].
        * reflexivity.
        * split; [reflexivity | exact He].
      + destruct body as [v | | c]; [discriminate | | discriminate]. simpl.
        rewrite Hmore. simpl.
        edestruct Hsleep as (e & -> & He);
        [ | simpl; rewrite <- !app_assoc; exists e; eexists; split; [reflexivity |] ].
        * reflexivity.
        * split; [reflexivity | exact He]. }
  exists e.
  rewrite (new_events_spec _ w new) by (rewrite E; reflexivity).
  rewrite E. destruct He as (H1 & H2 & H3). repeat split; assumption.
Qed.

(** ** More on the exporter *)

(** X4. What [save_deals] does before it opens a file, and which file it
    opens.  A page that is not an object makes it raise [AttributeError]
    (from [data.get]) and an object whose [deals] field is falsy makes it
    return [None]; in both cases the world is left as it was found (no
    event, no file).  When it returns a path, the path is
    [output_dir/oportunidades_<date>_p<page>.json] and the file there
    holds the dump of the page.  Whatever the page, it opens no file but
    that one, makes no HTTP call, writes no log line, leaves every other
    file with its contents, and leaves the configuration and the output
    directory as they were. *)
Theorem save_deals_outcomes data date page w :
  let path := exporter_output_dir w ++ [Oportunidades.deals_filename date page] in
  let r := fst (Oportunidades.save_deals data date page w) in
  let w' := snd (Oportunidades.save_deals data date page w) in
  (is_object data = false ->
   Oportunidades.save_deals data date page w = (Raise AttributeError, w))
  /\ (forall fields,
        data = JObj fields -> truthy (dict_get fields "deals" (JArr [])) = false ->
        Oportunidades.save_deals data date page w = (Ret None, w))
  /\ (forall p, r = Ret (Some p) -> p = path /\ files w' !! path = Some (json_dump data))
  /\ trace_grows (fun e => e = EvOpenW path) w w'
  /\ (forall other, other <> path -> files w' !! other = files w !! other)
  /\ http_calls w' = http_calls w
  /\ client_config w' = client_config w
  /\ exporter_output_dir w' = exporter_output_dir w.
Proof.
  intros path r w'. unfold r, w', Oportunidades.save_deals, bind, lift, get_output_dir,
    write_file, ret.
  destruct data as [| b | n | f | s | items | fields]; simpl;
    try (split; [reflexivity |]; split; [intros; discriminate |];
         split; [intros; discriminate |]; split; [apply trace_grows_refl |];
         repeat split; fail).
  split; [discriminate |].
  destruct (truthy (dict_get fields "deals" (JArr []))) eqn:Ht; simpl.
  - fold path.
    split; [intros fields' [= <-] Hf; congruence |].
    split; [intros p [= <-]; split; [reflexivity | apply lookup_insert_eq] |].
    split; [eapply trace_grows_one; reflexivity |].
    split; [intros other Hne; apply lookup_insert_ne; congruence |].
    repeat split.
  - split; [reflexivity |]. split; [discriminate |].
    split; [apply trace_grows_refl |]. repeat split.
Qed.

Lemma escape_char_as_is c : written_as_is c = true -> escape_char c = String c EmptyString.
Proof.
  unfold written_as_is, escape_char. intros H.
  apply andb_prop in H as [H H92]. apply andb_prop in H as [H32 H34].
  apply Z.leb_le in H32. apply negb_true_iff in H34, H92. rewrite H34, H92.
  repeat match goal with
         | |- context [?a =? ?b] => destruct (Z.eqb_spec a b); [lia |]
         end.
  destruct (Z.ltb_spec (Z.of_N (N_of_ascii c)) 32); [lia | reflexivity].
Qed.

Lemma escape_string_as_is s : all_written_as_is s = true -> escape_string s = s.
Proof.
  induction s as [| c s IH]; simpl; [reflexivity |].
  intros H. apply andb_prop in H as [Hc Hs].
  rewrite (escape_char_as_is c Hc), (IH Hs). reflexivity.
Qed.

(** X5. Text is written as it is ([ensure_ascii=False]): a string whose
    bytes are neither control characters nor the quote nor the backslash
    is dumped between two quotes unchanged, and every byte from 128 up,
    that is every byte of a non-ASCII character, is such a byte. *)
Theorem json_dump_keeps_text s :
  all_written_as_is s = true ->
  json_dump (JStr s) = dquote +:+ s +:+ dquote
  /\ (forall c, 128 <= Z.of_N (N_of_ascii c) -> written_as_is c = true).
Proof.
  intros H. split.
  - unfold json_dump. simpl. unfold encode_basestring. rewrite (escape_string_as_is s H).
    reflexivity.
  - intros c Hc. unfold written_as_is.
    destruct (Z.leb_spec 32 (Z.of_N (N_of_ascii c))); [| lia].
    destruct (Z.eqb_spec (Z.of_N (N_of_ascii c)) 34); [lia |].
    destruct (Z.eqb_spec (Z.of_N (N_of_ascii c)) 92); [lia | reflexivity].
Qed.

(** *** File names *)

Lemma string_length_app (a b : string) :
  String.length (a +:+ b) = (String.length a + String.length b)%nat.
Proof.
  induction a as [| x a IH]; [reflexivity |].
  change (S (String.length (a +:+ b)) = S (String.length a + String.length b)).
  rewrite IH. reflexivity.
Qed.

Lemma string_app_inv_length (a a' b b' : string) :
  String.length a = String.length a' -> a +:+ b = a' +:+ b' -> a = a' /\ b = b'.
Proof.
  revert a'. induction a as [| x a IH]; intros [| x' a'] Hlen Heq; simpl in Hlen;
    try discriminate.
  - split; [reflexivity | exact Heq].
  - change (String x (a +:+ b) = String x' (a' +:+ b')) in Heq.
    injection Heq as -> Heq. destruct (IH a' ltac:(lia) Heq) as [-> ->].
    split; reflexivity.
Qed.

Lemma string_app_inv_tail (a a' c : string) : a +:+ c = a' +:+ c -> a = a'.
Proof.
  intros Heq. apply (string_app_inv_length a a' c c); [| exact Heq].
  apply (f_equal String.length) in Heq. rewrite !string_length_app in Heq. lia.
Qed.

Lemma zero_pad_4_table :
  forallb (fun n => Nat.eqb (String.length (zero_pad 4 n)) 4
                    && (digits_value 0 (zero_pad 4 n) =? n))
          (seqZ 0 10000) = true.
Proof. vm_compute. reflexivity. Qed.

Lemma zero_pad_2_table :
  forallb (fun n => Nat.eqb (String.length (zero_pad 2 n)) 2
                    && (digits_value 0 (zero_pad 2 n) =? n))
          (seqZ 0 100) = true.
Proof. vm_compute. reflexivity. Qed.

Lemma zero_pad_4_spec n :
  0 <= n < 10000 ->
  String.length (zero_pad 4 n) = 4%nat /\ digits_value 0 (zero_pad 4 n) = n.
Proof.
  intros Hn. pose proof zero_pad_4_table as T. rewrite forallb_forall in T.
  specialize (T n). rewrite <- list_elem_of_In, elem_of_seqZ in T.
  specialize (T ltac:(lia)). apply andb_prop in T as [T1 T2].
  split; [apply Nat.eqb_eq, T1 | apply Z.eqb_eq, T2].
Qed.

Lemma zero_pad_2_spec n :
  0 <= n < 100 ->
  String.length (zero_pad 2 n) = 2%nat /\ digits_value 0 (zero_pad 2 n) = n.
Proof.
  intros Hn. pose proof zero_pad_2_table as T. rewrite forallb_forall in T.
  specialize (T n). rewrite <- list_elem_of_In, elem_of_seqZ in T.
  specialize (T ltac:(lia)). apply andb_prop in T as [T1 T2].
  split; [apply Nat.eqb_eq, T1 | apply Z.eqb_eq, T2].
Qed.

Lemma days_in_month_le_31 y m : 28 <= days_in_month y m <= 31.
Proof.
  unfold days_in_month.
  destruct (m =? 2); [destruct (is_leap y); lia |].
  destruct ((m =? 4) || (m =? 6) || (m =? 9) || (m =? 11)); lia.
Qed.

Lemma iso_day_length date : valid_date date -> String.length (iso_day date) = 10%nat.
Proof.
  intros (Hy & Hm & Hd). pose proof (days_in_month_le_31 (year date) (month date)).
  unfold iso_day. rewrite !string_length_app.
  destruct (zero_pad_4_spec (year date)) as [-> _]; [lia |].
  destruct (zero_pad_2_spec (month date)) as [-> _]; [lia |].
  destruct (zero_pad_2_spec (day date)) as [-> _]; [lia |].
  reflexivity.
Qed.

Lemma iso_day_inj d d' :
  valid_date d -> valid_date d' -> iso_day d = iso_day d' ->
  year d = year d' /\ month d = month d' /\ day d = day d'.
Proof.
  intros (Hy & Hm & Hd) (Hy' & Hm' & Hd') Heq.
  pose proof (days_in_month_le_31 (year d) (month d)).
  pose proof (days_in_month_le_31 (year d') (month d')).
  destruct (zero_pad_4_spec (year d)) as [Ly Vy]; [lia |].
  destruct (zero_pad_4_spec (year d')) as [Ly' Vy']; [lia |].
  destruct (zero_pad_2_spec (month d)) as [Lm Vm]; [lia |].
  destruct (zero_pad_2_spec (month d')) as [Lm' Vm']; [lia |].
  destruct (zero_pad_2_spec (day d)) as [Ld Vd]; [lia |].
  destruct (zero_pad_2_spec (day d')) as [Ld' Vd']; [lia |].
  unfold iso_day in Heq.
  apply string_app_inv_length in Heq as [E1 Heq]; [| congruence].
  change ("-" +:+ ?x) with (String "-" x) in Heq. injection Heq as Heq.
  apply string_app_inv_length in Heq as [E2 Heq]; [| congruence].
  injection Heq as Heq. change (zero_pad 2 (day d) = zero_pad 2 (day d')) in Heq.
  repeat split; congruence.
Qed.

Lemma deals_filename_inj d p d' p' :
  valid_date d -> valid_date d' ->
  Oportunidades.deals_filename d p = Oportunidades.deals_filename d' p' ->
  (year d = year d' /\ month d = month d' /\ day d = day d') /\ p = p'.
Proof.
  intros Hv Hv' Heq. unfold Oportunidades.deals_filename in Heq.
  rewrite !strftime_ymd in Heq.
  apply (inj (String.app "oportunidades_")) in Heq.
  apply string_app_inv_length in Heq as [E1 Heq];
    [| rewrite !iso_day_length by assumption; reflexivity].
  apply (inj (String.app "_p")) in Heq.
  apply string_app_inv_tail in Heq. unfold str_of_int in Heq.
  apply (inj pretty) in Heq.
  split; [apply iso_day_inj; assumption | exact Heq].
Qed.

(** X6. Two exports collide only when they are the same export: for
    valid dates, the file name built for a day and a page is the file name
    built for another day and page only if both the calendar day and the
    page number are the same.  The three scripts build the same name. *)
Theorem export_paths_distinct dir d p d' p' :
  valid_date d -> valid_date d' ->
  dir ++ [Oportunidades.deals_filename d p] = dir ++ [Oportunidades.deals_filename d' p'] ->
  (year d = year d' /\ month d = month d' /\ day d = day d' /\ p = p')
  /\ GerJsonA.deals_filename d p = Oportunidades.deals_filename d p
  /\ GerJsonB.deals_filename d p = Oportunidades.deals_filename d p.
Proof.
  intros Hv Hv' Heq. apply app_inv_head in Heq.
  assert (Heq' : Oportunidades.deals_filename d p = Oportunidades.deals_filename d' p')
    by congruence.
  destruct (deals_filename_inj d p d' p' Hv Hv' Heq') as [(Hy & Hm & Hd) Hp].
  repeat split; assumption.
Qed.

(** ** More on the page loop of exporta_oportunidades_rdstation.py *)

(** A fetch answered at once by a network that serves a book. *)
Lemma fetch_deals_serves net book date page w :
  serves_book net book ->
  1 <= retry_attempts (client_config w) ->
  exists new,
    Oportunidades.fetch_deals net date page w
    = (Ret (book page),
       mk_world (client_config w) (exporter_output_dir w) (S (http_calls w)) (trace w ++ new)
                (files w) (longest_sleep w)).
Proof.
  intros Hnet Hn. rewrite fetch_deals_unfold.
  destruct (Z.to_nat (retry_attempts (client_config w))) as [| n] eqn:En; [lia |].
  simpl. unfold bind.
  erewrite attempt_body_succeeds; [eexists; reflexivity | apply Hnet; reflexivity | reflexivity].
Qed.

(** One pass through the loop body on a served page that is not empty. *)
Lemma page_body_serves net book date page w first rest :
  serves_book net book ->
  1 <= retry_attempts (client_config w) ->
  py_get (book page) "deals" (JArr []) = Ret (JArr (first :: rest)) ->
  exists w2,
    Oportunidades.page_body net date page w
    = (Ret (if Z.of_nat (length (first :: rest)) <? per_page (client_config w)
            then Break else Continue), w2)
    /\ client_config w2 = client_config w
    /\ exporter_output_dir w2 = exporter_output_dir w
    /\ http_calls w2 = S (http_calls w)
    /\ files w2 = <[exporter_output_dir w ++ [Oportunidades.deals_filename date page]
                    := json_dump (book page)]> (files w).
Proof.
  intros Hnet Hn Hget.
  destruct (fetch_deals_serves net book date page w Hnet Hn) as (new & F).
  assert (Hfetch : fst (Oportunidades.fetch_deals net date page w) = Ret (book page))
    by (rewrite F; reflexivity).
  rewrite (page_body_on_records net date page w (book page) (first :: rest) Hfetch Hget).
  assert (Ht : truthy (book page) = true).
  { destruct (py_get_list _ _ Hget) as (fields & -> & Hdict).
    destruct fields; [discriminate | reflexivity]. }
  rewrite Ht, F. simpl negb. cbv iota.
  destruct (Z.of_nat (length (first :: rest)) <? per_page (client_config w));
    eexists; (split; [reflexivity |]); repeat split.
Qed.

(** One pass through the loop body on a served page that is empty. *)
Lemma page_body_serves_empty net book date page w :
  serves_book net book ->
  1 <= retry_attempts (client_config w) ->
  py_get (book page) "deals" (JArr []) = Ret (JArr []) ->
  exists w2,
    Oportunidades.page_body net date page w = (Ret Break, w2)
    /\ client_config w2 = client_config w
    /\ exporter_output_dir w2 = exporter_output_dir w
    /\ http_calls w2 = S (http_calls w)
    /\ files w2 = files w.
Proof.
  intros Hnet Hn Hget.
  destruct (fetch_deals_serves net book date page w Hnet Hn) as (new & F).
  assert (Hfetch : fst (Oportunidades.fetch_deals net date page w) = Ret (book page))
    by (rewrite F; reflexivity).
  rewrite (page_body_on_records net date page w (book page) [] Hfetch Hget).
  rewrite F. destruct (negb (truthy (book page)));
    eexists; (split; [reflexivity |]); repeat split.
Qed.

Lemma deals_filename_page_inj date p p' :
  Oportunidades.deals_filename date p = Oportunidades.deals_filename date p' -> p = p'.
Proof.
  unfold Oportunidades.deals_filename. intros Heq.
  apply (inj (String.app "oportunidades_")) in Heq.
  apply (inj (String.app (strftime date "%Y-%m-%d"))) in Heq.
  apply (inj (String.app "_p")) in Heq.
  apply string_app_inv_tail in Heq. apply (inj pretty) in Heq. exact Heq.
Qed.

Lemma saved_pages_other dir date book count : forall first store path,
  (forall i, (i < count)%nat ->
     path <> dir ++ [Oportunidades.deals_filename date (first + Z.of_nat i)]) ->
  saved_pages dir date book first count store !! path = store !! path.
Proof.
  induction count as [| count IH]; intros first store path Hne; simpl; [reflexivity |].
  rewrite IH.
  - apply lookup_insert_ne. specialize (Hne O ltac:(lia)). simpl in Hne.
    rewrite Z.add_0_r in Hne. congruence.
  - intros i Hi. specialize (Hne (S i) ltac:(lia)).
    replace (first + 1 + Z.of_nat i) with (first + Z.of_nat (S i)) by lia. exact Hne.
Qed.

Lemma saved_pages_lookup dir date book count : forall first store i,
  (i < count)%nat ->
  saved_pages dir date book first count store
    !! (dir ++ [Oportunidades.deals_filename date (first + Z.of_nat i)])
  = Some (json_dump (book (first + Z.of_nat i))).
Proof.
  induction count as [| count IH]; intros first store i Hi; [lia |].
  simpl. destruct i as [| i].
  - simpl. rewrite Z.add_0_r. rewrite saved_pages_other; [apply lookup_insert_eq |].
    intros j Hj Heq. apply app_inv_head in Heq.
    assert (E : Oportunidades.deals_filename date first
                = Oportunidades.deals_filename date (first + 1 + Z.of_nat j)) by congruence.
    apply deals_filename_page_inj in E. lia.
  - replace (first + Z.of_nat (S i)) with (first + 1 + Z.of_nat i) by lia.
    apply IH. lia.
Qed.

(** X7. A day of [k] full pages followed by a shorter last page: when
    the network answers every request with the page of a book whose pages
    [first .. first + k - 1] are full (not empty, at least [per_page]
    records) and whose page [first + k] is short, the page loop, given
    more fuel than [k], ends normally after exactly [k + 1] HTTP calls;
    the files are those saved for the full pages and for the last page
    unless it is empty: each holds the dump of its page, and no other
    file changed. *)
Theorem page_loop_exports_book net book date k : forall first fuel w last_records,
  serves_book net book ->
  1 <= retry_attempts (client_config w) ->
  (forall i, (i < k)%nat ->
     exists records,
       py_get (book (first + Z.of_nat i)) "deals" (JArr []) = Ret (JArr records)
       /\ records <> []
       /\ per_page (client_config w) <= Z.of_nat (length records)) ->
  py_get (book (first + Z.of_nat k)) "deals" (JArr []) = Ret (JArr last_records) ->
  Z.of_nat (length last_records) < per_page (client_config w) ->
  (k < fuel)%nat ->
  let saved := match last_records with [] => k | _ :: _ => S k end in
  exists w',
    Oportunidades.page_loop net fuel date first w = (Ret tt, w')
    /\ http_calls w' = (http_calls w + S k)%nat
    /\ client_config w' = client_config w
    /\ files w' = saved_pages (exporter_output_dir w) date book first saved (files w)
    /\ (forall i, (i < saved)%nat ->
          files w' !! (exporter_output_dir w
                       ++ [Oportunidades.deals_filename date (first + Z.of_nat i)])
          = Some (json_dump (book (first + Z.of_nat i))))
    /\ (forall path,
          (forall i, (i < saved)%nat ->
             path <> exporter_output_dir w
                     ++ [Oportunidades.deals_filename date (first + Z.of_nat i)]) ->
          files w' !! path = files w !! path).
Proof.
  assert (Main : forall first fuel w last_records,
    serves_book net book ->
    1 <= retry_attempts (client_config w) ->
    (forall i, (i < k)%nat ->
       exists records,
         py_get (book (first + Z.of_nat i)) "deals" (JArr []) = Ret (JArr records)
         /\ records <> []
         /\ per_page (client_config w) <= Z.of_nat (length records)) ->
    py_get (book (first + Z.of_nat k)) "deals" (JArr []) = Ret (JArr last_records) ->
    Z.of_nat (length last_records) < per_page (client_config w) ->
    (k < fuel)%nat ->
    exists w',
      Oportunidades.page_loop net fuel date first w = (Ret tt, w')
      /\ http_calls w' = (http_calls w + S k)%nat
      /\ client_config w' = client_config w
      /\ files w' = saved_pages (exporter_output_dir w) date book first
                      (match last_records with [] => k | _ :: _ => S k end) (files w)).
  { induction k as [| k IH]; intros first fuel w last_records Hnet Hn Hfull Hlast Hshort Hfuel;
      (destruct fuel as [| fuel]; [lia |]); simpl Oportunidades.page_loop; unfold bind at 1.
    - simpl in Hlast. rewrite Z.add_0_r in Hlast.
      destruct last_records as [| r rs].
      + destruct (page_body_serves_empty net book date first w Hnet Hn Hlast)
          as (w2 & B & C & D & N & F).
        rewrite B. exists w2. repeat split; [lia | exact C | exact F].
      + destruct (page_body_serves net book date first w r rs Hnet Hn Hlast)
          as (w2 & B & C & D & N & F).
        apply Z.ltb_lt in Hshort. rewrite Hshort in B.
        rewrite B. exists w2. repeat split; [lia | exact C | exact F].
    - destruct (Hfull O ltac:(lia)) as (records & Hget & Hne & Hge).
      simpl in Hget. rewrite Z.add_0_r in Hget.
      destruct records as [| r rs]; [congruence |].
      destruct (page_body_serves net book date first w r rs Hnet Hn Hget)
        as (w2 & B & C & D & N & F).
      assert (Hltb : (Z.of_nat (length (r :: rs)) <? per_page (client_config w)) = false)
        by (apply Z.ltb_ge; exact Hge).
      rewrite Hltb in B. rewrite B.
      destruct (IH (first + 1) fuel w2 last_records) as (w' & L & N' & C' & F');
        try assumption; try (rewrite C; assumption); try lia.
      + intros i Hi. rewrite C.
        replace (first + 1 + Z.of_nat i) with (first + Z.of_nat (S i)) by lia.
        apply Hfull. lia.
      + replace (first + 1 + Z.of_nat k) with (first + Z.of_nat (S k)) by lia. exact Hlast.
      + exists w'. split; [exact L |]. split; [lia |]. split; [congruence |].
        rewrite F', D, F. destruct last_records; reflexivity. }
  intros first fuel w last_records Hnet Hn Hfull Hlast Hshort Hfuel saved.
  destruct (Main first fuel w last_records Hnet Hn Hfull Hlast Hshort Hfuel)
    as (w' & L & N & C & F).
  exists w'. fold saved in F.
  split; [exact L |]. split; [exact N |]. split; [exact C |]. split; [exact F |].
  rewrite F. split.
  - intros i Hi. apply saved_pages_lookup, Hi.
  - intros path Hne. apply saved_pages_other, Hne.
Qed.

(** X8. The page loop has no bound of its own: against a network that
    answers every request, whatever the page number, with a page that is
    full (not empty, at least [per_page] records), it never ends; every
    amount of fuel is used up, one file being written per page. *)
Theorem page_loop_never_ends net book date fuel : forall page w,
  serves_book net book ->
  1 <= retry_attempts (client_config w) ->
  (forall p, exists records,
     py_get (book p) "deals" (JArr []) = Ret (JArr records)
     /\ records <> []
     /\ per_page (client_config w) <= Z.of_nat (length records)) ->
  fst (Oportunidades.page_loop net fuel date page w) = OutOfFuel
  /\ http_calls (snd (Oportunidades.page_loop net fuel date page w))
     = (http_calls w + fuel)%nat.
Proof.
  induction fuel as [| fuel IH]; intros page w Hnet Hn Hfull.
  - simpl. split; [reflexivity | lia].
  - simpl. unfold bind at 1 2.
    destruct (Hfull page) as (records & Hget & Hne & Hge).
    destruct records as [| r rs]; [congruence |].
    destruct (page_body_serves net book date page w r rs Hnet Hn Hget)
      as (w2 & B & C & D & N & F).
    assert (Hltb : (Z.of_nat (length (r :: rs)) <? per_page (client_config w)) = false)
      by (apply Z.ltb_ge; exact Hge).
    rewrite Hltb in B. rewrite B.
    destruct (IH (page + 1) w2) as [R1 R2]; try assumption; try (rewrite C; assumption).
    split; [exact R1 | rewrite R2; lia].
Qed.

(** ** Pages the loop of exporta_oportunidades_rdstation.py is not made for *)

(** X9. A page whose [deals] field is truthy but has no length (a
    number that is not zero, or [true]) is saved first and breaks the run
    afterwards: the file is written with the dump of the page, then
    [len] raises [TypeError] out of the page loop. *)
Theorem deals_without_length net date page w fields fuel :
  fst (Oportunidades.fetch_deals net date page w) = Ret (JObj fields) ->
  truthy (dict_get fields "deals" (JArr [])) = true ->
  py_len (dict_get fields "deals" (JArr [])) = Raise TypeError ->
  let path := exporter_output_dir w ++ [Oportunidades.deals_filename date page] in
  fst (Oportunidades.page_body net date page w) = Raise TypeError
  /\ fst (Oportunidades.page_loop net (S fuel) date page w) = Raise TypeError
  /\ files (snd (Oportunidades.page_loop net (S fuel) date page w))
     = <[path := json_dump (JObj fields)]> (files w)
  /\ http_calls (snd (Oportunidades.page_loop net (S fuel) date page w))
     = http_calls (snd (Oportunidades.fetch_deals net date page w)).
Proof.
  intros Hfetch Ht Hlen path.
  destruct (fetch_deals_same_objects net date page w) as [Hc Hd].
  assert (Hf := fetch_deals_same_files net date page w). unfold same_files in Hf.
  assert (Hfields : fields <> []).
  { intros ->. simpl in Ht. discriminate. }
  assert (B : exists w2,
             Oportunidades.page_body net date page w = (Raise TypeError, w2)
             /\ files w2 = <[path := json_dump (JObj fields)]> (files w)
             /\ http_calls w2 = http_calls (snd (Oportunidades.fetch_deals net date page w))).
  { unfold Oportunidades.page_body, bind at 1.
    destruct (Oportunidades.fetch_deals net date page w) as [r w1]. simpl in *. subst r.
    destruct fields as [| f fs]; [congruence |].
    change (negb (truthy (JObj (f :: fs)))) with false. cbv iota. unfold bind at 1.
    rewrite (save_deals_writes (JObj (f :: fs)) date page w1 _ eq_refl Ht).
    unfold bind, log, emit, lift, ret.
    change (py_get (JObj (f :: fs)) "deals" (JArr []))
      with (Ret (dict_get (f :: fs) "deals" (JArr []))).
    cbv iota. rewrite Hlen.
    eexists. split; [reflexivity |]. simpl. rewrite Hd, Hf. split; reflexivity. }
  destruct B as (w2 & B & F & N).
  split; [rewrite B; reflexivity |].
  simpl. unfold bind. rewrite B. simpl. repeat split; assumption.
Qed.

(** What the loop body does with a truthy page that is not an object. *)
Lemma page_body_not_object net date page w data :
  fst (Oportunidades.fetch_deals net date page w) = Ret data ->
  truthy data = true ->
  is_object data = false ->
  Oportunidades.page_body net date page w
  = (Raise AttributeError, snd (Oportunidades.fetch_deals net date page w)).
Proof.
  intros Hfetch Ht Hobj.
  unfold Oportunidades.page_body, bind at 1.
  destruct (Oportunidades.fetch_deals net date page w) as [r w1]. simpl in *. subst r.
  rewrite Ht. simpl negb. cbv iota.
  unfold Oportunidades.save_deals, bind, lift.
  destruct data; try discriminate; reflexivity.
Qed.

(** X10. A truthy first page that is not an object (a bare list of
    records, say) ends the whole run on the first day: nothing is saved,
    no further request is made, [main] raises [AttributeError], and the
    script logs it once and ends normally. *)
Theorem script_logs_bad_page net tok now fuel w data :
  let start_date := mk_datetime 2024 7 30 0 0 0 0 in
  let w0 := mk_world (APIConfig_defaults Oportunidades.main_base_url tok)
                     Oportunidades.main_output_dir (http_calls w)
                     (trace w ++ [EvMkdir Oportunidades.main_output_dir]) (files w)
                     (longest_sleep w) in
  let w1 := snd (Oportunidades.fetch_deals net start_date 1 w0) in
  datetime_leb start_date now = true ->
  fst (Oportunidades.fetch_deals net start_date 1 w0) = Ret data ->
  truthy data = true ->
  is_object data = false ->
  Oportunidades.main net tok now (S (S fuel)) w = (Raise AttributeError, w1)
  /\ Oportunidades.script net tok now (S (S fuel)) w
     = (Ret tt,
        mk_world (client_config w1) (exporter_output_dir w1) (http_calls w1)
                 (trace w1 ++ [EvLog ERROR (Msg Unexpected [VExn AttributeError])]) (files w1)
                 (longest_sleep w1))
  /\ files w1 = files w.
Proof.
  intros start_date w0 w1 Hleb Hfetch Ht Hobj.
  assert (B := page_body_not_object net start_date 1 w0 data Hfetch Ht Hobj).
  fold w1 in B.
  assert (Hmain : Oportunidades.main net tok now (S (S fuel)) w = (Raise AttributeError, w1)).
  { unfold Oportunidades.main, bind at 1 2, RDStationClient, DataExporter.
    cbn [client_config exporter_output_dir http_calls trace files longest_sleep fst snd].
    fold start_date. fold w0.
    simpl Oportunidades.day_loop. rewrite Hleb. unfold bind at 1.
    simpl Oportunidades.page_loop. unfold bind at 1. rewrite B. reflexivity. }
  split; [exact Hmain |]. split.
  - unfold Oportunidades.script. rewrite Hmain. reflexivity.
  - unfold w1. rewrite (fetch_deals_same_files net start_date 1 w0). reflexivity.
Qed.

(** ** The calendar of the day loop *)

Lemma days_before_next_year y :
  days_before_year (y + 1) = days_before_year y + 365 + (if is_leap y then 1 else 0).
Proof.
  unfold days_before_year, is_leap. replace (y + 1 - 1) with y by lia.
  destruct (Z.eqb_spec (y mod 4) 0), (Z.eqb_spec (y mod 100) 0), (Z.eqb_spec (y mod 400) 0);
    simpl; Z.div_mod_to_equations; lia.
Qed.

Lemma days_before_year_mono a b : a <= b -> days_before_year a <= days_before_year b.
Proof. intros H. unfold days_before_year. Z.div_mod_to_equations. lia. Qed.

Lemma month_cases m :
  1 <= m <= 12 ->
  m = 1 \/ m = 2 \/ m = 3 \/ m = 4 \/ m = 5 \/ m = 6 \/ m = 7 \/ m = 8 \/ m = 9 \/ m = 10
  \/ m = 11 \/ m = 12.
Proof. lia. Qed.

Lemma days_before_next_month y m :
  1 <= m <= 12 ->
  days_before_month y m + days_in_month y m
  = if m =? 12 then 365 + (if is_leap y then 1 else 0) else days_before_month y (m + 1).
Proof.
  intros Hm. unfold days_before_month, days_in_month.
  destruct (month_cases m Hm) as [-> | [-> | [-> | [-> | [-> | [-> | [-> | [-> | [-> | [-> |
    [-> | ->]]]]]]]]]]]; destruct (is_leap y); reflexivity.
Qed.

Lemma days_before_month_mono y m m' :
  1 <= m -> m <= m' -> m' <= 12 -> days_before_month y m <= days_before_month y m'.
Proof.
  intros H1 H2 H3. unfold days_before_month.
  destruct (month_cases m ltac:(lia)) as [-> | [-> | [-> | [-> | [-> | [-> | [-> | [-> | [-> |
    [-> | [-> | ->]]]]]]]]]]];
    destruct (month_cases m' ltac:(lia)) as [-> | [-> | [-> | [-> | [-> | [-> | [-> | [-> |
      [-> | [-> | [-> | ->]]]]]]]]]]]; try lia; destruct (is_leap y); simpl; lia.
Qed.

Lemma ordinal_in_year d :
  valid_date d ->
  days_before_year (year d) < ordinal d <= days_before_year (year d + 1).
Proof.
  intros (Hy & Hm & Hd). unfold ordinal.
  pose proof (days_before_next_month (year d) (month d) Hm) as Hn.
  pose proof (days_before_month_mono (year d) 1 (month d)) as H1.
  pose proof (days_before_month_mono (year d) (month d + 1) 12) as H12.
  rewrite days_before_next_year.
  assert (days_before_month (year d) 1 = 0) as E1 by reflexivity.
  assert (days_before_month (year d) 12 + 31 = 365 + (if is_leap (year d) then 1 else 0)) as E12
    by (unfold days_before_month; destruct (is_leap (year d)); reflexivity).
  destruct (Z.eqb_spec (month d) 12); lia.
Qed.

Lemma ordinal_lt_year d d' :
  valid_date d -> valid_date d' -> year d < year d' -> ordinal d < ordinal d'.
Proof.
  intros Hv Hv' Hlt.
  pose proof (ordinal_in_year d Hv). pose proof (ordinal_in_year d' Hv').
  pose proof (days_before_year_mono (year d + 1) (year d')). lia.
Qed.

Lemma ordinal_lt_month d d' :
  valid_date d -> valid_date d' -> year d = year d' -> month d < month d' ->
  ordinal d < ordinal d'.
Proof.
  intros (Hy & Hm & Hd) (Hy' & Hm' & Hd') Ey Hlt. unfold ordinal. rewrite <- Ey in *.
  pose proof (days_before_next_month (year d) (month d) Hm) as Hn.
  pose proof (days_before_month_mono (year d) (month d + 1) (month d')) as Hmono.
  destruct (Z.eqb_spec (month d) 12); lia.
Qed.

Lemma lex_tail x b : 0 <= x -> b = true -> ((0 <? x) || (0 =? x) && b) = true.
Proof.
  intros Hx ->. destruct (Z.ltb_spec 0 x); [reflexivity |].
  destruct (Z.eqb_spec 0 x); [reflexivity | lia].
Qed.

(** Comparing a day at midnight with a later moment is comparing the
    numbers of the two days. *)
Lemma datetime_leb_ordinal d d' :
  valid_date d -> valid_date d' -> at_midnight d -> valid_time d' ->
  datetime_leb d d' = (ordinal d <=? ordinal d').
Proof.
  intros Hv Hv' (Hh & Hmi & Hs & Hus) (Th & Tmi & Ts & Tus).
  unfold datetime_leb, datetime_fields, lex_leb. rewrite Hh, Hmi, Hs, Hus.
  assert (Tail : ((0 <? hour d') || (0 =? hour d')
                  && ((0 <? minute d') || (0 =? minute d')
                      && ((0 <? second d') || (0 =? second d')
                          && ((0 <? microsecond d') || (0 =? microsecond d') && true))))
                 = true).
  { repeat (apply lex_tail; [lia |]). reflexivity. }
  rewrite Tail.
  destruct (Z.ltb_spec (year d) (year d')) as [Hy | Hy]; simpl.
  { pose proof (ordinal_lt_year d d' Hv Hv' Hy). symmetry. apply Z.leb_le. lia. }
  destruct (Z.eqb_spec (year d) (year d')) as [Ey | Ny]; simpl.
  2:{ pose proof (ordinal_lt_year d' d Hv' Hv ltac:(lia)). symmetry. apply Z.leb_gt. lia. }
  destruct (Z.ltb_spec (month d) (month d')) as [Hm | Hm]; simpl.
  { pose proof (ordinal_lt_month d d' Hv Hv' Ey Hm). symmetry. apply Z.leb_le. lia. }
  destruct (Z.eqb_spec (month d) (month d')) as [Em | Nm]; simpl.
  2:{ pose proof (ordinal_lt_month d' d Hv' Hv ltac:(lia) ltac:(lia)).
      symmetry. apply Z.leb_gt. lia. }
  unfold ordinal. rewrite Ey, Em.
  destruct (Z.ltb_spec (day d) (day d')) as [Hd | Hd]; simpl.
  { symmetry. apply Z.leb_le. lia. }
  destruct (Z.eqb_spec (day d) (day d')) as [Ed | Nd]; simpl.
  - symmetry. apply Z.leb_le. lia.
  - symmetry. apply Z.leb_gt. lia.
Qed.

(** The day after a valid day. *)
Lemma add_one_day_next d :
  valid_date d ->
  (year d < 9999 \/ month d < 12 \/ day d < 31) ->
  exists d',
    add_one_day d = Ret d'
    /\ valid_date d'
    /\ ordinal d' = ordinal d + 1
    /\ hour d' = hour d /\ minute d' = minute d /\ second d' = second d
    /\ microsecond d' = microsecond d.
Proof.
  intros (Hy & Hm & Hd) Hnotlast. unfold add_one_day.
  pose proof (days_in_month_le_31 (year d) (month d)) as Hdim.
  pose proof (days_before_next_month (year d) (month d) Hm) as Hn.
  destruct (Z.ltb_spec (day d) (days_in_month (year d) (month d))) as [Hlt | Hge].
  - eexists. split; [reflexivity |]. unfold valid_date, ordinal.
    cbn [year month day hour minute second microsecond]. repeat split; lia.
  - destruct (Z.ltb_spec (month d) 12) as [Hm12 | Hm12].
    + eexists. split; [reflexivity |]. unfold valid_date, ordinal.
      cbn [year month day hour minute second microsecond].
      pose proof (days_in_month_le_31 (year d) (month d + 1)).
      destruct (Z.eqb_spec (month d) 12); [lia |].
      repeat split; lia.
    + assert (month d = 12) as E12 by lia.
      assert (days_in_month (year d) (month d) = 31) as E31 by (rewrite E12; reflexivity).
      destruct (Z.ltb_spec (year d) 9999) as [Hy9 | Hy9]; [| lia].
      eexists. split; [reflexivity |]. unfold valid_date, ordinal.
      cbn [year month day hour minute second microsecond].
      rewrite days_before_next_year. rewrite E12 in *.
      change (12 =? 12) with true in Hn. cbv iota in Hn.
      assert (days_before_month (year d + 1) 1 = 0) as E1 by reflexivity.
      assert (days_in_month (year d + 1) 1 = 31) as E2 by reflexivity.
      rewrite E1, E2. repeat split; lia.
Qed.

(** X11. [current_date += timedelta(days=1)] moves to the next
    calendar day: for every valid date but 9999-12-31 the result is a
    valid date whose day number is one more and whose time of day is the
    same; on 9999-12-31 it raises [OverflowError]. *)
Theorem add_one_day_is_successor d :
  valid_date d ->
  (year d = 9999 /\ month d = 12 /\ day d = 31 -> add_one_day d = Raise OverflowError)
  /\ (year d < 9999 \/ month d < 12 \/ day d < 31 ->
      exists d',
        add_one_day d = Ret d'
        /\ valid_date d'
        /\ ordinal d' = ordinal d + 1
        /\ hour d' = hour d /\ minute d' = minute d /\ second d' = second d
        /\ microsecond d' = microsecond d).
Proof.
  intros Hv. split.
  - intros (Ey & Em & Ed). unfold add_one_day. rewrite Ey, Em, Ed. reflexivity.
  - apply add_one_day_next, Hv.
Qed.

(** ** The day loop against a network that is down *)

(** A day on which every attempt fails: the page loop ends after the
    first fetch. *)
Lemma page_loop_network_down net fuel date page w :
  (forall k r, attempt_fails (net k r) = true) ->
  (2 <= retry_attempts (client_config w) -> sleep_takes w (retry_delay (client_config w))) ->
  exists w',
    Oportunidades.page_loop net (S fuel) date page w = (Ret tt, w')
    /\ client_config w' = client_config w
    /\ exporter_output_dir w' = exporter_output_dir w
    /\ http_calls w' = (http_calls w + Z.to_nat (retry_attempts (client_config w)))%nat
    /\ files w' = files w
    /\ longest_sleep w' = longest_sleep w.
Proof.
  intros Hdown Hdelay.
  destruct (attempts_all_fail net (Z.to_nat (retry_attempts (client_config w))) date page
              (Oportunidades.fetch_params (client_config w) date page) 0 w)
    as (new & E & _); [lia | intros Hn; apply Hdelay; lia | intros; apply Hdown |].
  rewrite <- fetch_deals_unfold in E.
  simpl. unfold bind at 1. unfold Oportunidades.page_body, bind at 1. rewrite E.
  simpl. eexists. split; [reflexivity |]. repeat split.
Qed.


(** ** The first script of the unnamed source file *)

Lemma fetch_deals_unfold_A net date page w :
  GerJsonA.fetch_deals net date page w
  = GerJsonA.attempts net (Z.to_nat (retry_attempts (client_config w))) date page
      (GerJsonA.fetch_params (client_config w) date page) 0 w.
Proof. reflexivity. Qed.

Lemma qtd_raises v e : GerJsonA.qtd v = Raise e -> e = AttributeError \/ e = TypeError.
Proof.
  unfold GerJsonA.qtd. destruct v; simpl; try (intros [= <-]; auto; fail); try discriminate.
  destruct (dict_get fields "deals" (JArr [])); simpl; try discriminate;
    intros [= <-]; auto.
Qed.

(** The first attempt of this script when it gets a decodable answer. *)
Lemma fetch_deals_answered_A net date page w status v :
  1 <= retry_attempts (client_config w) ->
  net (http_calls w) (mk_request (base_url (client_config w))
                                 (GerJsonA.fetch_params (client_config w) date page)
                                 GerJsonA.client_headers (Some 30))
  = Response status (BodyJson v) ->
  is_error_status status = false ->
  exists new,
    GerJsonA.fetch_deals net date page w
    = (match GerJsonA.qtd v with
       | Ret _ => Ret v
       | Raise e => Raise e
       | OutOfFuel => OutOfFuel
       end,
       mk_world (client_config w) (exporter_output_dir w) (S (http_calls w)) (trace w ++ new)
                (files w) (longest_sleep w))
    /\ count_gets new = 1%nat /\ count_sleeps new = O.
Proof.
  intros Hn Hnet Hok. rewrite fetch_deals_unfold_A.
  destruct (Z.to_nat (retry_attempts (client_config w))) as [| n] eqn:En; [lia |].
  simpl.
  unfold GerJsonA.attempt_body, try_except_RequestException, bind, get_config,
    requests_get, raise_for_status, response_json, log, emit, lift, ret.
  simpl. rewrite Hnet. simpl. unfold is_error_status in Hok. rewrite Hok. simpl.
  destruct (GerJsonA.qtd v) as [c | e |] eqn:Q; simpl.
  - rewrite <- ?app_assoc. eexists. split; [reflexivity |]. split; reflexivity.
  - destruct (qtd_raises v e Q) as [-> | ->];
      eexists; (split; [reflexivity |]); split; reflexivity.
  - eexists. split; [reflexivity |]. split; reflexivity.
Qed.

(** X13. In the first script of the unnamed source file the fetch is
    not closed under exceptions: the record count it logs is computed
    inside the [try] block, so a decoded body that is neither a list nor
    an object (the JSON [null] included) raises [AttributeError], and an
    object whose [deals] value has no length raises [TypeError]; the
    exception leaves [fetch_deals] after a single HTTP call, without a
    retry and without a sleep. *)
Theorem fetch_deals_count_raises_A net date page w status v e :
  1 <= retry_attempts (client_config w) ->
  net (http_calls w) (mk_request (base_url (client_config w))
                                 (GerJsonA.fetch_params (client_config w) date page)
                                 GerJsonA.client_headers (Some 30))
  = Response status (BodyJson v) ->
  is_error_status status = false ->
  GerJsonA.qtd v = Raise e ->
  fst (GerJsonA.fetch_deals net date page w) = Raise e
  /\ http_calls (snd (GerJsonA.fetch_deals net date page w)) = S (http_calls w)
  /\ count_sleeps (new_events (GerJsonA.fetch_deals net date page) w) = O
  /\ (isinstance_list v = false -> is_object v = false -> e = AttributeError)
  /\ (forall fields, v = JObj fields -> e = TypeError).
Proof.
  intros Hn Hnet Hok Hq.
  destruct (fetch_deals_answered_A net date page w status v Hn Hnet Hok) as (new & E & G & S).
  rewrite Hq in E.
  rewrite (new_events_spec _ w new) by (rewrite E; reflexivity).
  rewrite E. split; [reflexivity |]. split; [reflexivity |]. split; [exact S |]. split.
  - intros Hl Ho. unfold GerJsonA.qtd in Hq. rewrite Hl in Hq.
    destruct v; simpl in *; try discriminate; congruence.
  - intros fields ->. unfold GerJsonA.qtd in Hq. simpl in Hq.
    destruct (dict_get fields "deals" (JArr [])); simpl in Hq; congruence.
Qed.

(** X14. The exporter of the first script of the unnamed source file
    writes every page it is handed: after a fetch that returned a truthy
    page of either shape, the loop body saves the dump of the page even
    when its record list is empty, and only then applies the record count
    rule. *)
Theorem page_body_always_saves_A net date page w data records :
  fst (GerJsonA.fetch_deals net date page w) = Ret data ->
  truthy data = true ->
  GerJsonA.registros data = Ret (JArr records) ->
  let path := exporter_output_dir w ++ [GerJsonA.deals_filename date page] in
  fst (GerJsonA.page_body net date page w)
  = Ret (count_rule (per_page (client_config w)) (Z.of_nat (length records)))
  /\ files (snd (GerJsonA.page_body net date page w)) = <[path := json_dump data]> (files w)
  /\ http_calls (snd (GerJsonA.page_body net date page w))
     = http_calls (snd (GerJsonA.fetch_deals net date page w)).
Proof.
  intros Hfetch Ht Hreg path.
  destruct (fetch_deals_same_objects_A net date page w) as [Hc Hd].
  assert (Hf : files (snd (GerJsonA.fetch_deals net date page w)) = files w).
  { apply (fetch_deals_respects_A same_files not_a_write); simpl; auto.
    - intros w1. reflexivity.
    - unfold same_files. intros; congruence.
    - intros; reflexivity.
    - intros; apply requests_get_same_files. }
  assert (B : exists w2,
             GerJsonA.page_body net date page w
             = (Ret (count_rule (per_page (client_config w)) (Z.of_nat (length records))), w2)
             /\ files w2 = <[path := json_dump data]> (files w)
             /\ http_calls w2 = http_calls (snd (GerJsonA.fetch_deals net date page w))).
  { unfold GerJsonA.page_body, bind at 1.
    destruct (GerJsonA.fetch_deals net date page w) as [r w1]. simpl in Hfetch, Hc, Hd, Hf.
    subst r. rewrite Ht. simpl negb. cbv iota.
    unfold GerJsonA.save_deals, bind, get_output_dir, write_file, log, emit, lift, ret,
      get_config.
    rewrite Hreg. cbn [py_len truthy negb fst snd client_config exporter_output_dir files
                       http_calls].
    rewrite Hd, Hf. fold path.
    destruct records as [| first rest].
    - cbn [negb fst snd files http_calls]. eexists. split; [reflexivity |]. split; reflexivity.
    - cbn [negb fst snd client_config files http_calls]. rewrite Hc.
      rewrite <- count_rule_ltb by (simpl length; lia).
      destruct (Z.of_nat (length (first :: rest)) <? per_page (client_config w));
        eexists; (split; [reflexivity |]); split; reflexivity. }
  destruct B as (w2 & B & F & N). rewrite B. repeat split; assumption.
Qed.

(** ** The second script of the unnamed source file *)

Lemma fetch_deals_unfold_B net date page w :
  GerJsonB.fetch_deals net date page w
  = GerJsonB.attempts net (Z.to_nat (retry_attempts (client_config w))) date page
      (GerJsonB.fetch_params (client_config w) date page) 0 w.
Proof. reflexivity. Qed.

Lemma fetch_deals_serves_B net book date page w :
  serves_book net book ->
  1 <= retry_attempts (client_config w) ->
  exists new,
    GerJsonB.fetch_deals net date page w
    = (Ret (book page),
       mk_world (client_config w) (exporter_output_dir w) (S (http_calls w)) (trace w ++ new)
                (files w) (longest_sleep w)).
Proof.
  intros Hnet Hn. rewrite fetch_deals_unfold_B.
  destruct (Z.to_nat (retry_attempts (client_config w))) as [| n] eqn:En; [lia |].
  simpl.
  unfold GerJsonB.attempt_body, try_except_RequestException, bind, get_config,
    requests_get, raise_for_status, response_json, print, emit, lift, ret.
  simpl. erewrite Hnet by reflexivity. simpl. rewrite <- ?app_assoc.
  eexists. reflexivity.
Qed.

(** What the loop body of this script does with a truthy page. *)
Lemma page_body_B net date page w data :
  fst (GerJsonB.fetch_deals net date page w) = Ret data ->
  truthy data = true ->
  exists w2,
    GerJsonB.page_body net date page w
    = (match py_get data "has_more" (JBool false) with
       | Ret has_more => Ret (if truthy has_more then Continue else Break)
       | Raise e => Raise e
       | OutOfFuel => OutOfFuel
       end, w2)
    /\ client_config w2 = client_config (snd (GerJsonB.fetch_deals net date page w))
    /\ exporter_output_dir w2 = exporter_output_dir (snd (GerJsonB.fetch_deals net date page w))
    /\ http_calls w2 = http_calls (snd (GerJsonB.fetch_deals net date page w))
    /\ files w2
       = <[exporter_output_dir (snd (GerJsonB.fetch_deals net date page w))
           ++ [GerJsonB.deals_filename date page] := json_dump data]>
           (files (snd (GerJsonB.fetch_deals net date page w))).
Proof.
  intros Hfetch Ht.
  unfold GerJsonB.page_body, bind at 1.
  destruct (GerJsonB.fetch_deals net date page w) as [r w1]. simpl in Hfetch. subst r.
  rewrite Ht. simpl negb. cbv iota.
  unfold GerJsonB.save_deals, bind, get_output_dir, write_file, print, emit, lift, ret.
  destruct (py_get data "has_more" (JBool false)) as [has_more | e |];
    [destruct (truthy has_more) | |];
    eexists; (split; [reflexivity |]); repeat split.
Qed.

(** X15. The second script of the unnamed source file saves a page
    before it looks at it: a non-empty bare list of records is written to
    its file, and only then does reading [has_more] raise
    [AttributeError] out of the page loop. *)
Theorem bare_list_saved_then_raises_B net date page w item items fuel :
  fst (GerJsonB.fetch_deals net date page w) = Ret (JArr (item :: items)) ->
  fst (GerJsonB.page_loop net (S fuel) date page w) = Raise AttributeError
  /\ files (snd (GerJsonB.page_loop net (S fuel) date page w))
     !! (exporter_output_dir (snd (GerJsonB.fetch_deals net date page w))
         ++ [GerJsonB.deals_filename date page])
     = Some (json_dump (JArr (item :: items)))
  /\ http_calls (snd (GerJsonB.page_loop net (S fuel) date page w))
     = http_calls (snd (GerJsonB.fetch_deals net date page w)).
Proof.
  intros Hfetch.
  destruct (page_body_B net date page w _ Hfetch eq_refl) as (w2 & B & _ & _ & N & F).
  simpl in B. simpl GerJsonB.page_loop. unfold bind. rewrite B. simpl.
  split; [reflexivity |]. split; [| exact N].
  rewrite F. apply lookup_insert_eq.
Qed.

(** X16. The page loop of the second script of the unnamed source file
    goes on for as long as the pages say [has_more]: against a network
    whose every page is an object with a truthy [has_more], however few
    records it holds, the loop never ends; every amount of fuel is used
    up, with one HTTP call per page. *)
Theorem page_loop_never_ends_B net book date fuel : forall page w,
  serves_book net book ->
  1 <= retry_attempts (client_config w) ->
  (forall p, exists fields,
     book p = JObj fields /\ truthy (dict_get fields "has_more" (JBool false)) = true) ->
  fst (GerJsonB.page_loop net fuel date page w) = OutOfFuel
  /\ http_calls (snd (GerJsonB.page_loop net fuel date page w)) = (http_calls w + fuel)%nat.
Proof.
  induction fuel as [| fuel IH]; intros page w Hnet Hn Hmore.
  - simpl. split; [reflexivity | lia].
  - destruct (Hmore page) as (fields & Hbook & Htrue).
    destruct (fetch_deals_serves_B net book date page w Hnet Hn) as (new & F).
    assert (Hfetch : fst (GerJsonB.fetch_deals net date page w) = Ret (book page))
      by (rewrite F; reflexivity).
    assert (Ht : truthy (book page) = true).
    { rewrite Hbook. destruct fields; [discriminate | reflexivity]. }
    destruct (page_body_B net date page w _ Hfetch Ht) as (w2 & B & C & _ & N & _).
    rewrite Hbook in B. simpl py_get in B. cbv iota in B. rewrite Htrue in B.
    rewrite F in C, N. simpl in C, N.
    simpl GerJsonB.page_loop. unfold bind. rewrite B.
    destruct (IH (page + 1) w2) as [R1 R2]; try assumption; try (rewrite C; assumption).
    split; [exact R1 | rewrite R2, N; lia].
Qed.

(** ** The two objects in the scripts of the unnamed source file *)

Lemma keeps_emit e : respects same_objects (emit e).
Proof. intros w. split; reflexivity. Qed.

Lemma keeps_sleep s : respects same_objects (sleep s).
Proof.
  intros w. unfold sleep.
  destruct (_ || _); [split; reflexivity |].
  destruct (s <? 0); [split; reflexivity |].
  destruct (_ <? s); split; reflexivity.
Qed.

Lemma keeps_requests_get net r : respects same_objects (requests_get net r).
Proof. intros w. apply requests_get_same_objects. Qed.

Lemma keeps_write_file path content : respects same_objects (write_file path content).
Proof. intros w. split; reflexivity. Qed.

Ltac keeps_step :=
  first
    [ apply (respects_ret same_objects same_objects_refl)
    | apply (respects_lift same_objects same_objects_refl)
    | apply (respects_get_config same_objects same_objects_refl)
    | apply (respects_get_output_dir same_objects same_objects_refl)
    | apply (respects_raise_for_status same_objects same_objects_refl)
    | apply (respects_response_json same_objects same_objects_refl)
    | apply keeps_emit
    | apply keeps_sleep
    | apply keeps_requests_get
    | apply keeps_write_file
    | apply (respects_bind same_objects same_objects_trans); [ | intros ? ]
    | apply (respects_try same_objects same_objects_trans); [ | intros ? ]
    | match goal with
      | |- respects _ (if ?b then _ else _) => destruct b
      | |- respects _ (match ?x with _ => _ end) => destruct x
      end ].

Lemma keeps_attempts_A net n date page ps : forall attempt,
  respects same_objects (GerJsonA.attempts net n date page ps attempt).
Proof.
  induction n as [| n IH]; intros attempt; simpl; [keeps_step |].
  apply (respects_bind same_objects same_objects_trans).
  - unfold GerJsonA.attempt_body, log. repeat keeps_step.
  - intros [v |]; [keeps_step | apply IH].
Qed.

Lemma keeps_page_body_A net date page : respects same_objects (GerJsonA.page_body net date page).
Proof.
  unfold GerJsonA.page_body, GerJsonA.fetch_deals, GerJsonA.save_deals, log.
  apply (respects_bind same_objects same_objects_trans).
  - keeps_step; [keeps_step |]. keeps_step; [keeps_step |]. apply keeps_attempts_A.
  - intros data. repeat keeps_step.
Qed.

Lemma keeps_page_loop_A net fuel date : forall page,
  respects same_objects (GerJsonA.page_loop net fuel date page).
Proof.
  induction fuel as [| fuel IH]; intros page; simpl; [keeps_step |].
  apply (respects_bind same_objects same_objects_trans); [apply keeps_page_body_A |].
  intros [|]; [keeps_step | apply IH].
Qed.

Lemma keeps_day_loop_A net end_date fuel : forall current_date,
  respects same_objects (GerJsonA.day_loop net fuel current_date end_date).
Proof.
  induction fuel as [| fuel IH]; intros current_date; simpl; [keeps_step |].
  destruct (datetime_leb current_date end_date); [| keeps_step].
  apply (respects_bind same_objects same_objects_trans); [apply keeps_page_loop_A |].
  intros _. apply (respects_bind same_objects same_objects_trans); [keeps_step |].
  intros next. apply IH.
Qed.

Lemma keeps_attempts_B net n date page ps : forall attempt,
  respects same_objects (GerJsonB.attempts net n date page ps attempt).
Proof.
  induction n as [| n IH]; intros attempt; simpl; [keeps_step |].
  apply (respects_bind same_objects same_objects_trans).
  - unfold GerJsonB.attempt_body, print. repeat keeps_step.
  - intros [v |]; [keeps_step | apply IH].
Qed.

Lemma keeps_page_body_B net date page : respects same_objects (GerJsonB.page_body net date page).
Proof.
  unfold GerJsonB.page_body, GerJsonB.fetch_deals, GerJsonB.save_deals, print.
  apply (respects_bind same_objects same_objects_trans).
  - keeps_step; [keeps_step |]. keeps_step; [keeps_step |]. apply keeps_attempts_B.
  - intros data. repeat keeps_step.
Qed.

Lemma keeps_page_loop_B net fuel date : forall page,
  respects same_objects (GerJsonB.page_loop net fuel date page).
Proof.
  induction fuel as [| fuel IH]; intros page; simpl; [keeps_step |].
  apply (respects_bind same_objects same_objects_trans); [apply keeps_page_body_B |].
  intros [|]; [keeps_step | apply IH].
Qed.

Lemma keeps_day_loop_B net end_date fuel : forall current_date,
  respects same_objects (GerJsonB.day_loop net fuel current_date end_date).
Proof.
  induction fuel as [| fuel IH]; intros current_date; simpl; [keeps_step |].
  destruct (datetime_leb current_date end_date); [| keeps_step].
  apply (respects_bind same_objects same_objects_trans); [apply keeps_page_loop_B |].
  intros _. apply (respects_bind same_objects same_objects_trans); [keeps_step |].
  intros next. apply IH.
Qed.

(** X17. The two scripts of the unnamed source file treat their
    configuration and their output directory as read-only too: a page of
    the loop, a day and the whole loop over the days hand both objects on
    unchanged, whatever happens, and after [main], or after the script
    that wraps it, the configuration is the one [main] built (the
    dataclass defaults around the URL and the token) and the directory the
    one it named. *)
Theorem objects_never_mutated_AB net tok now date end_date page fuel w :
  (same_objects w (snd (GerJsonA.page_body net date page w))
   /\ same_objects w (snd (GerJsonA.page_loop net fuel date page w))
   /\ same_objects w (snd (GerJsonA.day_loop net fuel date end_date w))
   /\ client_config (snd (GerJsonA.script net now fuel w))
      = APIConfig_defaults GerJsonA.main_base_url GerJsonA.main_token
   /\ exporter_output_dir (snd (GerJsonA.script net now fuel w)) = GerJsonA.main_output_dir)
  /\ (same_objects w (snd (GerJsonB.page_body net date page w))
      /\ same_objects w (snd (GerJsonB.page_loop net fuel date page w))
      /\ same_objects w (snd (GerJsonB.day_loop net fuel date end_date w))
      /\ client_config (snd (GerJsonB.script net tok now fuel w))
         = APIConfig_defaults GerJsonB.main_base_url tok
      /\ exporter_output_dir (snd (GerJsonB.script net tok now fuel w))
         = GerJsonB.main_output_dir).
Proof.
  split.
  - split; [apply keeps_page_body_A |]. split; [apply keeps_page_loop_A |].
    split; [apply keeps_day_loop_A |].
    assert (Hmain :
      same_objects
        (mk_world (APIConfig_defaults GerJsonA.main_base_url GerJsonA.main_token)
                  GerJsonA.main_output_dir (http_calls w)
                  (trace w ++ [EvMkdir GerJsonA.main_output_dir]) (files w) (longest_sleep w))
        (snd (GerJsonA.main net now fuel w))) by apply keeps_day_loop_A.
    destruct Hmain as [Hc Hd]. unfold GerJsonA.script.
    destruct (GerJsonA.main net now fuel w) as [[[] | e |] w1];
      unfold log, emit; simpl in *; split; assumption.
  - split; [apply keeps_page_body_B |]. split; [apply keeps_page_loop_B |].
    split; [apply keeps_day_loop_B |].
    assert (Hmain :
      same_objects
        (mk_world (APIConfig_defaults GerJsonB.main_base_url tok)
                  GerJsonB.main_output_dir (http_calls w)
                  (trace w ++ [EvMkdir GerJsonB.main_output_dir]) (files w) (longest_sleep w))
        (snd (GerJsonB.main net tok now fuel w))) by apply keeps_day_loop_B.
    destruct Hmain as [Hc Hd]. unfold GerJsonB.script.
    destruct (GerJsonB.main net tok now fuel w) as [[[] | e |] w1];
      unfold print, emit; simpl in *; split; assumption.
Qed.

(** ** Runs that meet the hypotheses above *)

Lemma serves_book_network book : serves_book (book_network book) book.
Proof. intros k r p H. unfold book_network. rewrite H. reflexivity. Qed.

Lemma serves_constant page : serves_book (serving page) (fun _ => page).
Proof. intros k r p H. reflexivity. Qed.

Lemma fetch_deals_first_success_witness :
  exists w',
    Oportunidades.fetch_deals (flaky_network one_deal_page) sample_date 1 sample_world
    = (Ret one_deal_page, w')
    /\ http_calls w' = 3%nat
    /\ count_sleeps (new_events (Oportunidades.fetch_deals (flaky_network one_deal_page)
                                   sample_date 1) sample_world) = 2%nat.
Proof.
  destruct (fetch_deals_first_success (flaky_network one_deal_page) sample_date 1 sample_world
              2 200 one_deal_page) as (w' & E & N & _ & _ & S).
  - simpl. lia.
  - intros _. unfold sleep_takes, sleep_limit. simpl. lia.
  - intros j Hj. destruct j as [| [| j]]; [reflexivity | reflexivity | lia].
  - reflexivity.
  - reflexivity.
  - exists w'. split; [exact E |]. split; [exact N | exact S].
Defined.

Lemma fetch_deals_refused_delay_witness :
  (let out := Oportunidades.fetch_deals failing_network sample_date 1 negative_delay_world in
   fst out = Raise ValueError /\ http_calls (snd out) = 1%nat)
  /\ (let out := Oportunidades.fetch_deals failing_network sample_date 1 overlong_delay_world in
      fst out = Raise OverflowError /\ http_calls (snd out) = 1%nat)
  /\ (let out := Oportunidades.fetch_deals failing_network sample_date 1 refused_delay_world in
      fst out = Raise OSError /\ http_calls (snd out) = 1%nat).
Proof.
  split; [| split].
  - destruct (fetch_deals_refused_delay failing_network sample_date 1 negative_delay_world)
      as (e & R & _ & Hv & _ & N & _).
    + unfold sleep_takes. simpl. lia.
    + simpl. lia.
    + reflexivity.
    + rewrite (Hv ltac:(unfold sleep_limit; simpl; lia)) in R. split; [exact R | exact N].
  - destruct (fetch_deals_refused_delay failing_network sample_date 1 overlong_delay_world)
      as (e & R & Ho & _ & _ & N & _).
    + unfold sleep_takes, sleep_limit. simpl. lia.
    + simpl. lia.
    + reflexivity.
    + rewrite (Ho ltac:(unfold sleep_limit; simpl; lia)) in R. split; [exact R | exact N].
  - destruct (fetch_deals_refused_delay failing_network sample_date 1 refused_delay_world)
      as (e & R & _ & _ & Hos & N & _).
    + unfold sleep_takes, sleep_limit. simpl. lia.
    + simpl. lia.
    + reflexivity.
    + rewrite (Hos ltac:(unfold sleep_limit; simpl; lia)) in R. split; [exact R | exact N].
Defined.

Lemma save_deals_outcomes_witness :
  Oportunidades.save_deals (JArr [deal 1]) sample_date 1 sample_world
  = (Raise AttributeError, sample_world)
  /\ Oportunidades.save_deals (JObj [("deals", JArr [])]) sample_date 1 sample_world
     = (Ret None, sample_world).
Proof.
  split.
  - destruct (save_deals_outcomes (JArr [deal 1]) sample_date 1 sample_world) as (H & _).
    apply H. reflexivity.
  - destruct (save_deals_outcomes (JObj [("deals", JArr [])]) sample_date 1 sample_world)
      as (_ & H & _).
    apply (H [("deals", JArr [])]); reflexivity.
Defined.

Lemma json_dump_keeps_text_witness :
  all_written_as_is sample_text = true
  /\ json_dump (JStr sample_text) = dquote +:+ sample_text +:+ dquote.
Proof.
  split; [reflexivity |].
  apply (json_dump_keeps_text sample_text). reflexivity.
Defined.

Lemma export_paths_distinct_witness :
  valid_date sample_date
  /\ (["out"] ++ [Oportunidades.deals_filename sample_date 1]
      = ["out"] ++ [Oportunidades.deals_filename sample_date 1])
  /\ GerJsonA.deals_filename sample_date 1 = Oportunidades.deals_filename sample_date 1.
Proof.
  split; [repeat split; vm_compute; congruence |]. split; [reflexivity |].
  destruct (export_paths_distinct ["out"] sample_date 1 sample_date 1) as (_ & H & _).
  - repeat split; vm_compute; congruence.
  - repeat split; vm_compute; congruence.
  - reflexivity.
  - exact H.
Defined.

Lemma page_loop_exports_book_witness :
  exists w',
    Oportunidades.page_loop (book_network two_page_book) 2 sample_date 1 small_page_world
    = (Ret tt, w')
    /\ http_calls w' = 2%nat
    /\ files w' !! ["out"; "oportunidades_2024-07-01_p1.json"]
       = Some (json_dump full_page_without_more)
    /\ files w' !! ["out"; "oportunidades_2024-07-01_p2.json"]
       = Some (json_dump short_page_with_more).
Proof.
  destruct (page_loop_exports_book (book_network two_page_book) two_page_book sample_date 1
              1 2 small_page_world [deal 1]) as (w' & L & N & _ & _ & Hin & _).
  - intros k r p H. unfold book_network. rewrite H. reflexivity.
  - simpl. lia.
  - intros i Hi. assert (i = O) by lia. subst i.
    exists [deal 1; deal 2]. split; [reflexivity |]. split; [discriminate | simpl; lia].
  - reflexivity.
  - simpl. lia.
  - lia.
  - exists w'. split; [exact L |]. split; [exact N |]. split.
    + apply (Hin O). lia.
    + apply (Hin 1%nat). lia.
Defined.

Lemma page_loop_never_ends_witness :
  fst (Oportunidades.page_loop (serving full_page_without_more) 3 sample_date 1
         small_page_world) = OutOfFuel
  /\ http_calls (snd (Oportunidades.page_loop (serving full_page_without_more) 3 sample_date 1
                        small_page_world)) = 3%nat.
Proof.
  apply (page_loop_never_ends (serving full_page_without_more)
           (fun _ => full_page_without_more) sample_date 3 1 small_page_world).
  - intros k r p H. reflexivity.
  - simpl. lia.
  - intros p. exists [deal 1; deal 2]. split; [reflexivity |].
    split; [discriminate | simpl; lia].
Defined.

Lemma deals_without_length_witness :
  fst (Oportunidades.page_loop (serving (JObj [("deals", JInt 5)])) 1 sample_date 1
         sample_world) = Raise TypeError
  /\ files (snd (Oportunidades.page_loop (serving (JObj [("deals", JInt 5)])) 1 sample_date 1
                   sample_world))
     = <[ ["out"] ++ [Oportunidades.deals_filename sample_date 1]
          := json_dump (JObj [("deals", JInt 5)]) ]> (files sample_world).
Proof.
  destruct (deals_without_length (serving (JObj [("deals", JInt 5)])) sample_date 1 sample_world
              [("deals", JInt 5)] O) as (_ & R & F & _); try reflexivity.
  split; [exact R | exact F].
Defined.

Lemma script_logs_bad_page_witness :
  datetime_leb (mk_datetime 2024 7 30 0 0 0 0) sample_now = true
  /\ fst (Oportunidades.script (serving (JArr [deal 1])) "t" sample_now 2 sample_world)
     = Ret tt
  /\ files (snd (Oportunidades.script (serving (JArr [deal 1])) "t" sample_now 2 sample_world))
     = files sample_world.
Proof.
  split; [reflexivity |].
  destruct (script_logs_bad_page (serving (JArr [deal 1])) "t" sample_now O sample_world
              (JArr [deal 1])) as (_ & S & F); try reflexivity.
  rewrite S. split; [reflexivity |]. simpl. exact F.
Defined.

Lemma add_one_day_is_successor_witness :
  valid_date (mk_datetime 2024 2 28 9 15 0 0)
  /\ exists d',
       add_one_day (mk_datetime 2024 2 28 9 15 0 0) = Ret d'
       /\ ordinal d' = ordinal (mk_datetime 2024 2 28 9 15 0 0) + 1.
Proof.
  split; [repeat split; vm_compute; congruence |].
  destruct (add_one_day_is_successor (mk_datetime 2024 2 28 9 15 0 0)) as [_ H].
  - repeat split; vm_compute; congruence.
  - destruct H as (d' & A & _ & O & _); [simpl; lia |].
    exists d'. split; [exact A | exact O].
Defined.


Lemma fetch_deals_count_raises_A_witness :
  fst (GerJsonA.fetch_deals (serving JNull) sample_date 1 sample_world) = Raise AttributeError
  /\ http_calls (snd (GerJsonA.fetch_deals (serving JNull) sample_date 1 sample_world))
     = 1%nat.
Proof.
  destruct (fetch_deals_count_raises_A (serving JNull) sample_date 1 sample_world 200 JNull
              AttributeError) as (R & N & _); try reflexivity.
  - simpl. lia.
  - split; [exact R | exact N].
Defined.

Lemma page_body_always_saves_A_witness :
  fst (GerJsonA.page_body empty_deals_network sample_date 1 sample_world) = Ret Break
  /\ files (snd (GerJsonA.page_body empty_deals_network sample_date 1 sample_world))
     = <[ ["out"] ++ [GerJsonA.deals_filename sample_date 1]
          := json_dump (JObj [("has_more", JBool false); ("deals", JArr [])]) ]>
         (files sample_world).
Proof.
  destruct (page_body_always_saves_A empty_deals_network sample_date 1 sample_world
              (JObj [("has_more", JBool false); ("deals", JArr [])]) [])
    as (R & F & _); try reflexivity.
  split; [exact R | exact F].
Defined.

Lemma bare_list_saved_then_raises_B_witness :
  fst (GerJsonB.page_loop (serving (JArr [deal 1])) 1 sample_date 1 sample_world)
  = Raise AttributeError
  /\ files (snd (GerJsonB.page_loop (serving (JArr [deal 1])) 1 sample_date 1 sample_world))
     !! ["out"; "oportunidades_2024-07-01_p1.json"]
     = Some (json_dump (JArr [deal 1])).
Proof.
  destruct (bare_list_saved_then_raises_B (serving (JArr [deal 1])) sample_date 1 sample_world
              (deal 1) [] O) as (R & F & _); [reflexivity |].
  split; [exact R | exact F].
Defined.

Lemma page_loop_never_ends_B_witness :
  fst (GerJsonB.page_loop (serving short_page_with_more) 3 sample_date 1 sample_world)
  = OutOfFuel
  /\ http_calls (snd (GerJsonB.page_loop (serving short_page_with_more) 3 sample_date 1
                        sample_world)) = 3%nat.
Proof.
  apply (page_loop_never_ends_B (serving short_page_with_more)
           (fun _ => short_page_with_more) sample_date 3 1 sample_world).
  - intros k r p H. reflexivity.
  - simpl. lia.
  - intros p. eexists. split; reflexivity.
Defined.
